(** * Computer-Use-Agent: the see-think-act loop, its executor and its parser

    A shallow embedding of
      - [src/utils/action_executor.py]  (class [ActionExecutor]),
      - [src/utils/ollama_client.py]    (class [OllamaVisionClient]),
      - [src/see_think_act_agent.py]    (class [SeeThinkActAgent]),
    followed by the properties of the specification that are about them.

    Python values that travel through the code (the model's reply, the tool
    call, its arguments) are JSON-like and dynamically typed: they are
    embedded as the inductive type [value], and every operation the source
    applies to them fails the way Python does on the wrong shape.  Python
    [float] is IEEE 754 binary64: it is embedded as [spec_float] with the
    standard library's operations at precision 53.  Side effects (screen
    capture, the inference round trip, pyautogui calls, [time.sleep]) are
    recorded in a log and answered by a scripted environment, which may answer
    any of them with an exception, [KeyboardInterrupt] included. *)

From Stdlib Require Import ZArith List String Ascii Bool Lia.
From Stdlib Require Import SpecFloat DecimalString.
Import ListNotations.

Set Warnings "-register-all".
Local Open Scope Z_scope.
Local Open Scope string_scope.

(** ** Exceptions *)

(** The exception classes the three files can meet.  Everything except
    [KeyboardInterrupt] derives from Python's [Exception]. *)
Inductive exn_class :=
| TypeError
| KeyError
| IndexError
| AttributeError
| ValueError
| OverflowError
| JSONDecodeError
| RecursionError
| OtherError.          (* raised by a library: mss, ollama, pyautogui, PIL *)

(** What a pure expression evaluates to: a value, or an [Exception] of class
    [c] with message [msg]. *)
Inductive result (A : Type) :=
| Ok (a : A)
| Err (c : exn_class) (msg : string).
Arguments Ok {A} a.
Arguments Err {A} c msg.

(** What a call into the outside world can raise besides: a Ctrl-C arrives
    while the process sits in such a call (a capture, a round trip to the
    model, a pyautogui call, a sleep). *)
Inductive exn :=
| KeyboardInterrupt
| Exc (c : exn_class) (msg : string).

(** What a statement does: it returns or it raises. *)
Inductive outcome (A : Type) :=
| Return (a : A)
| Raise (e : exn).
Arguments Return {A} a.
Arguments Raise {A} e.

(** ** Python values *)

Inductive value :=
| VNone
| VBool (b : bool)
| VInt (z : Z)
| VFloat (f : spec_float)
| VStr (s : string)
| VList (l : list value)
| VDict (d : list (string * value)).

(** ** binary64 arithmetic, as [int()], [/] and [*] use it *)

Module Float64.

Definition prec : Z := 53.
Definition emax : Z := 1024.

(** [float(z)] for a Python int: correctly rounded, [OverflowError] beyond
    the largest double. *)
Definition of_int (z : Z) : result spec_float :=
  match binary_normalize prec emax z 0 false with
  | S754_infinity _ => Err OverflowError "int too large to convert to float"
  | f => Ok f
  end.

Definition div (a b : spec_float) : spec_float := SFdiv prec emax a b.
Definition mul (a b : spec_float) : spec_float := SFmul prec emax a b.

(** [int(f)]: truncation toward zero. *)
Definition to_int (f : spec_float) : result Z :=
  match f with
  | S754_zero _ => Ok 0
  | S754_finite s m e =>
      let a := match e with
               | Zneg p => Z.pos m / 2 ^ Z.pos p
               | _ => Z.pos m * 2 ^ e
               end in
      Ok (if s then - a else a)
  | S754_infinity _ => Err OverflowError "cannot convert float infinity to integer"
  | S754_nan => Err ValueError "cannot convert float NaN to integer"
  end.

(** The literals [1000.0] and [0.5]. *)
Definition f1000 : spec_float := S754_finite false 8796093022208000 (-43).
Definition half : spec_float := S754_finite false 4503599627370496 (-53).

End Float64.

(** The operand of [/ 1000.0]: ints and bools are converted, floats are taken
    as they are, anything else is a [TypeError]. *)
Definition as_float (v : value) : result spec_float :=
  match v with
  | VInt z => Float64.of_int z
  | VBool b => Float64.of_int (if b then 1 else 0)
  | VFloat f => Ok f
  | _ => Err TypeError "unsupported operand type(s) for /"
  end.

(** [int((norm / 1000.0) * dim)], the expression of [click_normalized] and of
    the [left_click_drag] and [mouse_move] branches; [dim] is the executor's
    [screen_width] or [screen_height], a Python int. *)
Definition rescale (norm : value) (dim : Z) : result Z :=
  match as_float norm with
  | Err c msg => Err c msg
  | Ok fx =>
      let q := Float64.div fx Float64.f1000 in
      match Float64.of_int dim with
      | Err c msg => Err c msg
      | Ok fd => Float64.to_int (Float64.mul q fd)
      end
  end.


(** ** Strings

    A [str] is embedded as the string of the bytes of its UTF-8 encoding.
    The markers and keywords the code looks for are ASCII, and an ASCII byte
    never occurs inside the encoding of another character, so [in] and
    [split] on the bytes are [in] and [split] on the characters.  [strip]
    removes the encodings of all the white space of Unicode.  [lower] maps
    the ASCII capitals: the only other characters whose lower case holds an
    ASCII letter are U+0130 (an [i] followed by U+0307) and U+212A (a [k]),
    which cannot complete an occurrence of ['terminate'] or ['complete'],
    the one use the code makes of [lower]. *)

(** [needle in s] for two strings. *)
Fixpoint contains (needle s : string) : bool :=
  prefix needle s ||
  match s with
  | EmptyString => false
  | String _ s' => contains needle s'
  end.

(** [s.split(sep)] for a non-empty separator: the pieces between the
    non-overlapping occurrences of [sep], scanned from the left.  [skip]
    counts the characters of a matched separator still to be passed over. *)
Fixpoint split_from (sep : string) (skip : nat) (s : string) : string * list string :=
  match s with
  | EmptyString => (EmptyString, [])
  | String c s' =>
      match skip with
      | S k => split_from sep k s'
      | O =>
          if prefix sep s
          then (EmptyString,
                let (p, ps) := split_from sep (Nat.pred (String.length sep)) s' in p :: ps)
          else let (p, ps) := split_from sep 0 s' in (String c p, ps)
      end
  end.

Definition split (sep s : string) : list string :=
  let (p, ps) := split_from sep 0 s in p :: ps.

(** The white space that [str.strip()] removes: U+0009 to U+000D, U+001C to
    U+0020, U+0085, U+00A0, U+1680, U+2000 to U+200A, U+2028, U+2029, U+202F,
    U+205F and U+3000.  The first two ranges are one byte each. *)
Definition is_space (c : ascii) : bool :=
  let n := nat_of_ascii c in
  ((9 <=? n) && (n <=? 13) || (28 <=? n) && (n <=? 32))%nat.

(** U+0085 and U+00A0 are [C2 85] and [C2 A0]. *)
Definition is_space2 (a b : ascii) : bool :=
  let (x, y) := (nat_of_ascii a, nat_of_ascii b) in
  ((x =? 194) && ((y =? 133) || (y =? 160)))%nat.

(** U+1680 is [E1 9A 80]; U+2000 to U+200A, U+2028, U+2029 and U+202F are
    [E2 80] followed by [80] to [8A], [A8], [A9] and [AF]; U+205F is
    [E2 81 9F]; U+3000 is [E3 80 80]. *)
Definition is_space3 (a b c : ascii) : bool :=
  let x := nat_of_ascii a in
  let y := nat_of_ascii b in
  let z := nat_of_ascii c in
  ((x =? 225) && (y =? 154) && (z =? 128)
   || (x =? 226) && (y =? 128)
      && ((128 <=? z) && (z <=? 138) || (z =? 168) || (z =? 169) || (z =? 175))
   || (x =? 226) && (y =? 129) && (z =? 159)
   || (x =? 227) && (y =? 128) && (z =? 128))%nat.

(** The string without the white space characters it starts with.  With
    [backwards] the bytes of the string, and so of each character, come in
    reverse order. *)
Fixpoint drop_spaces (backwards : bool) (s : string) : string :=
  match s with
  | String a s1 =>
      if is_space a then drop_spaces backwards s1
      else
        match s1 with
        | String b s2 =>
            if (if backwards then is_space2 b a else is_space2 a b)
            then drop_spaces backwards s2
            else
              match s2 with
              | String c s3 =>
                  if (if backwards then is_space3 c b a else is_space3 a b c)
                  then drop_spaces backwards s3
                  else s
              | EmptyString => s
              end
        | EmptyString => s
        end
  | EmptyString => EmptyString
  end.

Fixpoint reversed_onto (s acc : string) : string :=
  match s with
  | EmptyString => acc
  | String c s' => reversed_onto s' (String c acc)
  end.

Definition reversed (s : string) : string := reversed_onto s EmptyString.

Definition lstrip (s : string) : string := drop_spaces false s.

Definition rstrip (s : string) : string :=
  reversed (drop_spaces true (reversed s)).

Definition strip (s : string) : string := rstrip (lstrip s).

(** The number of bytes of the character that starts with the byte [c]. *)
Definition char_width (c : ascii) : nat :=
  let n := nat_of_ascii c in
  if (n <? 192)%nat then 1%nat
  else if (n <? 224)%nat then 2%nat
  else if (n <? 240)%nat then 3%nat
  else 4%nat.

(** The characters of a string, each as the string of its bytes; [missing]
    counts the bytes that [current] still lacks. *)
Fixpoint chars_from (s : string) (missing : nat) (current : string) : list string :=
  match s with
  | EmptyString =>
      match current with
      | EmptyString => []
      | _ => [current]
      end
  | String c s' =>
      match missing with
      | S k => chars_from s' k (current ++ String c EmptyString)
      | O =>
          let rest := chars_from s' (Nat.pred (char_width c)) (String c EmptyString) in
          match current with
          | EmptyString => rest
          | _ => current :: rest
          end
      end
  end.

Definition chars (s : string) : list string := chars_from s 0 EmptyString.

Definition lower_ascii (c : ascii) : ascii :=
  let n := nat_of_ascii c in
  if ((65 <=? n) && (n <=? 90))%nat then ascii_of_nat (n + 32) else c.

Fixpoint lower (s : string) : string :=
  match s with
  | EmptyString => EmptyString
  | String c s' => String (lower_ascii c) (lower s')
  end.

(** ** The Python operations the code applies to values *)

Definition bind_result {A B} (r : result A) (k : A -> result B) : result B :=
  match r with
  | Ok a => k a
  | Err c msg => Err c msg
  end.

Notation "'let*' x ':=' r 'in' k" := (bind_result r (fun x => k))
  (at level 10, x name, r at level 100, k at level 200).

(** Truth value of an object in [if], [not] and [or]. *)
Definition truthy (v : value) : bool :=
  match v with
  | VNone => false
  | VBool b => b
  | VInt z => negb (Z.eqb z 0)
  | VFloat (S754_zero _) => false
  | VFloat _ => true
  | VStr s => negb (s =? "")%string
  | VList l => match l with [] => false | _ => true end
  | VDict d => match d with [] => false | _ => true end
  end.

(** [v == s] against a string constant: only an equal [str] compares equal. *)
Definition eq_str (v : value) (s : string) : bool :=
  match v with
  | VStr t => (t =? s)%string
  | _ => false
  end.

Fixpoint lookup (k : string) (d : list (string * value)) : option value :=
  match d with
  | [] => None
  | (k', v) :: d' => if (k' =? k)%string then Some v else lookup k d'
  end.

(** [k in c] for a string [k]: key of a dict, substring of a string, member of
    a list; the other types are not iterable. *)
Definition py_in (k : string) (c : value) : result bool :=
  match c with
  | VDict d => Ok (match lookup k d with Some _ => true | None => false end)
  | VStr s => Ok (contains k s)
  | VList l => Ok (existsb (fun v => eq_str v k) l)
  | _ => Err TypeError "argument is not iterable"
  end.

(** [c[k]] for a string [k]. *)
Definition py_item (c : value) (k : string) : result value :=
  match c with
  | VDict d =>
      match lookup k d with
      | Some v => Ok v
      | None => Err KeyError k
      end
  | VStr _ => Err TypeError "string indices must be integers"
  | VList _ => Err TypeError "list indices must be integers or slices"
  | _ => Err TypeError "object is not subscriptable"
  end.

(** [c[i]] for the index [i] = 0 or 1.  The keys of the dicts here are
    strings, so an int is never one of them. *)
Definition py_index (c : value) (i : nat) : result value :=
  match c with
  | VList l =>
      match nth_error l i with
      | Some v => Ok v
      | None => Err IndexError "list index out of range"
      end
  | VStr s =>
      match nth_error (chars s) i with
      | Some ch => Ok (VStr ch)
      | None => Err IndexError "string index out of range"
      end
  | VDict _ => Err KeyError "0"
  | _ => Err TypeError "object is not subscriptable"
  end.

(** [c.get(k, default)]; [c.get(k)] is [py_get c k VNone]. *)
Definition py_get (c : value) (k : string) (default : value) : result value :=
  match c with
  | VDict d =>
      match lookup k d with
      | Some v => Ok v
      | None => Ok default
      end
  | _ => Err AttributeError "object has no attribute 'get'"
  end.

(** [isinstance(v, str)] *)
Definition is_str (v : value) : bool :=
  match v with
  | VStr _ => true
  | _ => false
  end.

(** ** Effects

    What the three files do to the outside world, one constructor per call
    site.  Logging and [print] have no influence on control flow and are left
    out. *)
Inductive event :=
| EvCapture                                    (* ScreenshotCapture.capture_screen() *)
| EvSave (iteration : Z)                       (* image.save(filepath) *)
| EvChat (user_query : string)                 (* ollama.chat(model, messages, tools) *)
| EvClick (x y : Z) (button : string) (clicks : Z)   (* pyautogui.click *)
| EvMoveTo (x y : Z)                           (* pyautogui.moveTo(x, y, duration=0.5) *)
| EvDrag (x y : Z)                             (* pyautogui.drag(x, y, duration=0.5) *)
| EvWrite (text : value)                       (* pyautogui.write(text, interval=0.05) *)
| EvPress (key : value)                        (* pyautogui.press(key) *)
| EvScroll (clicks : value)                    (* pyautogui.scroll(clicks) *)
| EvPosition                                   (* pyautogui.position() *)
| EvSleep (seconds : value).                   (* time.sleep(seconds) *)

(** What the world does during one iteration: how it answers each call (with
    [None] the call returns, with [Some e] it raises [e]; a Ctrl-C that
    arrives during the call is [Some KeyboardInterrupt]) and what the model
    replies when the round trip returns. *)
Record step_env := {
  react : event -> option exn;
  chat_reply : value
}.

(** The mutable fields of [SeeThinkActAgent] and the log of the calls made so
    far, the most recent first, each with the exception it raised if any. *)
Record state := {
  iteration_count : Z;
  task_completed : bool;
  task_status : value;
  conversation_history : list (Z * value);
  log : list (event * option exn)
}.

(** Chronological view of the log. *)
Definition trace (st : state) : list (event * option exn) := rev (log st).

Definition M (A : Type) : Type := state -> outcome A * state.

Definition ret {A} (a : A) : M A := fun st => (Return a, st).

(** [raise c(msg)] for an [Exception] class [c]. *)
Definition raise {A} (c : exn_class) (msg : string) : M A :=
  fun st => (Raise (Exc c msg), st).

Definition bind {A B} (m : M A) (k : A -> M B) : M B :=
  fun st =>
    match m st with
    | (Return a, st') => k a st'
    | (Raise e, st') => (Raise e, st')
    end.

Definition lift {A} (r : result A) : M A :=
  fun st =>
    match r with
    | Ok a => (Return a, st)
    | Err c msg => (Raise (Exc c msg), st)
    end.

Notation "x <- m ;; k" := (bind m (fun x => k))
  (at level 61, m at next level, right associativity).
Notation "m ;;; k" := (bind m (fun _ => k))
  (at level 61, right associativity).

(** [try: body / except Exception as e: handler]: [KeyboardInterrupt] is not an
    [Exception] and passes through; the state changes made before the raise
    stay. *)
Definition try_except_Exception {A} (body : M A) (handler : exn -> M A) : M A :=
  fun st =>
    match body st with
    | (Raise (Exc c msg), st') => handler (Exc c msg) st'
    | r => r
    end.

Definition record (ev : event) (o : option exn) (st : state) : state :=
  {| iteration_count := iteration_count st;
     task_completed := task_completed st;
     task_status := task_status st;
     conversation_history := conversation_history st;
     log := (ev, o) :: log st |}.

(** One call into the outside world. *)
Definition perform (w : step_env) (ev : event) : M unit :=
  fun st =>
    match react w ev with
    | None => (Return tt, record ev None st)
    | Some e => (Raise e, record ev (Some e) st)
    end.

(** ** [src/utils/action_executor.py]

    The methods the dispatch can reach, and [wait] and [click_relative],
    which it cannot.  [hotkey] has no caller in the repository and is left
    out. *)

Module ActionExecutor.

Record t := {
  screen_width : Z;
  screen_height : Z
}.

Section Methods.

Variable self : t.
Variable w : step_env.
(** [json.loads], of the Python standard library: the value it returns or the
    exception it raises, which is [JSONDecodeError] for a text that is not
    JSON, but also [ValueError] for an integer literal beyond the digit limit
    of [int] and [RecursionError] for a text nested too deep. *)
Variable json_loads : string -> result value.

Definition click (x y : Z) (button : string) (clicks : Z) : M bool :=
  try_except_Exception
    (perform w (EvClick x y button clicks) ;;; ret true)
    (fun _ => ret false).

Definition click_normalized (x_norm y_norm : value) (button : string) (clicks : Z) : M bool :=
  x <- lift (rescale x_norm (screen_width self)) ;;
  y <- lift (rescale y_norm (screen_height self)) ;;
  click x y button clicks.

(** [int(ratio * dim)]: the expression of [click_relative], for a ratio that
    is a float, as the method annotates it. *)
Definition scale_ratio (ratio : spec_float) (dim : Z) : result Z :=
  let* fd := Float64.of_int dim in
  Float64.to_int (Float64.mul ratio fd).

Definition click_relative (x_ratio y_ratio : spec_float) (button : string) (clicks : Z)
  : M bool :=
  x <- lift (scale_ratio x_ratio (screen_width self)) ;;
  y <- lift (scale_ratio y_ratio (screen_height self)) ;;
  click x y button clicks.

Definition move_mouse (x y : Z) : M bool :=
  try_except_Exception
    (perform w (EvMoveTo x y) ;;; ret true)
    (fun _ => ret false).

(** The log line slices [text[:50]] inside the [try]. *)
Definition type_text (text : value) : M bool :=
  try_except_Exception
    (match text with
     | VStr _ | VList _ => perform w (EvWrite text) ;;; ret true
     | _ => raise TypeError "object is not subscriptable"
     end)
    (fun _ => ret false).

Definition press_key (key : value) : M bool :=
  try_except_Exception
    (perform w (EvPress key) ;;; ret true)
    (fun _ => ret false).

Definition scroll (clicks : value) : M bool :=
  try_except_Exception
    (perform w (EvScroll clicks) ;;; ret true)
    (fun _ => ret false).

Definition drag (x y : Z) : M bool :=
  try_except_Exception
    (perform w (EvDrag x y) ;;; ret true)
    (fun _ => ret false).

Definition wait (seconds : value) : M bool :=
  perform w (EvSleep seconds) ;;; ret true.

(** The default of [args.get('coordinate', [500, 500])]. *)
Definition center : value := VList [VInt 500; VInt 500].

Definition _execute_computer_action (args : value) : M bool :=
  action_type <- lift (py_get args "action" VNone) ;;
  if eq_str action_type "left_click" then
    coordinate <- lift (py_get args "coordinate" center) ;;
    c0 <- lift (py_index coordinate 0) ;;
    c1 <- lift (py_index coordinate 1) ;;
    click_normalized c0 c1 "left" 1
  else if eq_str action_type "left_click_drag" then
    coordinate <- lift (py_get args "coordinate" center) ;;
    c0 <- lift (py_index coordinate 0) ;;
    x <- lift (rescale c0 (screen_width self)) ;;
    c1 <- lift (py_index coordinate 1) ;;
    y <- lift (rescale c1 (screen_height self)) ;;
    drag x y
  else if eq_str action_type "right_click" then
    coordinate <- lift (py_get args "coordinate" center) ;;
    c0 <- lift (py_index coordinate 0) ;;
    c1 <- lift (py_index coordinate 1) ;;
    click_normalized c0 c1 "right" 1
  else if eq_str action_type "double_click" then
    coordinate <- lift (py_get args "coordinate" center) ;;
    c0 <- lift (py_index coordinate 0) ;;
    c1 <- lift (py_index coordinate 1) ;;
    click_normalized c0 c1 "left" 2
  else if eq_str action_type "middle_click" then
    coordinate <- lift (py_get args "coordinate" center) ;;
    c0 <- lift (py_index coordinate 0) ;;
    c1 <- lift (py_index coordinate 1) ;;
    click_normalized c0 c1 "middle" 1
  else if eq_str action_type "mouse_move" then
    coordinate <- lift (py_get args "coordinate" center) ;;
    c0 <- lift (py_index coordinate 0) ;;
    x <- lift (rescale c0 (screen_width self)) ;;
    c1 <- lift (py_index coordinate 1) ;;
    y <- lift (rescale c1 (screen_height self)) ;;
    move_mouse x y
  else if eq_str action_type "type" then
    text <- lift (py_get args "text" (VStr "")) ;;
    type_text text
  else if eq_str action_type "key" then
    key <- lift (py_get args "text" (VStr "enter")) ;;
    press_key key
  else if eq_str action_type "scroll" then
    scroll_amount <- lift (py_get args "scroll_amount" (VInt 0)) ;;
    scroll scroll_amount
  else if eq_str action_type "screenshot" then
    ret true
  else if eq_str action_type "cursor_position" then
    perform w EvPosition ;;; ret true
  else
    ret false.

(** [a or b], where [b] is only evaluated when [a] is falsy. *)
Definition py_or (a : value) (b : result value) : result value :=
  if truthy a then Ok a else b.

Definition loads (v : value) : result value :=
  match v with
  | VStr s => json_loads s
  | _ => Err TypeError "the JSON object must be str, bytes or bytearray"
  end.

Definition execute_computer_use_action (action : value) : M bool :=
  try_except_Exception
    (name0 <- lift (py_get action "name" VNone) ;;
     action_name <- lift (py_or name0
                            (let* f := py_get action "function" (VDict []) in
                             py_get f "name" VNone)) ;;
     arguments0 <- lift (py_get action "arguments" VNone) ;;
     arguments1 <- lift (py_or arguments0
                           (let* f := py_get action "function" (VDict []) in
                            py_get f "arguments" (VDict []))) ;;
     arguments <- lift (if is_str arguments1 then loads arguments1 else Ok arguments1) ;;
     if eq_str action_name "computer" || eq_str action_name "computer_use"
     then _execute_computer_action arguments
     else ret false)
    (fun _ => ret false).

End Methods.

End ActionExecutor.

(** ** [src/utils/ollama_client.py] *)

Module OllamaVisionClient.

Section Methods.

Variable json_loads : string -> result value.

Definition extract_tool_calls (response : value) : result value :=
  let* has_message := py_in "message" response in
  if has_message then
    let* message := py_item response "message" in
    let* has_calls := py_in "tool_calls" message in
    if has_calls then py_item message "tool_calls" else Ok (VList [])
  else Ok (VList []).

(** The guard [if 'message' in response and 'content' in response['message']]
    and, under it, [content = response['message']['content']]; the parser
    and [_execute_action] both go through it. *)
Definition message_content (response : value) : result (option value) :=
  let* has_message := py_in "message" response in
  let* has_content :=
    (if has_message
     then let* message := py_item response "message" in py_in "content" message
     else Ok false) in
  if has_content then
    let* message := py_item response "message" in
    let* content := py_item message "content" in
    Ok (Some content)
  else Ok None.

(** [content.split('<tool_call>')[1].split('</tool_call>')[0].strip()] *)
Definition delimited_payload (content : value) : result string :=
  match content with
  | VStr s =>
      match nth_error (split "<tool_call>" s) 1 with
      | None => Err IndexError "list index out of range"
      | Some after =>
          match nth_error (split "</tool_call>" after) 0 with
          | None => Err IndexError "list index out of range"
          | Some inner => Ok (strip inner)
          end
      end
  | _ => Err AttributeError "object has no attribute 'split'"
  end.

(** The body of the [try] of [parse_computer_use_action] and its
    [except (json.JSONDecodeError, IndexError)] clause, which falls through to
    [return None]. *)
Definition decode_payload (content : value) : result value :=
  match
    (let* json_str := delimited_payload content in
     json_loads json_str)
  with
  | Err JSONDecodeError _ => Ok VNone
  | Err IndexError _ => Ok VNone
  | r => r
  end.

Definition parse_computer_use_action (response : value) : result value :=
  let* tool_calls := extract_tool_calls response in
  if truthy tool_calls then py_index tool_calls 0
  else
    let* text := message_content response in
    match text with
    | Some content =>
        let* opens := py_in "<tool_call>" content in
        let* closes := (if opens then py_in "</tool_call>" content else Ok false) in
        if closes then decode_payload content else Ok VNone
    | None => Ok VNone
    end.

(** [for m in v]: the elements of a list, the characters of a string, the
    keys of a dict. *)
Definition iterate (v : value) : result (list value) :=
  match v with
  | VList l => Ok l
  | VStr s => Ok (map VStr (chars s))
  | VDict d => Ok (map (fun kv => VStr (fst kv)) d)
  | _ => Err TypeError "object is not iterable"
  end.

(** [[m['name'] for m in ms]] *)
Fixpoint names_of (ms : list value) : result (list value) :=
  match ms with
  | [] => Ok []
  | m :: ms' =>
      let* name := py_item m "name" in
      let* names := names_of ms' in
      Ok (name :: names)
  end.

(** [any(model in name for name in names)]: the first name that contains the
    model ends the search, a name that cannot contain anything raises. *)
Fixpoint any_contains (model : string) (names : list value) : result bool :=
  match names with
  | [] => Ok false
  | name :: names' =>
      let* found := py_in model name in
      if found then Ok true else any_contains model names'
  end.

(** [test_connection] of a client for [model]; [listing] is what
    [self.client.list()] does. *)
Definition test_connection (model : string) (listing : outcome value) : outcome bool :=
  match listing with
  | Raise KeyboardInterrupt => Raise KeyboardInterrupt
  | Raise (Exc _ _) => Return false
  | Return models =>
      match
        (let* ms := py_get models "models" (VList []) in
         let* elements := iterate ms in
         let* model_names := names_of elements in
         if existsb (fun name => eq_str name model) model_names
         then Ok true
         else any_contains model model_names)
      with
      | Ok available => Return available
      | Err _ _ => Return false
      end
  end.

End Methods.

End OllamaVisionClient.

(** ** [src/see_think_act_agent.py] *)

Module SeeThinkActAgent.

(** What [__init__] fixes: the iteration ceiling, whether screenshots are
    saved, and the executor built from the captured screen size. *)
Record t := {
  max_iterations : Z;
  save_screenshots : bool;
  action_executor : ActionExecutor.t
}.

(** The Run Result.  [elapsed_time], a wall-clock reading, is not modelled. *)
Record run_result := {
  success : bool;
  status : value;
  message : string;
  iterations : Z
}.

Definition nl : string := String (ascii_of_nat 10) EmptyString.

Definition first_prompt (task : string) : string :=
  "Task: " ++ task ++ nl ++ nl ++
  "This is the current state of the desktop. What should I do first to accomplish this task?".

Definition next_prompt (task : string) : string :=
  "Task: " ++ task ++ nl ++ nl ++
  "This is the current state after the previous action. What should I do next?".

(** [str(n)] inside an f-string. *)
Definition str_int (n : Z) : string := NilZero.string_of_int (Z.to_int n).

Section Methods.

Variable self : t.
Variable json_loads : string -> result value.
Variable task : string.

Definition get_state : M state := fun st => (Return st, st).

Definition set_completed (s : value) : M unit :=
  fun st =>
    (Return tt,
     {| iteration_count := iteration_count st;
        task_completed := true;
        task_status := s;
        conversation_history := conversation_history st;
        log := log st |}).

Definition _capture_current_state (w : step_env) : M unit :=
  perform w EvCapture ;;;
  if save_screenshots self
  then (st <- get_state ;; perform w (EvSave (iteration_count st)))
  else ret tt.

Definition _think_and_decide (w : step_env) : M value :=
  st <- get_state ;;
  let user_prompt :=
    if Z.eqb (iteration_count st) 0 then first_prompt task else next_prompt task in
  perform w (EvChat user_prompt) ;;;
  ret (chat_reply w).

(** The text of a reply without action: ['terminate' in content.lower() or
    'complete' in content.lower()]. *)
Definition textual_termination (content : value) : result bool :=
  match content with
  | VStr s => Ok (contains "terminate" (lower s) || contains "complete" (lower s))
  | _ => Err AttributeError "object has no attribute 'lower'"
  end.

(** Lines 222-232: the name and the arguments of the parsed action. *)
Definition action_details (action : value) : result (value * value) :=
  let* wrapped := py_in "function" action in
  if wrapped then
    let* details := py_item action "function" in
    let* action_name := py_get details "name" VNone in
    let* raw := py_get details "arguments" VNone in
    if is_str raw then
      let* arguments := ActionExecutor.loads json_loads raw in
      Ok (action_name, arguments)
    else
      let* arguments := py_get details "arguments" (VDict []) in
      Ok (action_name, arguments)
  else
    let* arguments := py_get action "arguments" (VDict []) in
    let* action_name := py_get action "name" (VStr "computer") in
    Ok (action_name, arguments).

Definition _execute_action (w : step_env) (response : value) : M bool :=
  action <- lift (OllamaVisionClient.parse_computer_use_action json_loads response) ;;
  if negb (truthy action) then
    text <- lift (OllamaVisionClient.message_content response) ;;
    match text with
    | Some content =>
        done <- lift (textual_termination content) ;;
        if done then set_completed (VStr "success") ;;; ret true
        else ret false
    | None => ret false
    end
  else
    na <- lift (action_details action) ;;
    let (action_name, arguments) := na in
    kind <- lift (py_get arguments "action" VNone) ;;
    if eq_str kind "terminate" then
      st <- lift (py_get arguments "status" (VStr "success")) ;;
      set_completed st ;;; ret true
    else
      kind' <- lift (py_get arguments "action" VNone) ;;
      if eq_str kind' "answer" then
        _ <- lift (py_get arguments "text" (VStr "")) ;;
        ret true
      else
        ok <- ActionExecutor.execute_computer_use_action (action_executor self) w json_loads
                (VDict [("name", action_name); ("arguments", arguments)]) ;;
        kind'' <- (if ok then lift (py_get arguments "action" VNone) else ret VNone) ;;
        if ok && negb (eq_str kind'' "wait")
        then perform w (EvSleep (VInt 1)) ;;; ret ok
        else ret ok.

Definition incr_iteration : M unit :=
  fun st =>
    (Return tt,
     {| iteration_count := iteration_count st + 1;
        task_completed := task_completed st;
        task_status := task_status st;
        conversation_history := conversation_history st;
        log := log st |}).

Definition remember (response : value) : M unit :=
  fun st =>
    (Return tt,
     {| iteration_count := iteration_count st;
        task_completed := task_completed st;
        task_status := task_status st;
        conversation_history :=
          (conversation_history st ++ [(iteration_count st, response)])%list;
        log := log st |}).

(** The body of the [while] of [run]; [env i] is the world during the
    iteration that [iteration_count] numbers [i]. *)
Definition iteration (env : Z -> step_env) : M unit :=
  incr_iteration ;;;
  st <- get_state ;;
  let w := env (iteration_count st) in
  _capture_current_state w ;;;
  response <- _think_and_decide w ;;
  remember response ;;;
  _ <- _execute_action w response ;;
  perform w (EvSleep (VFloat Float64.half)).

Definition loop_condition (st : state) : bool :=
  Z.ltb (iteration_count st) (max_iterations self) && negb (task_completed st).

(** The [while] loop; [None] would be a loop that has not finished within
    [fuel] iterations. *)
Fixpoint while_loop (env : Z -> step_env) (fuel : nat) (st : state)
  : option (outcome unit * state) :=
  if loop_condition st then
    match fuel with
    | O => None
    | S fuel' =>
        match iteration env st with
        | (Return _, st') => while_loop env fuel' st'
        | (Raise e, st') => Some (Raise e, st')
        end
    end
  else Some (Return tt, st).

(** The state after the "Reset state" block of [run]. *)
Definition reset : state :=
  {| iteration_count := 0;
     task_completed := false;
     task_status := VNone;
     conversation_history := [];
     log := [] |}.

(** The result [run] builds from the way the loop ended. *)
Definition result_of (r : outcome unit) (st : state) : run_result :=
  match r with
  | Return _ =>
      if task_completed st then
        {| success := eq_str (task_status st) "success";
           status := task_status st;
           message := "Task completed in " ++ str_int (iteration_count st) ++ " iterations";
           iterations := iteration_count st |}
      else
        {| success := false;
           status := VStr "timeout";
           message := "Task did not complete within " ++ str_int (max_iterations self)
                      ++ " iterations";
           iterations := iteration_count st |}
  | Raise KeyboardInterrupt =>
      {| success := false;
         status := VStr "interrupted";
         message := "Task interrupted by user";
         iterations := iteration_count st |}
  | Raise (Exc _ msg) =>
      {| success := false;
         status := VStr "error";
         message := "Error: " ++ msg;
         iterations := iteration_count st |}
  end.

(** [run(task)]: the result and the final state, whose log is what the run did
    to the world. *)
Definition run (env : Z -> step_env) : option (run_result * state) :=
  match while_loop env (Z.to_nat (max_iterations self)) reset with
  | None => None
  | Some (r, st) => Some (result_of r st, st)
  end.

(** The states at which the [while] of [run] tests its condition. *)
Inductive reaches (env : Z -> step_env) : state -> Prop :=
| reaches_reset : reaches env reset
| reaches_next (st st' : state) :
    reaches env st ->
    loop_condition st = true ->
    iteration env st = (Return tt, st') ->
    reaches env st'.

(** The reply carries a terminate descriptor: an action is parsed from it and
    the [action] of its arguments is ['terminate']. *)
Definition terminate_descriptor (response : value) : bool :=
  match OllamaVisionClient.parse_computer_use_action json_loads response with
  | Ok action =>
      truthy action &&
      match action_details action with
      | Ok (_, arguments) =>
          match py_get arguments "action" VNone with
          | Ok kind => eq_str kind "terminate"
          | Err _ _ => false
          end
      | Err _ _ => false
      end
  | Err _ _ => false
  end.

(** No action is parsed from the reply and its text mentions ['terminate'] or
    ['complete']. *)
Definition textual_completion (response : value) : bool :=
  match OllamaVisionClient.parse_computer_use_action json_loads response with
  | Ok action =>
      negb (truthy action) &&
      match OllamaVisionClient.message_content response with
      | Ok (Some content) =>
          match textual_termination content with
          | Ok done => done
          | Err _ _ => false
          end
      | _ => false
      end
  | Err _ _ => false
  end.

End Methods.

End SeeThinkActAgent.

(** ** Notions the properties are stated with *)

(** The world raises nothing. *)
Definition calm : event -> option exn := fun _ => None.

Definition quiet (w : step_env) : Prop := forall ev, react w ev = None.

(** No call of the log was interrupted. *)
Definition uninterrupted (l : list (event * option exn)) : Prop :=
  forall ev, ~ In (ev, Some KeyboardInterrupt) l.

(** The pyautogui call of a pointer action at pixel [(x, y)]. *)
Definition pointer_event (action_type : string) (x y : Z) : option event :=
  if (action_type =? "left_click")%string then Some (EvClick x y "left" 1)
  else if (action_type =? "left_click_drag")%string then Some (EvDrag x y)
  else if (action_type =? "right_click")%string then Some (EvClick x y "right" 1)
  else if (action_type =? "double_click")%string then Some (EvClick x y "left" 2)
  else if (action_type =? "middle_click")%string then Some (EvClick x y "middle" 1)
  else if (action_type =? "mouse_move")%string then Some (EvMoveTo x y)
  else None.

(** What a method that wraps one pyautogui call in [try/except Exception]
    does with the world's answer. *)
Definition guarded_call (w : step_env) (ev : event) (st : state) : outcome bool * state :=
  match react w ev with
  | None => (Return true, record ev None st)
  | Some KeyboardInterrupt => (Raise KeyboardInterrupt, record ev (Some KeyboardInterrupt) st)
  | Some (Exc c msg) => (Return false, record ev (Some (Exc c msg)) st)
  end.

(** As the specification words it: [p] is [round(x / 1000 * dim)], a nearest
    integer of the exact quotient (whichever way a tie is broken). *)
Definition rounds_to (x dim p : Z) : Prop :=
  Z.abs (2 * (1000 * p - x * dim)) <= 1000.

(** A reply of the shape of the inference endpoint, [{message: {content,
    tool_calls?}}], with text [content] and no structured tool call. *)
Definition plain_reply (response : value) (content : string) : Prop :=
  exists d m,
    response = VDict d /\
    lookup "message" d = Some (VDict m) /\
    lookup "content" m = Some (VStr content) /\
    match lookup "tool_calls" m with
    | None => True
    | Some calls => truthy calls = false
    end.

(** The text holds no delimited payload, or one that [json.loads] rejects
    with a [JSONDecodeError]. *)
Definition no_decodable_payload (json_loads : string -> result value) (content : string) : Prop :=
  (contains "<tool_call>" content && contains "</tool_call>" content) = true ->
  forall json_str,
    OllamaVisionClient.delimited_payload (VStr content) = Ok json_str ->
    exists msg, json_loads json_str = Err JSONDecodeError msg.

Definition mentions_completion (content : string) : bool :=
  contains "terminate" (lower content) || contains "complete" (lower content).

(** *** The value of a float against an integer bound *)

(** [m * 2^e <= B], with the power on the side that keeps it integral. *)
Definition scaled_le (m e B : Z) : Prop :=
  m * 2 ^ Z.max e 0 <= B * 2 ^ Z.max (- e) 0.

(** A float that is zero, or positive and at most [B]. *)
Definition below (B : Z) (f : spec_float) : Prop :=
  match f with
  | S754_zero _ => True
  | S754_finite false m e => scaled_le (Z.pos m) e B
  | _ => False
  end.

(** What [k] right shifts of the exact record of [m] hold: the quotient, and
    round and sticky bits that are both clear exactly when nothing was lost. *)
Definition shifted (m k : Z) (mrs : shr_record) : Prop :=
  shr_m mrs = m / 2 ^ k /\
  (orb (shr_r mrs) (shr_s mrs) = false <-> m mod 2 ^ k = 0).

(** A float that is zero, or positive with a negative exponent and at most
    one. *)
Definition unit_fraction (f : spec_float) : bool :=
  match f with
  | S754_zero _ => true
  | S754_finite false m e => (e <? 0)%Z && (Z.pos m <=? 2 ^ (- e))%Z
  | _ => false
  end.

Definition quotient_ok (x : Z) : bool :=
  match Float64.of_int x with
  | Ok fx => unit_fraction (Float64.div fx Float64.f1000)
  | Err _ _ => false
  end.

(** *** How a statement treats the state *)

(** Whatever the start and the outcome, [m] relates the state it starts in to
    the state it leaves. *)
Definition respects {A} (R : state -> state -> Prop) (m : M A) : Prop :=
  forall st, R st (snd (m st)).

(** The log of a statement that starts with no interrupted call: the calls it
    adds are uninterrupted, unless it raises [KeyboardInterrupt], and then the
    interrupted call is the last one it made. *)
Definition tidy {A} (r : outcome A) (delta : list (event * option exn)) : Prop :=
  match r with
  | Raise KeyboardInterrupt =>
      exists ev rest, delta = (ev, Some KeyboardInterrupt) :: rest /\ uninterrupted rest
  | _ => uninterrupted delta
  end.

Definition disciplined {A} (m : M A) : Prop :=
  forall st, exists delta,
    log (snd (m st)) = (delta ++ log st)%list /\ tidy (fst (m st)) delta.

(** Relations between the state a statement starts in and the one it leaves. *)
Definition same_count (st st' : state) : Prop :=
  iteration_count st' = iteration_count st.

Definition same_completion (st st' : state) : Prop :=
  task_completed st' = task_completed st /\ task_status st' = task_status st.

Definition same_agent (st st' : state) : Prop :=
  iteration_count st' = iteration_count st /\
  task_completed st' = task_completed st /\
  task_status st' = task_status st /\
  conversation_history st' = conversation_history st.

(** Every round trip of the log asked the question of the later iterations. *)
Definition asks_next (task : string) (l : list (event * option exn)) : Prop :=
  forall q o, In (EvChat q, o) l -> q = SeeThinkActAgent.next_prompt task.

(** As long as the counter is not zero, it stays as it is and the round trips
    keep asking the question of the later iterations. *)
Definition keeps_asking_next (task : string) (st st' : state) : Prop :=
  iteration_count st <> 0 ->
  iteration_count st' = iteration_count st /\
  (asks_next task (log st) -> asks_next task (log st')).

(** The action types that carry a coordinate. *)
Definition pointer_actions : list string :=
  ["left_click"; "left_click_drag"; "right_click"; "double_click"; "middle_click";
   "mouse_move"].

(** The statements of an iteration after the increment of the counter, in
    the world [w] of that iteration. *)
Definition after_increment (self : SeeThinkActAgent.t)
  (json_loads : string -> result value) (task : string) (w : step_env) : M unit :=
  SeeThinkActAgent._capture_current_state self w ;;;
  response <- SeeThinkActAgent._think_and_decide task w ;;
  SeeThinkActAgent.remember response ;;;
  _ <- SeeThinkActAgent._execute_action self json_loads w response ;;
  perform w (EvSleep (VFloat Float64.half)).

(** ** Scenarios *)

Module Scenario.

Definition screen : ActionExecutor.t :=
  {| ActionExecutor.screen_width := 1920; ActionExecutor.screen_height := 1080 |}.

Definition agent (ceiling : Z) : SeeThinkActAgent.t :=
  {| SeeThinkActAgent.max_iterations := ceiling;
     SeeThinkActAgent.save_screenshots := true;
     SeeThinkActAgent.action_executor := screen |}.

(** A decoder for the scenarios whose texts are not JSON: it rejects every
    text. *)
Definition no_json : string -> result value :=
  fun _ => Err JSONDecodeError "Expecting value".

Definition tool_call (arguments : value) : value :=
  VDict [("function", VDict [("name", VStr "computer"); ("arguments", arguments)])].

Definition reply_with_call (arguments : value) : value :=
  VDict [("message",
          VDict [("role", VStr "assistant"); ("content", VStr "");
                 ("tool_calls", VList [tool_call arguments])])].

Definition reply_with_text (content : string) : value :=
  VDict [("message", VDict [("role", VStr "assistant"); ("content", VStr content)])].

Definition terminate_with (st : string) : value :=
  VDict [("action", VStr "terminate"); ("status", VStr st)].

Definition terminate_bare : value := VDict [("action", VStr "terminate")].

Definition answer_with (text : string) : value :=
  VDict [("action", VStr "answer"); ("text", VStr text)].

Definition left_click_at (x y : Z) : value :=
  VDict [("action", VStr "left_click"); ("coordinate", VList [VInt x; VInt y])].

(** A calm world in which the model always gives the same reply. *)
Definition always (reply : value) : Z -> step_env :=
  fun _ => {| react := calm; chat_reply := reply |}.

(** A world in which pyautogui's clicks fail (the fail-safe corner, say). *)
Definition clicks_fail : event -> option exn :=
  fun ev =>
    match ev with
    | EvClick _ _ _ _ => Some (Exc OtherError "PyAutoGUI fail-safe triggered")
    | _ => None
    end.

(** A world in which Ctrl-C arrives during the round trip to the model. *)
Definition ctrl_c_while_thinking : event -> option exn :=
  fun ev =>
    match ev with
    | EvChat _ => Some KeyboardInterrupt
    | _ => None
    end.

Definition task : string := "Open Notepad".

(** A world that raises nothing, outside any conversation. *)
Definition calm_world : step_env := {| react := calm; chat_reply := VNone |}.

End Scenario.

(** ** Further notions *)

(** The pyautogui calls. *)
Definition os_event (ev : event) : bool :=
  match ev with
  | EvClick _ _ _ _ | EvMoveTo _ _ | EvDrag _ _ | EvWrite _ | EvPress _
  | EvScroll _ | EvPosition => true
  | _ => false
  end.

Definition is_capture (ev : event) : bool :=
  match ev with
  | EvCapture => true
  | _ => false
  end.

Definition is_chat (ev : event) : bool :=
  match ev with
  | EvChat _ => true
  | _ => false
  end.

Definition is_save (ev : event) : bool :=
  match ev with
  | EvSave _ => true
  | _ => false
  end.

(** How many calls of a kind a log holds. *)
Definition count_calls (kind : event -> bool) (l : list (event * option exn)) : nat :=
  List.length (filter (fun entry => kind (fst entry)) l).

(** The tags that [_execute_computer_action] has a branch for. *)
Definition known_actions : list string :=
  ["left_click"; "left_click_drag"; "right_click"; "double_click"; "middle_click";
   "mouse_move"; "type"; "key"; "scroll"; "screenshot"; "cursor_position"].

(** [N <= m * 2^e], with the power on the side that keeps it integral. *)
Definition scaled_ge (m e N : Z) : Prop :=
  N * 2 ^ Z.max (- e) 0 <= m * 2 ^ Z.max e 0.

(** A float that is zero with [N <= 0], or positive and at least [N]. *)
Definition above (N : Z) (f : spec_float) : Prop :=
  match f with
  | S754_zero _ => N <= 0
  | S754_finite false m e => scaled_ge (Z.pos m) e N
  | _ => False
  end.

(** The literal [1.0]. *)
Definition float_one : spec_float := S754_finite false 4503599627370496 (-52).

(** What the executor may do with an action: nothing, or one pyautogui call
    whose failure it swallows. *)
Definition at_most_one_call (w : step_env) (st : state) (r : outcome bool * state) : Prop :=
  (exists b, r = (Return b, st)) \/
  (exists ev, os_event ev = true /\ r = guarded_call w ev st).

(** A statement that, run under the [try/except Exception] of
    [execute_computer_use_action], does at most one call. *)
Definition swallowed (w : step_env) (m : M bool) : Prop :=
  forall st, at_most_one_call w st (try_except_Exception m (fun _ => ret false) st).

(** The pixel that a coordinate value denotes on the screen of [self]: both
    entries indexed and rescaled. *)
Definition pixel (self : ActionExecutor.t) (coordinate : value) : result (Z * Z) :=
  let* c0 := py_index coordinate 0 in
  let* c1 := py_index coordinate 1 in
  let* x := rescale c0 (ActionExecutor.screen_width self) in
  let* y := rescale c1 (ActionExecutor.screen_height self) in
  Ok (x, y).

(** The action as [_execute_action] hands it to the executor. *)
Definition handed (action_name arguments : value) : value :=
  VDict [("name", action_name); ("arguments", arguments)].

(** [text[:50]] is defined: the value is a [str] or a list. *)
Definition sliceable (text : value) : bool :=
  match text with
  | VStr _ | VList _ => true
  | _ => false
  end.

(** Further scenarios. *)
Module Mishap.

(** A world in which the screen cannot be grabbed. *)
Definition capture_fails : event -> option exn :=
  fun ev =>
    match ev with
    | EvCapture => Some (Exc OtherError "XGetImage() failed")
    | _ => None
    end.

(** A world in which the screenshot cannot be written. *)
Definition disk_is_full : event -> option exn :=
  fun ev =>
    match ev with
    | EvSave _ => Some (Exc OtherError "No space left on device")
    | _ => None
    end.

(** A world in which the inference endpoint is down. *)
Definition model_is_down : event -> option exn :=
  fun ev =>
    match ev with
    | EvChat _ => Some (Exc OtherError "Failed to connect to Ollama")
    | _ => None
    end.

Definition blind : Z -> step_env :=
  fun _ => {| react := capture_fails; chat_reply := VNone |}.

Definition mute : Z -> step_env :=
  fun _ => {| react := model_is_down; chat_reply := VNone |}.

(** A structured call whose arguments are a string, as some endpoints send
    them. *)
Definition call_with_text (arguments : string) : value :=
  VDict [("function", VDict [("name", VStr "computer"); ("arguments", VStr arguments)])].

Definition reply_with (call : value) : value :=
  VDict [("message",
          VDict [("role", VStr "assistant"); ("content", VStr "");
                 ("tool_calls", VList [call])])].

Definition is_digit (c : ascii) : bool :=
  let n := nat_of_ascii c in ((48 <=? n) && (n <=? 57))%nat.

Definition digit_value (c : ascii) : Z := Z.of_nat (nat_of_ascii c - 48).

(** The white space of JSON: space, tab, line feed and carriage return. *)
Definition is_json_space (c : ascii) : bool :=
  let n := nat_of_ascii c in
  ((n =? 32) || (n =? 9) || (n =? 10) || (n =? 13))%nat.

Fixpoint skip_json_space (s : string) : string :=
  match s with
  | String c s' => if is_json_space c then skip_json_space s' else s
  | EmptyString => EmptyString
  end.

(** [json.loads] on the part of JSON the scenarios use: the empty object,
    the empty array, the three literals and the unsigned integers, with white
    space around them.  [int] refuses to convert a literal of more than 4300
    digits.  Every other text the scenarios hand it is not JSON. *)
Definition json (text : string) : result value :=
  let s := reversed (skip_json_space (reversed (skip_json_space text))) in
  if (s =? "{}")%string then Ok (VDict [])
  else if (s =? "[]")%string then Ok (VList [])
  else if (s =? "null")%string then Ok VNone
  else if (s =? "true")%string then Ok (VBool true)
  else if (s =? "false")%string then Ok (VBool false)
  else
    match s with
    | String c rest =>
        if forallb is_digit (list_ascii_of_string s) then
          if (nat_of_ascii c =? 48)%nat && negb (rest =? "")%string
          then Err JSONDecodeError "Extra data"
          else if (4300 <? String.length s)%nat
          then Err ValueError "Exceeds the limit (4300 digits) for integer string conversion"
          else Ok (VInt (fold_left (fun n d => 10 * n + digit_value d)
                           (list_ascii_of_string s) 0))
        else Err JSONDecodeError "Expecting value"
    | EmptyString => Err JSONDecodeError "Expecting value"
    end.

(** U+00A0, U+2003 and U+3000 in UTF-8. *)
Definition no_break_space : string :=
  String (ascii_of_nat 194) (String (ascii_of_nat 160) EmptyString).

Definition em_space : string :=
  String (ascii_of_nat 226) (String (ascii_of_nat 128) (String (ascii_of_nat 131)
    EmptyString)).

Definition ideographic_space : string :=
  String (ascii_of_nat 227) (String (ascii_of_nat 128) (String (ascii_of_nat 128)
    EmptyString)).

(** A payload padded the way a model may pad it. *)
Definition padded_object : string :=
  no_break_space ++ " {}" ++ em_space ++ ideographic_space.

(** [n] times the digit 9. *)
Fixpoint nines (n : nat) : string :=
  match n with
  | O => EmptyString
  | S k => String "9" (nines k)
  end.

End Mishap.

(** Whatever the start and the outcome, the calls that [m] adds to the log
    satisfy [P]. *)
Definition logs {A} (P : list (event * option exn) -> Prop) (m : M A) : Prop :=
  forall st, exists delta, log (snd (m st)) = (delta ++ log st)%list /\ P delta.

(** Calls that hold no capture, no round trip, no save and at most [bound]
    pyautogui calls. *)
Definition acts (bound : nat) (delta : list (event * option exn)) : Prop :=
  count_calls is_capture delta = 0%nat /\
  count_calls is_chat delta = 0%nat /\
  count_calls is_save delta = 0%nat /\
  (count_calls os_event delta <= bound)%nat.

(** The numbers of the screenshots a log saved, the earliest first: those of
    the calls of [image.save] that returned.  A call that raised has saved
    nothing. *)
Definition saved (l : list (event * option exn)) : list Z :=
  flat_map (fun entry => match entry with
                         | (EvSave n, None) => [n]
                         | _ => []
                         end) (rev l).

(** The numbers 1 to [k]. *)
Definition numbers (k : nat) : list Z := map Z.of_nat (seq 1 k).

(** The calls of one iteration: one capture, at most one round trip, and a
    pyautogui call only after a round trip. *)
Definition one_round (delta : list (event * option exn)) : Prop :=
  count_calls is_capture delta = 1%nat /\
  (count_calls is_chat delta <= 1)%nat /\
  (count_calls os_event delta <= count_calls is_chat delta)%nat.

(** A relation between states that the actions of an iteration keep: the
    history and the counter stay as they are. *)
Definition same_history (st st' : state) : Prop :=
  conversation_history st' = conversation_history st /\
  iteration_count st' = iteration_count st.

(** The entries of the history after [n] replies. *)
Definition replies (env : Z -> step_env) (n : nat) : list (Z * value) :=
  map (fun i => (Z.of_nat i, chat_reply (env (Z.of_nat i)))) (seq 1 n).

(** The counts of a loop state: no pyautogui call without a round trip, no
    round trip without a capture, one capture per iteration, and no more
    iterations than the ceiling. *)
Definition tallied (self : SeeThinkActAgent.t) (st : state) : Prop :=
  (count_calls os_event (log st) <= count_calls is_chat (log st))%nat /\
  (count_calls is_chat (log st) <= count_calls is_capture (log st))%nat /\
  Z.of_nat (count_calls is_capture (log st)) = iteration_count st /\
  iteration_count st <= Z.max 0 (SeeThinkActAgent.max_iterations self).

(** A loop state whose history holds the replies of the iterations counted
    so far. *)
Definition recorded (env : Z -> step_env) (st : state) : Prop :=
  0 <= iteration_count st /\
  conversation_history st = replies env (Z.to_nat (iteration_count st)).

(** A loop state whose saved screenshots are numbered by the iterations
    counted so far, or that saved none when saving is off. *)
Definition numbered (self : SeeThinkActAgent.t) (st : state) : Prop :=
  0 <= iteration_count st /\
  saved (log st) =
  if SeeThinkActAgent.save_screenshots self
  then numbers (Z.to_nat (iteration_count st))
  else [].

(** * Proofs *)

(** ** Sanity checks of the embedding *)

Example f1000_is_1000 : Float64.of_int 1000 = Ok Float64.f1000.
Proof. reflexivity. Qed.

(** 500 of 1000 on a 1920 x 1080 screen is pixel (960, 540). *)
Example rescale_center : rescale (VInt 500) 1920 = Ok 960 /\ rescale (VInt 500) 1080 = Ok 540.
Proof. split; vm_compute; reflexivity. Qed.

(** [0.29 * 100] is [28.999999999999996] in binary64, and [int] truncates. *)
Example rescale_binary_error : rescale (VInt 290) 100 = Ok 28.
Proof. vm_compute. reflexivity. Qed.

Example split_markers :
  split "<tool_call>" "see <tool_call>{}</tool_call> done" = ["see "; "{}</tool_call> done"].
Proof. reflexivity. Qed.

Example strip_payload : strip "  {} " = "{}".
Proof. reflexivity. Qed.

(** ** binary64: the rescaled coordinate stays on the screen *)

Section Rounding.

Lemma digits2_pos_lower (m : positive) :
  2 ^ (Z.pos (digits2_pos m) - 1) <= Z.pos m.
Proof.
  induction m as [m IH | m IH |]; simpl digits2_pos.
  - rewrite Pos2Z.inj_succ.
    replace (Z.succ (Z.pos (digits2_pos m)) - 1)
      with (Z.succ (Z.pos (digits2_pos m) - 1)) by lia.
    rewrite Z.pow_succ_r by lia. lia.
  - rewrite Pos2Z.inj_succ.
    replace (Z.succ (Z.pos (digits2_pos m)) - 1)
      with (Z.succ (Z.pos (digits2_pos m) - 1)) by lia.
    rewrite Z.pow_succ_r by lia. lia.
  - simpl. lia.
Qed.

Lemma iter_pos_iter {A} (f : A -> A) (p : positive) (x : A) :
  iter_pos f p x = Pos.iter f x p.
Proof.
  revert x. induction p as [p IH | p IH |]; intro x; simpl.
  - rewrite !IH. rewrite <- !Pos.iter_swap. reflexivity.
  - rewrite !IH. reflexivity.
  - reflexivity.
Qed.


Lemma shr_1_m (mrs : shr_record) :
  0 <= shr_m mrs -> shr_m (shr_1 mrs) = shr_m mrs / 2 /\
  shr_r (shr_1 mrs) = Z.odd (shr_m mrs) /\
  shr_s (shr_1 mrs) = orb (shr_r mrs) (shr_s mrs).
Proof.
  destruct mrs as [m r s]. simpl. intros Hm.
  destruct m as [| p | p]; [ | | lia].
  - simpl. auto.
  - destruct p as [p | p |]; simpl shr_m; simpl shr_r; simpl shr_s.
    + repeat split; try reflexivity.
      rewrite Pos2Z.inj_xI. apply Z.div_unique with 1; lia.
    + repeat split; try reflexivity.
      rewrite Pos2Z.inj_xO. apply Z.div_unique with 0; lia.
    + repeat split.
Qed.

Lemma shifted_step (m k : Z) (mrs : shr_record) :
  0 <= m -> 0 <= k -> shifted m k mrs -> shifted m (k + 1) (shr_1 mrs).
Proof.
  intros Hm Hk [Hq Hr].
  assert (H2k : 0 < 2 ^ k) by (apply Z.pow_pos_nonneg; lia).
  assert (Hq0 : 0 <= shr_m mrs) by (rewrite Hq; apply Z.div_pos; lia).
  destruct (shr_1_m mrs Hq0) as (H1 & H2 & H3).
  assert (Hpow : 2 ^ (k + 1) = 2 ^ k * 2) by (rewrite Z.pow_add_r by lia; reflexivity).
  split.
  - rewrite H1, Hq, Hpow. rewrite Z.div_div by lia. reflexivity.
  - rewrite H2, H3, Hpow, Hq.
    rewrite Z.rem_mul_r by lia.
    pose proof (Z.mod_pos_bound m (2 ^ k) H2k) as Hb.
    pose proof (Zmod_even (m / 2 ^ k)) as He.
    rewrite <- Z.negb_odd in He.
    destruct (Z.odd (m / 2 ^ k)); simpl in He |- *.
    + split; [discriminate | intro; lia].
    + rewrite He. rewrite Hr. lia.
Qed.

Lemma shifted_iter (m : Z) (p : positive) :
  0 <= m ->
  shifted m (Z.pos p) (iter_pos shr_1 p {| shr_m := m; shr_r := false; shr_s := false |}).
Proof.
  intro Hm. rewrite iter_pos_iter.
  apply (Pos.iter_ind _ shr_1 _ (fun q mrs => shifted m (Z.pos q) mrs)).
  - change (Z.pos 1) with (0 + 1). apply shifted_step; try lia.
    split; simpl.
    + rewrite Z.div_1_r. reflexivity.
    + rewrite Z.mod_1_r. tauto.
  - intros q a Ha. rewrite Pos2Z.inj_succ. apply shifted_step; try lia. exact Ha.
Qed.



Lemma shr_fexp_exact (mz e : Z) :
  0 <= mz ->
  let E := fexp 53 1024 (Zdigits2 mz + e) in
  (E <= e /\
   shr_fexp 53 1024 mz e loc_Exact = ({| shr_m := mz; shr_r := false; shr_s := false |}, e)) \/
  (e < E /\ exists mrs, shifted mz (E - e) mrs /\ shr_fexp 53 1024 mz e loc_Exact = (mrs, E)).
Proof.
  intros Hm E. unfold shr_fexp. fold E. simpl shr_record_of_loc.
  destruct (E - e) as [| p | p] eqn:Hn; simpl.
  - left. split; [lia | reflexivity].
  - right. split; [lia |]. eexists. split; [apply shifted_iter; exact Hm |].
    f_equal. lia.
  - left. split; [lia | reflexivity].
Qed.

Lemma round_nearest_even_shifted (m k : Z) (mrs : shr_record) :
  shifted m k mrs ->
  let r := round_nearest_even (shr_m mrs) (loc_of_shr_record mrs) in
  m / 2 ^ k <= r <= m / 2 ^ k + 1 /\ (m mod 2 ^ k = 0 -> r = m / 2 ^ k).
Proof.
  intros [Hq Hr]. destruct mrs as [q r s]. simpl in *. subst q.
  destruct r, s; simpl in *.
  - split; [lia | intro H0; apply Hr in H0; discriminate].
  - split; [destruct (Z.even _); lia | intro H0; apply Hr in H0; discriminate].
  - split; [lia | reflexivity].
  - split; [lia | reflexivity].
Qed.

Lemma scaled_le_digits (mz d e B : Z) :
  1 <= d -> 2 ^ (d - 1) <= mz -> 0 < mz -> B < 2 ^ 53 -> scaled_le mz e B ->
  d + e <= 53.
Proof.
  unfold scaled_le. intros Hd Hlow Hpos HB Hle.
  destruct (Z_le_gt_dec (d + e) 53) as [|Hgt]; [assumption | exfalso].
  destruct (Z_le_gt_dec 0 e) as [He | He].
  - rewrite Z.max_l, Z.max_r in Hle by lia. simpl in Hle.
    assert (2 ^ 53 <= 2 ^ (d - 1) * 2 ^ e).
    { rewrite <- Z.pow_add_r by lia. apply Z.pow_le_mono_r; lia. }
    assert (0 < 2 ^ e) by (apply Z.pow_pos_nonneg; lia).
    assert (2 ^ (d - 1) * 2 ^ e <= mz * 2 ^ e) by (apply Z.mul_le_mono_nonneg_r; lia).
    lia.
  - rewrite Z.max_r, Z.max_l in Hle by lia. simpl in Hle.
    assert (2 ^ 53 * 2 ^ (- e) <= 2 ^ (d - 1)).
    { rewrite <- Z.pow_add_r by lia. apply Z.pow_le_mono_r; lia. }
    assert (0 < 2 ^ (- e)) by (apply Z.pow_pos_nonneg; lia).
    assert (B * 2 ^ (- e) < 2 ^ 53 * 2 ^ (- e)) by (apply Z.mul_lt_mono_pos_r; lia).
    lia.
Qed.

Lemma fexp_le_0 (x : Z) : x <= 53 -> fexp 53 1024 x <= 0.
Proof. unfold fexp, emin. lia. Qed.

Lemma fexp_ge_emin (x : Z) : -1074 <= fexp 53 1024 x.
Proof. unfold fexp, emin. lia. Qed.

Lemma scaled_le_shift (m e E B r : Z) :
  0 <= m -> 0 <= B -> e < E -> E <= 0 ->
  scaled_le m e B ->
  r <= m / 2 ^ (E - e) + 1 ->
  (m mod 2 ^ (E - e) = 0 -> r = m / 2 ^ (E - e)) ->
  scaled_le r E B.
Proof.
  unfold scaled_le. intros Hm HB He HE Hle Hr Hex.
  rewrite Z.max_r, Z.max_l in * by lia. rewrite Z.pow_0_r, Z.mul_1_r in *.
  set (k := E - e) in *. set (T := B * 2 ^ (- E)).
  assert (Hk : 0 < 2 ^ k) by (apply Z.pow_pos_nonneg; lia).
  assert (HT : B * 2 ^ (- e) = 2 ^ k * T).
  { unfold T, k. replace (- e) with ((E - e) + (- E)) by lia.
    rewrite Z.pow_add_r by lia. ring. }
  rewrite HT in Hle.
  destruct (Z.eq_dec (m mod 2 ^ k) 0) as [H0 | H0].
  - rewrite (Hex H0). apply Z.div_le_upper_bound; assumption.
  - assert (m / 2 ^ k < T); [| lia].
    apply Z.div_lt_upper_bound; [assumption |].
    assert (m <> 2 ^ k * T); [| lia].
    intro Heq. apply H0. rewrite Heq, Z.mul_comm. apply Z.mod_mul. lia.
Qed.

Lemma scaled_le_floor (r E E2 B : Z) :
  0 <= r -> E < E2 -> E2 <= 0 ->
  scaled_le r E B -> scaled_le (r / 2 ^ (E2 - E)) E2 B.
Proof.
  unfold scaled_le. intros Hr HE HE2 Hle.
  rewrite Z.max_r, Z.max_l in * by lia. rewrite Z.pow_0_r, Z.mul_1_r in *.
  assert (Hk : 0 < 2 ^ (E2 - E)) by (apply Z.pow_pos_nonneg; lia).
  apply Z.div_le_upper_bound; [assumption |].
  replace (2 ^ (E2 - E) * (B * 2 ^ (- E2))) with (B * 2 ^ (- E)); [assumption |].
  replace (- E) with ((E2 - E) + (- E2)) by lia.
  rewrite Z.pow_add_r by lia. ring.
Qed.

Lemma round_aux_below (m : positive) (e B : Z) :
  0 <= B < 2 ^ 53 ->
  scaled_le (Z.pos m) e B ->
  below B (binary_round_aux 53 1024 false (Z.pos m) e loc_Exact).
Proof.
  intros HB Hle.
  pose proof (digits2_pos_lower m) as Hdig.
  assert (Hde : Z.pos (digits2_pos m) + e <= 53)
    by (eapply scaled_le_digits; eauto; lia).
  unfold binary_round_aux.
  destruct (shr_fexp_exact (Z.pos m) e) as [[HE H1] | [HE (mrs & Hsh & H1)]];
    [lia | | ]; rewrite H1.
  - cbn [shr_m loc_of_shr_record round_nearest_even]. rewrite H1.
    cbn [shr_m].
    assert (He : ((e <=? 1024 - 53)%Z = true)) by (apply Z.leb_le; lia).
    rewrite He. exact Hle.
  - simpl Zdigits2 in *.
    set (E := fexp 53 1024 (Z.pos (digits2_pos m) + e)) in *.
    assert (HE0 : E <= 0) by (apply fexp_le_0; assumption).
    destruct (round_nearest_even_shifted _ _ _ Hsh) as [[Hr0 Hr1] Hr2].
    set (r := round_nearest_even (shr_m mrs) (loc_of_shr_record mrs)) in *.
    assert (Hk : 0 < 2 ^ (E - e)) by (apply Z.pow_pos_nonneg; lia).
    assert (Hrpos : 0 <= r).
    { assert (0 <= Z.pos m / 2 ^ (E - e)) by (apply Z.div_pos; lia). lia. }
    assert (HrB : scaled_le r E B)
      by (apply (scaled_le_shift (Z.pos m) e); auto; lia).
    destruct (shr_fexp_exact r E Hrpos) as [[HE2 H2] | [HE2 (mrs2 & Hsh2 & H2)]];
      rewrite H2.
    + cbn [shr_m]. destruct r as [| pr | pr]; [exact I | | lia].
      assert (He : ((E <=? 1024 - 53)%Z = true)) by (apply Z.leb_le; lia).
      rewrite He. exact HrB.
    + set (E2 := fexp 53 1024 (Zdigits2 r + E)) in *.
      destruct r as [| pr | pr]; [| | lia].
      * exfalso. subst E2. simpl Zdigits2 in HE2.
        pose proof (fexp_ge_emin (Z.pos (digits2_pos m) + e)).
        unfold fexp, emin in HE2. fold E in H. lia.
      * assert (HE20 : E2 <= 0).
        { apply fexp_le_0. simpl Zdigits2.
          pose proof (digits2_pos_lower pr).
          eapply scaled_le_digits; eauto; lia. }
        destruct Hsh2 as [Hq2 _]. rewrite Hq2.
        pose proof (scaled_le_floor (Z.pos pr) E E2 B Hrpos HE2 HE20 HrB) as Hfin.
        assert (0 <= Z.pos pr / 2 ^ (E2 - E)).
        { apply Z.div_pos; [lia | apply Z.pow_pos_nonneg; lia]. }
        destruct (Z.pos pr / 2 ^ (E2 - E)) as [| pq | pq]; [exact I | | lia].
        assert (He : ((E2 <=? 1024 - 53)%Z = true)) by (apply Z.leb_le; lia).
        rewrite He. exact Hfin.
Qed.



Lemma iter_xO (q m : positive) : Z.pos (Pos.iter xO m q) = Z.pos m * 2 ^ Z.pos q.
Proof.
  apply (Pos.iter_ind _ xO m (fun q r => Z.pos r = Z.pos m * 2 ^ Z.pos q)).
  - rewrite Pos2Z.inj_xO. change (2 ^ 1) with 2. lia.
  - intros p a Ha. rewrite Pos2Z.inj_xO, Ha, Pos2Z.inj_succ, Z.pow_succ_r by lia. ring.
Qed.

Lemma of_int_below (W : Z) :
  0 <= W < 2 ^ 53 ->
  exists f, Float64.of_int W = Ok f /\ below W f.
Proof.
  intros HW. unfold Float64.of_int, binary_normalize.
  destruct W as [| m | m]; [eexists; split; [reflexivity | exact I] | | lia].
  assert (Hb : below (Z.pos m) (binary_round Float64.prec Float64.emax false m 0)).
  { unfold binary_round, shl_align.
    destruct (fexp Float64.prec Float64.emax (Z.pos (digits2_pos m) + 0) - 0)
      as [| q | q] eqn:Hq.
    - apply round_aux_below; [lia |]. unfold scaled_le. simpl. lia.
    - apply round_aux_below; [lia |]. unfold scaled_le. simpl. lia.
    - replace (fexp Float64.prec Float64.emax (Z.pos (digits2_pos m) + 0))
        with (Z.neg q) by lia.
      apply round_aux_below; [lia |]. unfold scaled_le.
      rewrite iter_xO. rewrite Z.max_r, Z.max_l by lia.
      change (- Z.neg q) with (Z.pos q). lia. }
  destruct (binary_round Float64.prec Float64.emax false m 0) as [s | s | | s mf ef];
    simpl in Hb; try contradiction.
  - eexists; split; [reflexivity | exact I].
  - eexists; split; [reflexivity | exact Hb].
Qed.


Lemma quotients_checked :
  forallb quotient_ok (map Z.of_nat (seq 0 1001)) = true.
Proof. vm_compute. reflexivity. Qed.

Lemma quotient_unit (x : Z) :
  0 <= x <= 1000 ->
  exists fx, Float64.of_int x = Ok fx /\
             unit_fraction (Float64.div fx Float64.f1000) = true.
Proof.
  intros Hx.
  pose proof quotients_checked as Hall.
  rewrite forallb_forall in Hall.
  assert (Hin : In x (map Z.of_nat (seq 0 1001))).
  { apply in_map_iff. exists (Z.to_nat x). split; [lia |].
    apply in_seq. lia. }
  specialize (Hall x Hin). unfold quotient_ok in Hall.
  destruct (Float64.of_int x) as [fx | ex]; [| discriminate].
  exists fx. split; [reflexivity | assumption].
Qed.

Lemma mul_below (q fw : spec_float) (W : Z) :
  0 <= W < 2 ^ 53 ->
  unit_fraction q = true -> below W fw -> below W (Float64.mul q fw).
Proof.
  intros HW Hq Hw. unfold Float64.mul.
  destruct q as [sq | sq | | sq mq eq]; simpl in Hq; try discriminate;
    destruct fw as [sw | sw | | sw mw ew]; simpl in Hw; try contradiction;
    try exact I.
  destruct sq; [discriminate |]. destruct sw; [contradiction |].
  apply andb_prop in Hq. destruct Hq as [Heq Hmq].
  apply Z.ltb_lt in Heq. apply Z.leb_le in Hmq.
  simpl SFmul. apply round_aux_below; [assumption |].
  unfold scaled_le in *. rewrite Pos2Z.inj_mul.
  assert (Hpq : 0 < 2 ^ (- eq)) by (apply Z.pow_pos_nonneg; lia).
  destruct (Z_le_gt_dec 0 ew) as [Hew | Hew].
  - rewrite (Z.max_l ew), (Z.max_r (- ew)) in Hw by lia.
    rewrite Z.pow_0_r, Z.mul_1_r in Hw.
    assert (Hpw : 0 < 2 ^ ew) by (apply Z.pow_pos_nonneg; lia).
    destruct (Z_le_gt_dec 0 (eq + ew)) as [Hs | Hs].
    + rewrite Z.max_l, Z.max_r by lia. rewrite Z.pow_0_r, Z.mul_1_r.
      assert (Hsplit : 2 ^ ew = 2 ^ (- eq) * 2 ^ (eq + ew)).
      { rewrite <- Z.pow_add_r by lia. f_equal. lia. }
      assert (0 < 2 ^ (eq + ew)) by (apply Z.pow_pos_nonneg; lia).
      nia.
    + rewrite Z.max_r, Z.max_l by lia. rewrite Z.pow_0_r, Z.mul_1_r.
      assert (Hsplit : 2 ^ (- eq) = 2 ^ (- (eq + ew)) * 2 ^ ew).
      { rewrite <- Z.pow_add_r by lia. f_equal. lia. }
      assert (0 < 2 ^ (- (eq + ew))) by (apply Z.pow_pos_nonneg; lia).
      nia.
  - rewrite (Z.max_r ew), (Z.max_l (- ew)) in Hw by lia.
    rewrite Z.pow_0_r, Z.mul_1_r in Hw.
    rewrite Z.max_r, Z.max_l by lia. rewrite Z.pow_0_r, Z.mul_1_r.
    assert (Hsplit : 2 ^ (- (eq + ew)) = 2 ^ (- eq) * 2 ^ (- ew)).
    { rewrite <- Z.pow_add_r by lia. f_equal. lia. }
    assert (0 < 2 ^ (- ew)) by (apply Z.pow_pos_nonneg; lia).
    nia.
Qed.

Lemma to_int_below (f : spec_float) (B : Z) :
  0 <= B -> below B f -> exists p, Float64.to_int f = Ok p /\ 0 <= p <= B.
Proof.
  intros HB Hf. destruct f as [s | s | | s m e]; simpl in Hf; try contradiction.
  - exists 0. split; [reflexivity | lia].
  - destruct s; [contradiction |]. unfold scaled_le in Hf. unfold Float64.to_int.
    destruct e as [| pe | pe].
    + simpl in Hf. eexists; split; [reflexivity |]. rewrite Z.pow_0_r. lia.
    + rewrite Z.max_l, Z.max_r in Hf by lia. rewrite Z.pow_0_r, Z.mul_1_r in Hf.
      eexists; split; [reflexivity |].
      assert (0 < 2 ^ Z.pos pe) by (apply Z.pow_pos_nonneg; lia). nia.
    + rewrite Z.max_r, Z.max_l in Hf by lia. rewrite Z.pow_0_r, Z.mul_1_r in Hf.
      change (- Z.neg pe) with (Z.pos pe) in Hf.
      assert (0 < 2 ^ Z.pos pe) by (apply Z.pow_pos_nonneg; lia).
      eexists; split; [reflexivity |]. split.
      * apply Z.div_pos; lia.
      * apply Z.div_le_upper_bound; [assumption | lia].
Qed.

Lemma rescale_within (x W : Z) :
  0 <= x <= 1000 -> 0 <= W < 2 ^ 53 ->
  exists p, rescale (VInt x) W = Ok p /\ 0 <= p <= W.
Proof.
  intros Hx HW. unfold rescale, as_float.
  destruct (quotient_unit x Hx) as (fx & Hfx & Hq). rewrite Hfx.
  destruct (of_int_below W HW) as (fw & Hfw & Hb). rewrite Hfw.
  apply to_int_below; [lia |]. apply mul_below; assumption.
Qed.

End Rounding.
(** ** How the statements of the executor and of the agent treat the state *)

Section Respects.

Variable R : state -> state -> Prop.
Hypothesis R_refl : forall st, R st st.
Hypothesis R_trans : forall st1 st2 st3, R st1 st2 -> R st2 st3 -> R st1 st3.

Lemma respects_ret {A} (a : A) : respects R (ret a).
Proof. intro st. apply R_refl. Qed.

Lemma respects_raise {A} c msg : respects R (@raise A c msg).
Proof. intro st. apply R_refl. Qed.

Lemma respects_lift {A} (r : result A) : respects R (lift r).
Proof. intro st. unfold lift. destruct r; apply R_refl. Qed.

Lemma respects_bind {A B} (m : M A) (k : A -> M B) :
  respects R m -> (forall a, respects R (k a)) -> respects R (bind m k).
Proof.
  intros Hm Hk st. unfold bind. specialize (Hm st).
  destruct (m st) as [[a | e] st1]; simpl in *.
  - eapply R_trans; [exact Hm | apply Hk].
  - exact Hm.
Qed.

Lemma respects_try {A} (body : M A) (handler : exn -> M A) :
  respects R body -> (forall e, respects R (handler e)) ->
  respects R (try_except_Exception body handler).
Proof.
  intros Hb Hh st. unfold try_except_Exception. specialize (Hb st).
  destruct (body st) as [[a | [| c msg]] st1]; simpl in *; try exact Hb.
  eapply R_trans; [exact Hb | apply Hh].
Qed.

Lemma respects_perform (w : step_env) (ev : event) :
  (forall o st, R st (record ev o st)) -> respects R (perform w ev).
Proof.
  intros Hrec st. unfold perform. destruct (react w ev); simpl; apply Hrec.
Qed.

Lemma respects_get_state : respects R SeeThinkActAgent.get_state.
Proof. intro st. apply R_refl. Qed.

(** After a pure expression, the continuation only runs on the value the
    expression has. *)
Lemma respects_bind_lift {A B} (r : result A) (k : A -> M B) :
  (forall a, r = Ok a -> respects R (k a)) -> respects R (bind (lift r) k).
Proof.
  intros Hk st. unfold bind, lift. destruct r as [a | c msg]; simpl.
  - apply Hk. reflexivity.
  - apply R_refl.
Qed.

End Respects.

(** One step of a proof that a statement respects [R]; [rec] closes the side
    condition of a call into the world. *)
Ltac respects_step rec :=
  first
    [ apply respects_ret; assumption
    | apply respects_raise; assumption
    | apply respects_lift; assumption
    | apply respects_get_state; assumption
    | apply respects_perform; [intros; rec]
    | apply respects_bind; [assumption | | intro]
    | apply respects_try; [assumption | | intro]
    | match goal with
      | |- respects _ (if ?b then _ else _) => destruct b
      | |- respects _ (match ?x with _ => _ end) => destruct x
      end ].

Section ExecutorRespects.

Variable R : state -> state -> Prop.
Hypothesis R_refl : forall st, R st st.
Hypothesis R_trans : forall st1 st2 st3, R st1 st2 -> R st2 st3 -> R st1 st3.
(** [R] holds across every call except, possibly, the round trip to the
    model. *)
Hypothesis R_record :
  forall ev o st, (forall q, ev <> EvChat q) -> R st (record ev o st).

Variable self : ActionExecutor.t.
Variable w : step_env.
Variable json_loads : string -> result value.

Ltac rec_os := apply R_record; discriminate.

Lemma click_normalized_respects x y button clicks :
  respects R (ActionExecutor.click_normalized self w x y button clicks).
Proof.
  unfold ActionExecutor.click_normalized, ActionExecutor.click.
  repeat respects_step rec_os.
Qed.

Lemma _execute_computer_action_respects args :
  respects R (ActionExecutor._execute_computer_action self w args).
Proof.
  unfold ActionExecutor._execute_computer_action.
  apply respects_bind; [assumption | apply respects_lift; assumption | intro action_type].
  repeat match goal with
         | |- respects _ (if ?b then _ else _) => destruct b
         end;
    try apply click_normalized_respects;
    unfold ActionExecutor.drag, ActionExecutor.move_mouse, ActionExecutor.type_text,
      ActionExecutor.press_key, ActionExecutor.scroll;
    repeat respects_step rec_os;
    try apply click_normalized_respects.
Qed.

Lemma execute_computer_use_action_respects action :
  respects R (ActionExecutor.execute_computer_use_action self w json_loads action).
Proof.
  unfold ActionExecutor.execute_computer_use_action.
  repeat respects_step rec_os; apply _execute_computer_action_respects.
Qed.

End ExecutorRespects.

Section AgentRespects.

Variable R : state -> state -> Prop.
Hypothesis R_refl : forall st, R st st.
Hypothesis R_trans : forall st1 st2 st3, R st1 st2 -> R st2 st3 -> R st1 st3.
Hypothesis R_record :
  forall ev o st, (forall q, ev <> EvChat q) -> R st (record ev o st).

Variable self : SeeThinkActAgent.t.
Variable json_loads : string -> result value.
Variable w : step_env.

Ltac rec_any := apply R_record; discriminate.

Lemma _capture_current_state_respects :
  respects R (SeeThinkActAgent._capture_current_state self w).
Proof.
  unfold SeeThinkActAgent._capture_current_state.
  repeat respects_step rec_any.
Qed.

(** What follows the interception of [terminate] in [_execute_action]. *)
Lemma after_interception_respects (action_name arguments : value) (k : bool -> M bool) :
  (forall ok, respects R (k ok)) ->
  respects R
    (bind (ActionExecutor.execute_computer_use_action
             (SeeThinkActAgent.action_executor self) w json_loads
             (VDict [("name", action_name); ("arguments", arguments)])) k).
Proof.
  intro Hk. apply respects_bind; [assumption | | exact Hk].
  apply execute_computer_use_action_respects; assumption.
Qed.

(** [_execute_action] on a reply that neither carries a terminate descriptor
    nor completes the task by its text. *)
Lemma _execute_action_respects (response : value) :
  SeeThinkActAgent.terminate_descriptor json_loads response = false ->
  SeeThinkActAgent.textual_completion json_loads response = false ->
  respects R (SeeThinkActAgent._execute_action self json_loads w response).
Proof.
  intros Hterm Htext.
  unfold SeeThinkActAgent.terminate_descriptor in Hterm.
  unfold SeeThinkActAgent.textual_completion in Htext.
  unfold SeeThinkActAgent._execute_action.
  apply respects_bind_lift; [assumption |]. intros action Hparse.
  rewrite Hparse in Hterm, Htext.
  destruct (truthy action) eqn:Htruthy; simpl negb; cbv iota; simpl in Hterm, Htext.
  - apply respects_bind_lift; [assumption |]. intros [action_name arguments] Hdetails.
    rewrite Hdetails in Hterm.
    apply respects_bind_lift; [assumption |]. intros kind Hkind.
    rewrite Hkind in Hterm. rewrite Hterm.
    apply respects_bind_lift; [assumption |]. intros kind' Hkind'.
    destruct (eq_str kind' "answer").
    + repeat respects_step rec_any.
    + apply after_interception_respects. intro ok.
      repeat respects_step rec_any.
  - apply respects_bind_lift; [assumption |]. intros text Hcontent.
    rewrite Hcontent in Htext.
    destruct text as [content |]; [| apply respects_ret; assumption].
    apply respects_bind_lift; [assumption |]. intros done Hdone.
    rewrite Hdone in Htext. subst done. apply respects_ret; assumption.
Qed.

(** With a relation that also holds across [set_completed], every reply. *)
Hypothesis R_completed :
  forall s st, R st (snd (SeeThinkActAgent.set_completed s st)).

Lemma respects_set_completed s : respects R (SeeThinkActAgent.set_completed s).
Proof. intro st. apply R_completed. Qed.

Lemma _execute_action_respects_always (response : value) :
  respects R (SeeThinkActAgent._execute_action self json_loads w response).
Proof.
  unfold SeeThinkActAgent._execute_action.
  apply respects_bind_lift; [assumption |]. intros action _.
  destruct (negb (truthy action)).
  - repeat first [apply respects_set_completed | respects_step rec_any].
  - apply respects_bind_lift; [assumption |]. intros [action_name arguments] _.
    apply respects_bind_lift; [assumption |]. intros kind _.
    destruct (eq_str kind "terminate").
    + repeat first [apply respects_set_completed | respects_step rec_any].
    + apply respects_bind_lift; [assumption |]. intros kind' _.
      destruct (eq_str kind' "answer").
      * repeat respects_step rec_any.
      * apply after_interception_respects. intro ok.
        repeat respects_step rec_any.
Qed.

End AgentRespects.

(** ** Running a sequence of statements *)

Lemma bind_returns {A B} (m : M A) (k : A -> M B) st a st1 :
  m st = (Return a, st1) -> bind m k st = k a st1.
Proof. intro H. unfold bind. rewrite H. reflexivity. Qed.

(** Run the first statement of a sequence, [tac] proving what it returns. *)
Ltac run_with tac := erewrite bind_returns by tac; cbv beta iota.

(** Decide the comparisons of a known string with the string constants. *)
Ltac decide_kinds :=
  repeat match goal with
         | |- context [eq_str (VStr ?a) ?b] =>
             let v := eval vm_compute in (eq_str (VStr a) b) in
             change (eq_str (VStr a) b) with v
         end;
  cbv iota.

Lemma lift_ok {A} (r : result A) a st : r = Ok a -> lift r st = (Return a, st).
Proof. intro H. rewrite H. reflexivity. Qed.

Lemma perform_quiet w ev st :
  quiet w -> perform w ev st = (Return tt, record ev None st).
Proof. intro H. unfold perform. rewrite H. reflexivity. Qed.

(** ** The loop *)

Section Loop.

Variable self : SeeThinkActAgent.t.
Variable json_loads : string -> result value.
Variable task : string.
Variable env : Z -> step_env.

Let iteration := SeeThinkActAgent.iteration self json_loads task env.
Let while_loop := SeeThinkActAgent.while_loop self json_loads task env.

Lemma same_count_refl st : same_count st st.
Proof. reflexivity. Qed.

Lemma same_count_trans st1 st2 st3 :
  same_count st1 st2 -> same_count st2 st3 -> same_count st1 st3.
Proof. unfold same_count. congruence. Qed.

Lemma same_completion_refl st : same_completion st st.
Proof. split; reflexivity. Qed.

Lemma same_completion_trans st1 st2 st3 :
  same_completion st1 st2 -> same_completion st2 st3 -> same_completion st1 st3.
Proof. unfold same_completion. intros [? ?] [? ?]. split; congruence. Qed.

Lemma iteration_unfold st :
  iteration st =
  after_increment self json_loads task (env (iteration_count st + 1))
    (snd (SeeThinkActAgent.incr_iteration st)).
Proof. reflexivity. Qed.

(** The continuation of [_think_and_decide] only runs on the reply of the
    world. *)
Lemma respects_think (R : state -> state -> Prop) w (k : value -> M unit) :
  (forall st1 st2 st3, R st1 st2 -> R st2 st3 -> R st1 st3) ->
  (forall q o st, R st (record (EvChat q) o st)) ->
  respects R (k (chat_reply w)) ->
  respects R (bind (SeeThinkActAgent._think_and_decide task w) k).
Proof.
  intros Htrans Hrec Hk st.
  unfold bind, SeeThinkActAgent._think_and_decide, SeeThinkActAgent.get_state,
    perform, ret.
  unfold bind at 1 2. simpl.
  match goal with |- context [react w ?ev] => destruct (react w ev) as [e |] end;
    simpl.
  - apply Hrec.
  - eapply Htrans; [apply Hrec | apply Hk].
Qed.

Lemma after_increment_count w : respects same_count (after_increment self json_loads task w).
Proof.
  unfold after_increment.
  apply respects_bind;
    [exact same_count_trans
    | apply _capture_current_state_respects;
        [exact same_count_refl | exact same_count_trans | reflexivity]
    | intros _].
  apply respects_think; [exact same_count_trans | reflexivity |].
  apply respects_bind; [exact same_count_trans | intro st; reflexivity | intros _].
  apply respects_bind; [exact same_count_trans | | intros _].
  - apply _execute_action_respects_always;
      [exact same_count_refl | exact same_count_trans | reflexivity | reflexivity].
  - apply respects_perform. reflexivity.
Qed.

(** An iteration, however it ends, has counted itself. *)
Lemma iteration_counts st :
  iteration_count (snd (iteration st)) = iteration_count st + 1.
Proof.
  rewrite iteration_unfold.
  apply (after_increment_count _ (snd (SeeThinkActAgent.incr_iteration st))).
Qed.

Lemma after_increment_completion w :
  SeeThinkActAgent.terminate_descriptor json_loads (chat_reply w) = false ->
  SeeThinkActAgent.textual_completion json_loads (chat_reply w) = false ->
  respects same_completion (after_increment self json_loads task w).
Proof.
  intros Hterm Htext. unfold after_increment.
  apply respects_bind;
    [exact same_completion_trans
    | apply _capture_current_state_respects;
        [exact same_completion_refl | exact same_completion_trans
        | intros; split; reflexivity]
    | intros _].
  apply respects_think;
    [exact same_completion_trans | intros; split; reflexivity |].
  apply respects_bind;
    [exact same_completion_trans | intro st; split; reflexivity | intros _].
  apply respects_bind; [exact same_completion_trans | | intros _].
  - apply _execute_action_respects;
      [exact same_completion_refl | exact same_completion_trans
      | intros; split; reflexivity | assumption | assumption].
  - apply respects_perform. intros; split; reflexivity.
Qed.

(** An iteration whose reply neither carries a terminate descriptor nor
    completes the task by its text leaves the completion flag as it was. *)
Lemma iteration_keeps_completion st :
  let w := env (iteration_count st + 1) in
  SeeThinkActAgent.terminate_descriptor json_loads (chat_reply w) = false ->
  SeeThinkActAgent.textual_completion json_loads (chat_reply w) = false ->
  task_completed (snd (iteration st)) = task_completed st.
Proof.
  intros w Hterm Htext. rewrite iteration_unfold.
  apply (after_increment_completion w Hterm Htext
           (snd (SeeThinkActAgent.incr_iteration st))).
Qed.

(** The loop finishes within the fuel that [run] gives it. *)
Lemma while_loop_total (fuel : nat) (st : state) :
  SeeThinkActAgent.max_iterations self - iteration_count st <= Z.of_nat fuel ->
  exists r st', while_loop fuel st = Some (r, st').
Proof.
  revert st. induction fuel as [| fuel IH]; intros st Hfuel;
    unfold while_loop; simpl;
    destruct (SeeThinkActAgent.loop_condition self st) eqn:Hcond;
    try (eexists; eexists; reflexivity).
  - unfold SeeThinkActAgent.loop_condition in Hcond.
    apply andb_prop in Hcond. destruct Hcond as [Hlt _].
    apply Z.ltb_lt in Hlt. lia.
  - pose proof (iteration_counts st) as Hcount.
    fold iteration.
    destruct (iteration st) as [[[] | e] st1]; simpl in Hcount.
    + apply IH. unfold SeeThinkActAgent.loop_condition in Hcond.
      apply andb_prop in Hcond. destruct Hcond as [Hlt _].
      apply Z.ltb_lt in Hlt. lia.
    + eexists; eexists; reflexivity.
Qed.

Lemma run_total :
  exists r st, SeeThinkActAgent.run self json_loads task env = Some (r, st).
Proof.
  unfold SeeThinkActAgent.run.
  destruct (while_loop_total (Z.to_nat (SeeThinkActAgent.max_iterations self))
              SeeThinkActAgent.reset) as (r & st & Hloop).
  - simpl. lia.
  - unfold while_loop in Hloop. rewrite Hloop. eexists; eexists; reflexivity.
Qed.

End Loop.

Section Runs.

Variable self : SeeThinkActAgent.t.
Variable json_loads : string -> result value.
Variable task : string.
Variable env : Z -> step_env.

Let iteration := SeeThinkActAgent.iteration self json_loads task env.
Let while_loop := SeeThinkActAgent.while_loop self json_loads task env.
Let max := SeeThinkActAgent.max_iterations self.

Lemma loop_condition_lt st :
  SeeThinkActAgent.loop_condition self st = true ->
  iteration_count st < max /\ task_completed st = false.
Proof.
  unfold SeeThinkActAgent.loop_condition. intro H.
  apply andb_prop in H. destruct H as [Hlt Hnot].
  apply Z.ltb_lt in Hlt. apply negb_true_iff in Hnot. split; assumption.
Qed.

(** From a state the loop reaches, the fuel that is left is enough. *)
Lemma reaches_loop st :
  SeeThinkActAgent.reaches self json_loads task env st ->
  0 <= iteration_count st /\
  while_loop (Z.to_nat max) SeeThinkActAgent.reset =
  while_loop (Z.to_nat (max - iteration_count st)) st.
Proof.
  induction 1 as [| st st' Hreach [Hpos IH] Hcond Hstep].
  - split; [simpl; lia |]. simpl iteration_count. rewrite Z.sub_0_r. reflexivity.
  - pose proof (iteration_counts self json_loads task env st) as Hcount.
    rewrite Hstep in Hcount. simpl in Hcount.
    destruct (loop_condition_lt st Hcond) as [Hlt _].
    split; [lia |]. rewrite IH.
    replace (Z.to_nat (max - iteration_count st))
      with (S (Z.to_nat (max - iteration_count st'))) by lia.
    unfold while_loop at 1. simpl. rewrite Hcond, Hstep. reflexivity.
Qed.

(** The run whose loop reaches [st] and whose next iteration completes the
    task with status [s]. *)
Lemma run_completes st st' :
  SeeThinkActAgent.reaches self json_loads task env st ->
  SeeThinkActAgent.loop_condition self st = true ->
  iteration st = (Return tt, st') ->
  task_completed st' = true ->
  SeeThinkActAgent.run self json_loads task env =
  Some ({| SeeThinkActAgent.success := eq_str (task_status st') "success";
           SeeThinkActAgent.status := task_status st';
           SeeThinkActAgent.message :=
             "Task completed in " ++ SeeThinkActAgent.str_int (iteration_count st + 1)
             ++ " iterations";
           SeeThinkActAgent.iterations := iteration_count st + 1 |}, st').
Proof.
  intros Hreach Hcond Hstep Hdone.
  assert (Hreach' : SeeThinkActAgent.reaches self json_loads task env st')
    by (eapply SeeThinkActAgent.reaches_next; eassumption).
  destruct (reaches_loop st' Hreach') as [_ Hloop].
  pose proof (iteration_counts self json_loads task env st) as Hcount.
  fold iteration in Hcount. rewrite Hstep in Hcount. simpl in Hcount.
  unfold SeeThinkActAgent.run. fold while_loop max. rewrite Hloop.
  assert (Hstop : SeeThinkActAgent.loop_condition self st' = false).
  { unfold SeeThinkActAgent.loop_condition. rewrite Hdone. apply andb_false_r. }
  assert (Hend : forall fuel, while_loop fuel st' = Some (Return tt, st')).
  { intros [| fuel]; unfold while_loop; simpl; rewrite Hstop; reflexivity. }
  rewrite Hend. unfold SeeThinkActAgent.result_of. rewrite Hdone, Hcount. reflexivity.
Qed.

Lemma _capture_current_state_quiet w st :
  quiet w ->
  exists st1, SeeThinkActAgent._capture_current_state self w st = (Return tt, st1) /\
              same_agent st st1.
Proof.
  intro Hq. unfold SeeThinkActAgent._capture_current_state.
  run_with ltac:((apply perform_quiet; exact Hq)).
  destruct (SeeThinkActAgent.save_screenshots self).
  - run_with ltac:(reflexivity).
    rewrite perform_quiet by exact Hq.
    eexists. split; [reflexivity | repeat split].
  - eexists. split; [reflexivity | repeat split].
Qed.

Lemma _think_and_decide_quiet w st :
  quiet w ->
  exists st1, SeeThinkActAgent._think_and_decide task w st = (Return (chat_reply w), st1) /\
              same_agent st st1.
Proof.
  intro Hq. unfold SeeThinkActAgent._think_and_decide.
  run_with ltac:(reflexivity).
  run_with ltac:((apply perform_quiet; exact Hq)).
  eexists. split; [reflexivity | repeat split].
Qed.

(** [_execute_action] on a reply that carries a terminate descriptor. *)
Lemma _execute_action_terminates w response st (action action_name arguments kind s : value) :
  OllamaVisionClient.parse_computer_use_action json_loads response = Ok action ->
  truthy action = true ->
  SeeThinkActAgent.action_details json_loads action = Ok (action_name, arguments) ->
  py_get arguments "action" VNone = Ok kind ->
  eq_str kind "terminate" = true ->
  py_get arguments "status" (VStr "success") = Ok s ->
  SeeThinkActAgent._execute_action self json_loads w response st =
  (Return true, snd (SeeThinkActAgent.set_completed s st)).
Proof.
  intros Hparse Htruthy Hdetails Hkind Hterm Hstatus.
  unfold SeeThinkActAgent._execute_action.
  run_with ltac:((apply lift_ok; exact Hparse)).
  rewrite Htruthy. cbn [negb].
  run_with ltac:((apply lift_ok; exact Hdetails)).
  run_with ltac:((apply lift_ok; exact Hkind)).
  rewrite Hterm.
  run_with ltac:((apply lift_ok; exact Hstatus)).
  reflexivity.
Qed.

(** A quiet iteration on a reply that carries a terminate descriptor. *)
Lemma iteration_terminates st (action action_name arguments kind s : value) :
  let w := env (iteration_count st + 1) in
  quiet w ->
  OllamaVisionClient.parse_computer_use_action json_loads (chat_reply w) = Ok action ->
  truthy action = true ->
  SeeThinkActAgent.action_details json_loads action = Ok (action_name, arguments) ->
  py_get arguments "action" VNone = Ok kind ->
  eq_str kind "terminate" = true ->
  py_get arguments "status" (VStr "success") = Ok s ->
  exists st',
    iteration st = (Return tt, st') /\
    task_completed st' = true /\ task_status st' = s.
Proof.
  intros w Hquiet Hparse Htruthy Hdetails Hkind Hterm Hstatus.
  unfold iteration. rewrite iteration_unfold. fold w. unfold after_increment.
  destruct (_capture_current_state_quiet w
              (snd (SeeThinkActAgent.incr_iteration st)) Hquiet) as (st1 & H1 & _).
  run_with ltac:(exact H1).
  destruct (_think_and_decide_quiet w st1 Hquiet) as (st2 & H2 & _).
  run_with ltac:(exact H2).
  run_with ltac:(reflexivity).
  run_with ltac:((eapply _execute_action_terminates; eassumption)).
  rewrite perform_quiet by exact Hquiet.
  eexists. split; [reflexivity | split; reflexivity].
Qed.

(** A loop that returns without the task ever completing has used up the
    ceiling. *)
Lemma while_loop_exhausts (fuel : nat) (st st' : state) :
  while_loop fuel st = Some (Return tt, st') ->
  task_completed st = false ->
  iteration_count st <= max ->
  (forall i, iteration_count st < i <= max ->
     SeeThinkActAgent.terminate_descriptor json_loads (chat_reply (env i)) = false /\
     SeeThinkActAgent.textual_completion json_loads (chat_reply (env i)) = false) ->
  task_completed st' = false /\ iteration_count st' = max.
Proof.
  revert st. induction fuel as [| fuel IH]; intros st Hloop Hopen Hle Hnone;
    unfold while_loop in Hloop; simpl in Hloop;
    destruct (SeeThinkActAgent.loop_condition self st) eqn:Hcond;
    try discriminate.
  - injection Hloop as <-. split; [assumption |].
    unfold SeeThinkActAgent.loop_condition in Hcond. rewrite Hopen in Hcond.
    rewrite andb_true_r in Hcond. apply Z.ltb_ge in Hcond. fold max in Hcond. lia.
  - destruct (loop_condition_lt st Hcond) as [Hlt _].
    pose proof (iteration_counts self json_loads task env st) as Hcount.
    destruct (Hnone (iteration_count st + 1)) as [Hterm Htext]; [lia |].
    pose proof (iteration_keeps_completion self json_loads task env st Hterm Htext)
      as Hkeep.
    unfold iteration in Hloop.
    destruct (SeeThinkActAgent.iteration self json_loads task env st)
      as [[[] | e] st1] eqn:Hstep; simpl in Hcount, Hkeep.
    + apply (IH st1 Hloop); try lia.
      * congruence.
      * intros i Hi. apply Hnone. lia.
    + discriminate.
  - injection Hloop as <-. split; [assumption |].
    unfold SeeThinkActAgent.loop_condition in Hcond. rewrite Hopen in Hcond.
    rewrite andb_true_r in Hcond. apply Z.ltb_ge in Hcond. fold max in Hcond. lia.
Qed.

End Runs.

Lemma eq_str_true (v : value) (s : string) : eq_str v s = true <-> v = VStr s.
Proof.
  destruct v; simpl; try (split; [discriminate | intro H; discriminate H]).
  rewrite String.eqb_eq. split; [intros ->; reflexivity | intro H; injection H; auto].
Qed.

Lemma py_get_dict (d : list (string * value)) (k : string) (default : value) :
  py_get (VDict d) k default =
  Ok (match lookup k d with Some v => v | None => default end).
Proof. simpl. destruct (lookup k d); reflexivity. Qed.

(** ** The properties of the run result *)

(** C2.  When the loop has reached an iteration in which the world raises
    nothing and the model's reply carries a terminate descriptor, the run
    returns at that iteration: with [status] ["success"] the result is
    [{success: true, status: "success"}], with ["failure"] it is
    [{success: false, status: "failure"}], and with the status omitted it is
    the success result again. *)
Theorem terminate_descriptor_decides_result
  (self : SeeThinkActAgent.t) (json_loads : string -> result value) (task : string)
  (env : Z -> step_env) (st : state) (action action_name : value)
  (arguments : list (string * value)) :
  let w := env (iteration_count st + 1) in
  let done s ok :=
    {| SeeThinkActAgent.success := ok;
       SeeThinkActAgent.status := VStr s;
       SeeThinkActAgent.message :=
         "Task completed in " ++ SeeThinkActAgent.str_int (iteration_count st + 1)
         ++ " iterations";
       SeeThinkActAgent.iterations := iteration_count st + 1 |} in
  SeeThinkActAgent.reaches self json_loads task env st ->
  SeeThinkActAgent.loop_condition self st = true ->
  quiet w ->
  OllamaVisionClient.parse_computer_use_action json_loads (chat_reply w) = Ok action ->
  truthy action = true ->
  SeeThinkActAgent.action_details json_loads action = Ok (action_name, VDict arguments) ->
  lookup "action" arguments = Some (VStr "terminate") ->
  exists st',
    (lookup "status" arguments = Some (VStr "success") ->
     SeeThinkActAgent.run self json_loads task env = Some (done "success" true, st')) /\
    (lookup "status" arguments = Some (VStr "failure") ->
     SeeThinkActAgent.run self json_loads task env = Some (done "failure" false, st')) /\
    (lookup "status" arguments = None ->
     SeeThinkActAgent.run self json_loads task env = Some (done "success" true, st')).
Proof.
  intros w done Hreach Hcond Hquiet Hparse Htruthy Hdetails Haction.
  destruct (iteration_terminates self json_loads task env st action action_name
              (VDict arguments) (VStr "terminate")
              (match lookup "status" arguments with
               | Some v => v
               | None => VStr "success"
               end))
    as (st' & Hstep & Hdone & Hstatus); try assumption.
  - rewrite py_get_dict, Haction. reflexivity.
  - reflexivity.
  - apply py_get_dict.
  - exists st'.
    pose proof (run_completes self json_loads task env st st' Hreach Hcond Hstep Hdone)
      as Hrun.
    rewrite Hstatus in Hrun. unfold done.
    repeat split; intro Hs; rewrite Hs in Hrun; exact Hrun.
Qed.

Lemma terminate_descriptor_decides_result_witness :
  exists st',
    SeeThinkActAgent.run (Scenario.agent 3) Scenario.no_json Scenario.task
      (Scenario.always (Scenario.reply_with_call (Scenario.terminate_with "success")))
    = Some ({| SeeThinkActAgent.success := true;
               SeeThinkActAgent.status := VStr "success";
               SeeThinkActAgent.message := "Task completed in 1 iterations";
               SeeThinkActAgent.iterations := 1 |}, st').
Proof.
  destruct (terminate_descriptor_decides_result
              (Scenario.agent 3) Scenario.no_json Scenario.task
              (Scenario.always (Scenario.reply_with_call (Scenario.terminate_with "success")))
              SeeThinkActAgent.reset
              (Scenario.tool_call (Scenario.terminate_with "success"))
              (VStr "computer")
              [("action", VStr "terminate"); ("status", VStr "success")])
    as (st' & Hsuccess & _).
  - apply SeeThinkActAgent.reaches_reset.
  - reflexivity.
  - intro ev. reflexivity.
  - reflexivity.
  - reflexivity.
  - reflexivity.
  - reflexivity.
  - exists st'. apply Hsuccess. reflexivity.
Defined.

(** The other two cases on the same run: a failure, and a descriptor without
    status. *)
Example terminate_failure_run :
  exists st',
    SeeThinkActAgent.run (Scenario.agent 3) Scenario.no_json Scenario.task
      (Scenario.always (Scenario.reply_with_call (Scenario.terminate_with "failure")))
    = Some ({| SeeThinkActAgent.success := false;
               SeeThinkActAgent.status := VStr "failure";
               SeeThinkActAgent.message := "Task completed in 1 iterations";
               SeeThinkActAgent.iterations := 1 |}, st').
Proof. eexists. vm_compute. reflexivity. Qed.

Example terminate_bare_run :
  exists st',
    SeeThinkActAgent.run (Scenario.agent 3) Scenario.no_json Scenario.task
      (Scenario.always (Scenario.reply_with_call Scenario.terminate_bare))
    = Some ({| SeeThinkActAgent.success := true;
               SeeThinkActAgent.status := VStr "success";
               SeeThinkActAgent.message := "Task completed in 1 iterations";
               SeeThinkActAgent.iterations := 1 |}, st').
Proof. eexists. vm_compute. reflexivity. Qed.

(** C3, as the code has it.  A run that neither an interrupt nor an error
    aborts, in which no reply carries a terminate descriptor and no reply
    without action mentions ['terminate'] or ['complete'], ends with status
    ["timeout"], [success] false and [iterations = max_iterations]. *)
Theorem timeout_after_max_iterations
  (self : SeeThinkActAgent.t) (json_loads : string -> result value) (task : string)
  (env : Z -> step_env) (r : SeeThinkActAgent.run_result) (st : state) :
  0 <= SeeThinkActAgent.max_iterations self ->
  SeeThinkActAgent.run self json_loads task env = Some (r, st) ->
  SeeThinkActAgent.status r <> VStr "interrupted" ->
  SeeThinkActAgent.status r <> VStr "error" ->
  (forall i, 1 <= i <= SeeThinkActAgent.max_iterations self ->
     SeeThinkActAgent.terminate_descriptor json_loads (chat_reply (env i)) = false) ->
  (forall i, 1 <= i <= SeeThinkActAgent.max_iterations self ->
     SeeThinkActAgent.textual_completion json_loads (chat_reply (env i)) = false) ->
  SeeThinkActAgent.success r = false /\
  SeeThinkActAgent.status r = VStr "timeout" /\
  SeeThinkActAgent.iterations r = SeeThinkActAgent.max_iterations self.
Proof.
  intros Hmax Hrun Hint Herr Hterm Htext.
  unfold SeeThinkActAgent.run in Hrun.
  destruct (SeeThinkActAgent.while_loop self json_loads task env
              (Z.to_nat (SeeThinkActAgent.max_iterations self)) SeeThinkActAgent.reset)
    as [[o st0] |] eqn:Hloop; [| discriminate].
  injection Hrun as <- <-.
  destruct o as [[] | [| c msg]]; simpl in Hint, Herr; try congruence.
  destruct (while_loop_exhausts self json_loads task env _ _ _ Hloop) as [Hopen Hcount].
  - reflexivity.
  - simpl. lia.
  - simpl. intros i Hi. split; [apply Hterm | apply Htext]; lia.
  - simpl. rewrite Hopen. simpl. auto.
Qed.

Lemma timeout_after_max_iterations_witness :
  exists r st,
    SeeThinkActAgent.run (Scenario.agent 2) Scenario.no_json Scenario.task
      (Scenario.always (Scenario.reply_with_call (Scenario.left_click_at 500 500)))
    = Some (r, st) /\
    SeeThinkActAgent.success r = false /\
    SeeThinkActAgent.status r = VStr "timeout" /\
    SeeThinkActAgent.iterations r = 2.
Proof.
  eexists. eexists. split; [vm_compute; reflexivity |].
  eapply (timeout_after_max_iterations (Scenario.agent 2) Scenario.no_json Scenario.task
           (Scenario.always (Scenario.reply_with_call (Scenario.left_click_at 500 500)))).
  - simpl. lia.
  - vm_compute. reflexivity.
  - discriminate.
  - discriminate.
  - intros i _. vm_compute. reflexivity.
  - intros i _. vm_compute. reflexivity.
Defined.

(** The claim C3 as the specification words it fails: with a ceiling of one
    iteration and a model that never produces a terminate descriptor but says
    that the task is complete, the run makes its [max_iterations] steps and
    ends with status ["success"], not ["timeout"]. *)
Lemma timeout_claim_counterexample :
  let env := Scenario.always (Scenario.reply_with_text "The task is complete.") in
  (forall i,
     SeeThinkActAgent.terminate_descriptor Scenario.no_json (chat_reply (env i)) = false) /\
  exists st,
    SeeThinkActAgent.run (Scenario.agent 1) Scenario.no_json Scenario.task env =
    Some ({| SeeThinkActAgent.success := true;
             SeeThinkActAgent.status := VStr "success";
             SeeThinkActAgent.message := "Task completed in 1 iterations";
             SeeThinkActAgent.iterations := 1 |}, st).
Proof.
  split.
  - intro i. vm_compute. reflexivity.
  - eexists. vm_compute. reflexivity.
Qed.

(** C10.  [run] returns a result, and in it [success] is true exactly when
    [status] is ["success"], whichever way the loop ended. *)
Theorem success_iff_status_success
  (self : SeeThinkActAgent.t) (json_loads : string -> result value) (task : string)
  (env : Z -> step_env) :
  exists r st,
    SeeThinkActAgent.run self json_loads task env = Some (r, st) /\
    (SeeThinkActAgent.success r = true <-> SeeThinkActAgent.status r = VStr "success").
Proof.
  destruct (run_total self json_loads task env) as (r & st & Hrun).
  exists r, st. split; [exact Hrun |].
  unfold SeeThinkActAgent.run in Hrun.
  destruct (SeeThinkActAgent.while_loop self json_loads task env _ _)
    as [[o st0] |]; [| discriminate].
  injection Hrun as <- <-.
  destruct o as [[] | [| c msg]]; simpl.
  - destruct (task_completed st0); simpl.
    + apply eq_str_true.
    + split; discriminate.
  - split; discriminate.
  - split; discriminate.
Qed.

(** ** Interrupts *)

Lemma uninterrupted_nil : uninterrupted [].
Proof. intros ev H. exact H. Qed.

Lemma uninterrupted_app l1 l2 :
  uninterrupted l1 -> uninterrupted l2 -> uninterrupted (l1 ++ l2).
Proof.
  intros H1 H2 ev Hin. apply in_app_or in Hin. destruct Hin as [Hin | Hin].
  - exact (H1 ev Hin).
  - exact (H2 ev Hin).
Qed.

Lemma uninterrupted_cons ev o l :
  o <> Some KeyboardInterrupt -> uninterrupted l -> uninterrupted ((ev, o) :: l).
Proof.
  intros Ho Hl ev' [Heq | Hin].
  - injection Heq as _ Heq. exact (Ho Heq).
  - exact (Hl ev' Hin).
Qed.

Lemma tidy_app {A} (r : outcome A) delta2 delta1 :
  tidy r delta2 -> uninterrupted delta1 -> tidy r (delta2 ++ delta1).
Proof.
  intros H2 H1. destruct r as [a | [| c msg]]; simpl in *.
  - apply uninterrupted_app; assumption.
  - destruct H2 as (ev & rest & -> & Hrest).
    exists ev, (rest ++ delta1)%list. split; [reflexivity |].
    apply uninterrupted_app; assumption.
  - apply uninterrupted_app; assumption.
Qed.

Lemma disciplined_silent {A} (m : M A) :
  (forall st, log (snd (m st)) = log st) ->
  (forall st, fst (m st) <> Raise KeyboardInterrupt) ->
  disciplined m.
Proof.
  intros Hlog Hr st. exists []. split; [apply Hlog |].
  specialize (Hr st). destruct (fst (m st)) as [a | [| c msg]]; simpl.
  - apply uninterrupted_nil.
  - congruence.
  - apply uninterrupted_nil.
Qed.

Lemma disciplined_ret {A} (a : A) : disciplined (ret a).
Proof. apply disciplined_silent; intro st; [reflexivity | discriminate]. Qed.

Lemma disciplined_raise {A} c msg : disciplined (@raise A c msg).
Proof. apply disciplined_silent; intro st; [reflexivity | discriminate]. Qed.

Lemma disciplined_lift {A} (r : result A) : disciplined (lift r).
Proof.
  apply disciplined_silent; intro st; unfold lift; destruct r;
    [reflexivity | reflexivity | discriminate | discriminate].
Qed.

Lemma disciplined_get_state : disciplined SeeThinkActAgent.get_state.
Proof. apply disciplined_silent; intro st; [reflexivity | discriminate]. Qed.

Lemma disciplined_set_completed s : disciplined (SeeThinkActAgent.set_completed s).
Proof. apply disciplined_silent; intro st; [reflexivity | discriminate]. Qed.

Lemma disciplined_incr_iteration : disciplined SeeThinkActAgent.incr_iteration.
Proof. apply disciplined_silent; intro st; [reflexivity | discriminate]. Qed.

Lemma disciplined_remember response : disciplined (SeeThinkActAgent.remember response).
Proof. apply disciplined_silent; intro st; [reflexivity | discriminate]. Qed.

Lemma disciplined_perform w ev : disciplined (perform w ev).
Proof.
  intro st. unfold perform. destruct (react w ev) as [[| c msg] |]; simpl.
  - exists [(ev, Some KeyboardInterrupt)]. split; [reflexivity |].
    exists ev, []. split; [reflexivity | apply uninterrupted_nil].
  - exists [(ev, Some (Exc c msg))]. split; [reflexivity |].
    apply uninterrupted_cons; [discriminate | apply uninterrupted_nil].
  - exists [(ev, None)]. split; [reflexivity |].
    apply uninterrupted_cons; [discriminate | apply uninterrupted_nil].
Qed.

Lemma disciplined_bind {A B} (m : M A) (k : A -> M B) :
  disciplined m -> (forall a, disciplined (k a)) -> disciplined (bind m k).
Proof.
  intros Hm Hk st. unfold bind.
  destruct (Hm st) as (delta1 & Hlog1 & Htidy1).
  destruct (m st) as [[a | e] st1]; simpl in *.
  - destruct (Hk a st1) as (delta2 & Hlog2 & Htidy2).
    exists (delta2 ++ delta1)%list. split.
    + rewrite Hlog2, Hlog1. apply app_assoc.
    + apply tidy_app; assumption.
  - exists delta1. split; [assumption | exact Htidy1].
Qed.

Lemma disciplined_try {A} (body : M A) (handler : exn -> M A) :
  disciplined body -> (forall e, disciplined (handler e)) ->
  disciplined (try_except_Exception body handler).
Proof.
  intros Hb Hh st. unfold try_except_Exception.
  destruct (Hb st) as (delta1 & Hlog1 & Htidy1).
  destruct (body st) as [[a | [| c msg]] st1]; simpl in *.
  - exists delta1. split; assumption.
  - exists delta1. split; assumption.
  - destruct (Hh (Exc c msg) st1) as (delta2 & Hlog2 & Htidy2).
    exists (delta2 ++ delta1)%list. split.
    + rewrite Hlog2, Hlog1. apply app_assoc.
    + apply tidy_app; assumption.
Qed.

Create HintDb discipline.
#[local] Hint Resolve disciplined_ret disciplined_raise disciplined_lift
  disciplined_get_state disciplined_set_completed disciplined_incr_iteration
  disciplined_remember disciplined_perform : discipline.

Ltac discipline :=
  repeat first
    [ solve [auto with discipline]
    | apply disciplined_bind; [| intro]
    | apply disciplined_try; [| intro]
    | match goal with
      | |- disciplined (if ?b then _ else _) => destruct b
      | |- disciplined (match ?x with _ => _ end) => destruct x
      end ].

Lemma execute_computer_use_action_disciplined self w json_loads action :
  disciplined (ActionExecutor.execute_computer_use_action self w json_loads action).
Proof.
  unfold ActionExecutor.execute_computer_use_action,
    ActionExecutor._execute_computer_action, ActionExecutor.click_normalized,
    ActionExecutor.click, ActionExecutor.drag, ActionExecutor.move_mouse,
    ActionExecutor.type_text, ActionExecutor.press_key, ActionExecutor.scroll.
  discipline.
Qed.

Lemma iteration_disciplined self json_loads task env :
  disciplined (SeeThinkActAgent.iteration self json_loads task env).
Proof.
  unfold SeeThinkActAgent.iteration, SeeThinkActAgent._capture_current_state,
    SeeThinkActAgent._think_and_decide, SeeThinkActAgent._execute_action.
  pose proof execute_computer_use_action_disciplined.
  discipline.
Qed.

(** The log of the loop: no interrupted call as long as the loop goes on, and
    when [KeyboardInterrupt] ends it, the interrupted call is the last call
    made. *)
Lemma while_loop_tidy self json_loads task env (fuel : nat) (st : state) r st' :
  SeeThinkActAgent.while_loop self json_loads task env fuel st = Some (r, st') ->
  uninterrupted (log st) ->
  match r with
  | Raise KeyboardInterrupt =>
      exists ev rest, log st' = (ev, Some KeyboardInterrupt) :: rest /\
                      uninterrupted rest
  | _ => uninterrupted (log st')
  end.
Proof.
  revert st. induction fuel as [| fuel IH]; intros st Hloop Hclean;
    simpl in Hloop;
    destruct (SeeThinkActAgent.loop_condition self st);
    try discriminate;
    try (injection Hloop as <- <-; exact Hclean).
  destruct (iteration_disciplined self json_loads task env st)
    as (delta & Hlog & Htidy).
  destruct (SeeThinkActAgent.iteration self json_loads task env st)
    as [[[] | e] st1]; simpl in Hlog, Htidy.
  - apply (IH st1 Hloop). rewrite Hlog. apply uninterrupted_app; assumption.
  - injection Hloop as <- <-.
    pose proof (tidy_app (@Raise unit e) delta (log st) Htidy Hclean) as Hall.
    rewrite <- Hlog in Hall. destruct e as [| c msg]; exact Hall.
Qed.

(** C7.  When a Ctrl-C arrives during a call of the run (a capture, the round
    trip to the model, a pyautogui call or a sleep, all of which only happen
    inside an iteration), the run returns [{success: false, status:
    "interrupted"}] and the interrupted call is the last thing the run did:
    nothing is executed after it. *)
Theorem interrupt_ends_run
  (self : SeeThinkActAgent.t) (json_loads : string -> result value) (task : string)
  (env : Z -> step_env) (r : SeeThinkActAgent.run_result) (st : state) (ev : event) :
  SeeThinkActAgent.run self json_loads task env = Some (r, st) ->
  In (ev, Some KeyboardInterrupt) (log st) ->
  SeeThinkActAgent.status r = VStr "interrupted" /\
  SeeThinkActAgent.success r = false /\
  exists rest, log st = (ev, Some KeyboardInterrupt) :: rest /\ uninterrupted rest.
Proof.
  intros Hrun Hin. unfold SeeThinkActAgent.run in Hrun.
  destruct (SeeThinkActAgent.while_loop self json_loads task env _ _)
    as [[o st0] |] eqn:Hloop; [| discriminate].
  injection Hrun as <- <-.
  pose proof (while_loop_tidy _ _ _ _ _ _ _ _ Hloop uninterrupted_nil) as Htidy.
  destruct o as [[] | [| c msg]]; simpl.
  - exfalso. exact (Htidy ev Hin).
  - destruct Htidy as (ev' & rest & Hlog & Hrest).
    repeat split. exists rest. split; [| exact Hrest].
    rewrite Hlog in Hin |- *. destruct Hin as [Heq | Hin].
    + injection Heq as ->. reflexivity.
    + exfalso. exact (Hrest ev Hin).
  - exfalso. exact (Htidy ev Hin).
Qed.

Lemma interrupt_ends_run_witness :
  exists r st,
    SeeThinkActAgent.run (Scenario.agent 3) Scenario.no_json Scenario.task
      (fun _ => {| react := Scenario.ctrl_c_while_thinking;
                   chat_reply := Scenario.reply_with_text "" |}) = Some (r, st) /\
    SeeThinkActAgent.status r = VStr "interrupted" /\
    SeeThinkActAgent.success r = false /\
    exists rest,
      log st = (EvChat (SeeThinkActAgent.next_prompt Scenario.task),
                Some KeyboardInterrupt) :: rest /\
      uninterrupted rest.
Proof.
  eexists. eexists. split; [vm_compute; reflexivity |].
  apply (interrupt_ends_run (Scenario.agent 3) Scenario.no_json Scenario.task
           (fun _ => {| react := Scenario.ctrl_c_while_thinking;
                        chat_reply := Scenario.reply_with_text "" |})).
  - vm_compute. reflexivity.
  - left. reflexivity.
Defined.

(** ** The question put to the model *)

Section Question.

Variable self : SeeThinkActAgent.t.
Variable json_loads : string -> result value.
Variable task : string.
Variable env : Z -> step_env.

Lemma keeps_asking_next_refl st : keeps_asking_next task st st.
Proof. intros _. split; [reflexivity | auto]. Qed.

Lemma keeps_asking_next_trans st1 st2 st3 :
  keeps_asking_next task st1 st2 -> keeps_asking_next task st2 st3 ->
  keeps_asking_next task st1 st3.
Proof.
  intros H12 H23 Hne. destruct (H12 Hne) as [Hc12 Ha12].
  destruct H23 as [Hc23 Ha23]; [congruence |].
  split; [congruence | auto].
Qed.

Lemma keeps_asking_next_record ev o st :
  (forall q, ev <> EvChat q) -> keeps_asking_next task st (record ev o st).
Proof.
  intros Hev _. split; [reflexivity |].
  intros Hasks q o' [Heq | Hin].
  - injection Heq as Heq _. exfalso. exact (Hev q Heq).
  - exact (Hasks q o' Hin).
Qed.

Lemma keeps_asking_next_think w (k : value -> M unit) :
  respects (keeps_asking_next task) (k (chat_reply w)) ->
  respects (keeps_asking_next task)
    (bind (SeeThinkActAgent._think_and_decide task w) k).
Proof.
  intros Hk st.
  assert (Hrec : forall o, keeps_asking_next task st
                   (record (EvChat (if iteration_count st =? 0
                                    then SeeThinkActAgent.first_prompt task
                                    else SeeThinkActAgent.next_prompt task)%Z) o st)).
  { intros o Hne. split; [reflexivity |].
    apply Z.eqb_neq in Hne. rewrite Hne.
    intros Hasks q o' [Heq | Hin].
    - injection Heq as Heq _. symmetry. exact Heq.
    - exact (Hasks q o' Hin). }
  unfold bind, SeeThinkActAgent._think_and_decide, SeeThinkActAgent.get_state,
    perform, ret.
  unfold bind at 1 2. simpl.
  match goal with |- context [react w ?ev] => destruct (react w ev) as [e |] end;
    simpl.
  - apply Hrec.
  - eapply keeps_asking_next_trans; [apply Hrec | apply Hk].
Qed.

Lemma after_increment_asks_next w :
  respects (keeps_asking_next task) (after_increment self json_loads task w).
Proof.
  unfold after_increment.
  apply respects_bind;
    [exact keeps_asking_next_trans
    | apply _capture_current_state_respects;
        [exact keeps_asking_next_refl | exact keeps_asking_next_trans
        | exact keeps_asking_next_record]
    | intros _].
  apply keeps_asking_next_think.
  apply respects_bind;
    [exact keeps_asking_next_trans | intros st _; split; [reflexivity | auto] | intros _].
  apply respects_bind; [exact keeps_asking_next_trans | | intros _].
  - apply _execute_action_respects_always;
      [exact keeps_asking_next_refl | exact keeps_asking_next_trans
      | exact keeps_asking_next_record | intros s st _; split; [reflexivity | auto]].
  - apply respects_perform. intros. apply keeps_asking_next_record. discriminate.
Qed.

Lemma while_loop_asks_next (fuel : nat) (st : state) r st' :
  SeeThinkActAgent.while_loop self json_loads task env fuel st = Some (r, st') ->
  0 <= iteration_count st ->
  asks_next task (log st) ->
  asks_next task (log st').
Proof.
  revert st. induction fuel as [| fuel IH]; intros st Hloop Hpos Hasks;
    simpl in Hloop;
    destruct (SeeThinkActAgent.loop_condition self st);
    try discriminate;
    try (injection Hloop as <- <-; exact Hasks).
  pose proof (after_increment_asks_next (env (iteration_count st + 1))
                (snd (SeeThinkActAgent.incr_iteration st))) as Hstep.
  rewrite <- iteration_unfold in Hstep.
  destruct Hstep as [Hcount Hnext]; [simpl; lia |].
  simpl in Hcount, Hnext. specialize (Hnext Hasks).
  destruct (SeeThinkActAgent.iteration self json_loads task env st)
    as [[[] | e] st1]; simpl in Hcount, Hnext.
  - apply (IH st1 Hloop); [lia | exact Hnext].
  - injection Hloop as <- <-. exact Hnext.
Qed.

End Question.

Lemma append_cancel (p a b : string) : (p ++ a = p ++ b)%string -> a = b.
Proof.
  induction p as [| c p IH]; simpl; intro H; [exact H |].
  injection H as H. exact (IH H).
Qed.

Lemma prompts_differ (task : string) :
  SeeThinkActAgent.next_prompt task <> SeeThinkActAgent.first_prompt task.
Proof.
  unfold SeeThinkActAgent.next_prompt, SeeThinkActAgent.first_prompt. intro H.
  apply append_cancel in H. apply append_cancel in H.
  apply append_cancel in H. apply append_cancel in H. discriminate H.
Qed.

(** C5, what the code does instead.  [run] increments [iteration_count]
    before it calls [_think_and_decide], whose test [iteration_count == 0]
    therefore never holds: every question a run puts to the model, the one of
    the first iteration included, is "What should I do next?", and "What
    should I do first" is never asked. *)
Theorem first_question_never_asked
  (self : SeeThinkActAgent.t) (json_loads : string -> result value) (task : string)
  (env : Z -> step_env) (r : SeeThinkActAgent.run_result) (st : state)
  (q : string) (o : option exn) :
  SeeThinkActAgent.run self json_loads task env = Some (r, st) ->
  In (EvChat q, o) (log st) ->
  q = SeeThinkActAgent.next_prompt task /\ q <> SeeThinkActAgent.first_prompt task.
Proof.
  intros Hrun Hin. unfold SeeThinkActAgent.run in Hrun.
  destruct (SeeThinkActAgent.while_loop self json_loads task env _ _)
    as [[out st0] |] eqn:Hloop; [| discriminate].
  injection Hrun as <- <-.
  assert (Hq : q = SeeThinkActAgent.next_prompt task).
  { apply (while_loop_asks_next self json_loads task env _ _ _ _ Hloop) with (o := o).
    - simpl. lia.
    - intros q' o' [].
    - exact Hin. }
  split; [exact Hq |]. rewrite Hq. apply prompts_differ.
Qed.

Lemma first_question_never_asked_witness :
  exists st,
    SeeThinkActAgent.run (Scenario.agent 1) Scenario.no_json Scenario.task
      (Scenario.always (Scenario.reply_with_call (Scenario.left_click_at 500 500)))
    = Some ({| SeeThinkActAgent.success := false;
               SeeThinkActAgent.status := VStr "timeout";
               SeeThinkActAgent.message := "Task did not complete within 1 iterations";
               SeeThinkActAgent.iterations := 1 |}, st) /\
    trace st =
      [(EvCapture, None); (EvSave 1, None);
       (EvChat (SeeThinkActAgent.next_prompt Scenario.task), None);
       (EvClick 960 540 "left" 1, None);
       (EvSleep (VInt 1), None);
       (EvSleep (VFloat Float64.half), None)] /\
    SeeThinkActAgent.next_prompt Scenario.task
      <> SeeThinkActAgent.first_prompt Scenario.task.
Proof.
  eexists. split; [vm_compute; reflexivity |]. split; [vm_compute; reflexivity |].
  eapply (first_question_never_asked (Scenario.agent 1) Scenario.no_json Scenario.task
            (Scenario.always (Scenario.reply_with_call (Scenario.left_click_at 500 500)))
            _ _ _ None).
  - vm_compute. reflexivity.
  - vm_compute. do 3 right. left. reflexivity.
Defined.

(** ** The executor's dispatch *)

Section Dispatch.

Variable self : ActionExecutor.t.
Variable w : step_env.

Let W := ActionExecutor.screen_width self.
Let H := ActionExecutor.screen_height self.

Lemma guarded_perform ev st :
  try_except_Exception (perform w ev ;;; ret true) (fun _ => ret false) st =
  guarded_call w ev st.
Proof.
  unfold try_except_Exception, bind, perform, guarded_call, ret.
  destruct (react w ev) as [[| c msg] |]; reflexivity.
Qed.

Lemma click_normalized_pixel x_norm y_norm px py button clicks st :
  rescale x_norm W = Ok px -> rescale y_norm H = Ok py ->
  ActionExecutor.click_normalized self w x_norm y_norm button clicks st =
  guarded_call w (EvClick px py button clicks) st.
Proof.
  intros Hx Hy. unfold ActionExecutor.click_normalized.
  run_with ltac:(apply lift_ok; exact Hx).
  run_with ltac:(apply lift_ok; exact Hy).
  apply guarded_perform.
Qed.

(** A pointer action whose coordinate, given or defaulted, is the list
    [[x_norm, y_norm]]: one pyautogui call at the rescaled pixel. *)
Lemma pointer_action_pixel args action_type x_norm y_norm more px py ev st :
  lookup "action" args = Some (VStr action_type) ->
  match lookup "coordinate" args with
  | Some c => c
  | None => ActionExecutor.center
  end = VList (x_norm :: y_norm :: more) ->
  rescale x_norm W = Ok px -> rescale y_norm H = Ok py ->
  pointer_event action_type px py = Some ev ->
  ActionExecutor._execute_computer_action self w (VDict args) st =
  guarded_call w ev st.
Proof.
  intros Haction Hcoord Hx Hy Hev.
  unfold ActionExecutor._execute_computer_action.
  run_with ltac:(apply lift_ok; rewrite py_get_dict, Haction; reflexivity).
  unfold pointer_event in Hev.
  repeat match type of Hev with
         | (if (action_type =? ?s)%string then _ else _) = _ =>
             let E := fresh "E" in
             destruct (action_type =? s)%string eqn:E;
             [apply String.eqb_eq in E; subst action_type | clear E]
         end;
    try discriminate; injection Hev as <-; decide_kinds;
    run_with ltac:(apply lift_ok; rewrite py_get_dict, Hcoord; reflexivity);
    run_with ltac:(reflexivity).
  - run_with ltac:(reflexivity). apply click_normalized_pixel; assumption.
  - run_with ltac:(apply lift_ok; exact Hx).
    run_with ltac:(reflexivity).
    run_with ltac:(apply lift_ok; exact Hy).
    apply guarded_perform.
  - run_with ltac:(reflexivity). apply click_normalized_pixel; assumption.
  - run_with ltac:(reflexivity). apply click_normalized_pixel; assumption.
  - run_with ltac:(reflexivity). apply click_normalized_pixel; assumption.
  - run_with ltac:(apply lift_ok; exact Hx).
    run_with ltac:(reflexivity).
    run_with ltac:(apply lift_ok; exact Hy).
    apply guarded_perform.
Qed.

End Dispatch.

Lemma pointer_event_defined action_type x y :
  In action_type pointer_actions -> exists ev, pointer_event action_type x y = Some ev.
Proof.
  unfold pointer_actions. simpl.
  intros [<- | [<- | [<- | [<- | [<- | [<- | []]]]]]]; eexists; reflexivity.
Qed.

(** C1, as the code has it.  For a normalized coordinate in [0,1000]^2 and
    screen dimensions below 2^53, the pixel that the click, move and drag
    paths hand to pyautogui is [(int(x/1000.0*W), int(y/1000.0*H))], the
    binary64 product truncated toward zero ([rescale]), and it lies within
    [0,W] x [0,H]. *)
Theorem rescaled_pixel_within_screen
  (self : ActionExecutor.t) (w : step_env) (x y : Z) :
  0 <= x <= 1000 -> 0 <= y <= 1000 ->
  0 <= ActionExecutor.screen_width self < 2 ^ 53 ->
  0 <= ActionExecutor.screen_height self < 2 ^ 53 ->
  exists px py,
    rescale (VInt x) (ActionExecutor.screen_width self) = Ok px /\
    rescale (VInt y) (ActionExecutor.screen_height self) = Ok py /\
    0 <= px <= ActionExecutor.screen_width self /\
    0 <= py <= ActionExecutor.screen_height self /\
    (forall button clicks st,
       ActionExecutor.click_normalized self w (VInt x) (VInt y) button clicks st =
       guarded_call w (EvClick px py button clicks) st) /\
    (forall args action_type ev st,
       lookup "action" args = Some (VStr action_type) ->
       lookup "coordinate" args = Some (VList [VInt x; VInt y]) ->
       pointer_event action_type px py = Some ev ->
       ActionExecutor._execute_computer_action self w (VDict args) st =
       guarded_call w ev st).
Proof.
  intros Hx Hy HW HH.
  destruct (rescale_within x _ Hx HW) as (px & Hpx & Hbx).
  destruct (rescale_within y _ Hy HH) as (py & Hpy & Hby).
  exists px, py. repeat split; try assumption; try lia.
  - intros. apply click_normalized_pixel; assumption.
  - intros args action_type ev st Haction Hcoord Hev.
    eapply pointer_action_pixel; try eassumption.
    rewrite Hcoord. reflexivity.
Qed.

Lemma rescaled_pixel_within_screen_witness :
  rescale (VInt 500) 1920 = Ok 960 /\
  rescale (VInt 500) 1080 = Ok 540 /\
  ActionExecutor._execute_computer_action Scenario.screen Scenario.calm_world
    (Scenario.left_click_at 500 500) SeeThinkActAgent.reset =
  (Return true, record (EvClick 960 540 "left" 1) None SeeThinkActAgent.reset).
Proof.
  split; [vm_compute; reflexivity |]. split; [vm_compute; reflexivity |].
  destruct (rescaled_pixel_within_screen Scenario.screen Scenario.calm_world 500 500)
    as (px & py & Hpx & Hpy & _ & _ & _ & Hdispatch);
    [lia | lia | simpl; lia | simpl; lia |].
  vm_compute in Hpx. vm_compute in Hpy.
  injection Hpx as <-. injection Hpy as <-.
  unfold Scenario.left_click_at.
  rewrite (Hdispatch _ "left_click" (EvClick 960 540 "left" 1)) by reflexivity.
  reflexivity.
Defined.

(** The claim C1 as the specification words it fails: for the normalized
    coordinate (1, 1) on a 1920 x 1080 screen the click goes to pixel (1, 1),
    and 1 is not [round(1/1000*1920)] (1.92 rounds to 2). *)
Lemma rescaled_pixel_is_truncated_not_rounded :
  (forall st,
     ActionExecutor.click_normalized Scenario.screen Scenario.calm_world
       (VInt 1) (VInt 1) "left" 1 st =
     (Return true, record (EvClick 1 1 "left" 1) None st)) /\
  ~ rounds_to 1 1920 1.
Proof.
  split.
  - intro st.
    rewrite (click_normalized_pixel _ _ _ _ 1 1) by (vm_compute; reflexivity).
    reflexivity.
  - unfold rounds_to. simpl. lia.
Qed.

(** Beyond 2^53 a screen dimension is no longer a double, and the bound is
    lost with it. *)
Example rescale_beyond_doubles :
  rescale (VInt 1000) (2 ^ 53 + 3) = Ok (2 ^ 53 + 4).
Proof. vm_compute. reflexivity. Qed.

(** C9.  A click-family, [mouse_move] or [left_click_drag] descriptor without
    a [coordinate] field is executed as if it carried [[500, 500]]: the one
    pyautogui call it makes goes to the rescaled center of the screen, and it
    fails or raises only if that call does. *)
Theorem missing_coordinate_defaults_to_center
  (self : ActionExecutor.t) (w : step_env) (args : list (string * value))
  (action_type : string) :
  lookup "action" args = Some (VStr action_type) ->
  In action_type pointer_actions ->
  lookup "coordinate" args = None ->
  0 <= ActionExecutor.screen_width self < 2 ^ 53 ->
  0 <= ActionExecutor.screen_height self < 2 ^ 53 ->
  exists px py ev,
    rescale (VInt 500) (ActionExecutor.screen_width self) = Ok px /\
    rescale (VInt 500) (ActionExecutor.screen_height self) = Ok py /\
    pointer_event action_type px py = Some ev /\
    forall st,
      ActionExecutor._execute_computer_action self w (VDict args) st =
      guarded_call w ev st /\
      ActionExecutor._execute_computer_action self w (VDict args) st =
      ActionExecutor._execute_computer_action self w
        (VDict (("coordinate", VList [VInt 500; VInt 500]) :: args)) st.
Proof.
  intros Haction Hpointer Hmissing HW HH.
  destruct (rescale_within 500 _ ltac:(lia) HW) as (px & Hpx & _).
  destruct (rescale_within 500 _ ltac:(lia) HH) as (py & Hpy & _).
  destruct (pointer_event_defined action_type px py Hpointer) as (ev & Hev).
  exists px, py, ev. repeat split; try assumption.
  - eapply pointer_action_pixel; try eassumption.
    rewrite Hmissing. reflexivity.
  - transitivity (guarded_call w ev st).
    + eapply pointer_action_pixel; try eassumption.
      rewrite Hmissing. reflexivity.
    + symmetry.
      apply (pointer_action_pixel self w _ action_type (VInt 500) (VInt 500) []
               px py ev st); try assumption; reflexivity.
Qed.

Lemma missing_coordinate_defaults_to_center_witness :
  ActionExecutor._execute_computer_action Scenario.screen Scenario.calm_world
    (VDict [("action", VStr "double_click")]) SeeThinkActAgent.reset =
  (Return true, record (EvClick 960 540 "left" 2) None SeeThinkActAgent.reset).
Proof.
  destruct (missing_coordinate_defaults_to_center Scenario.screen Scenario.calm_world
              [("action", VStr "double_click")] "double_click")
    as (px & py & ev & Hpx & Hpy & Hev & Hrun).
  - reflexivity.
  - simpl. auto.
  - reflexivity.
  - simpl. lia.
  - simpl. lia.
  - vm_compute in Hpx. vm_compute in Hpy.
    injection Hpx as <-. injection Hpy as <-.
    injection Hev as <-.
    destruct (Hrun SeeThinkActAgent.reset) as [Hcall _]. rewrite Hcall. reflexivity.
Defined.

(** C4, what the code does instead.  The dispatch has no branch for [wait]:
    a wait descriptor falls through to the last [else], nothing sleeps and
    the executor reports failure, although [ActionExecutor.wait] exists. *)
Theorem wait_is_not_dispatched
  (self : ActionExecutor.t) (w : step_env) (json_loads : string -> result value)
  (args : list (string * value)) (st : state) :
  lookup "action" args = Some (VStr "wait") ->
  ActionExecutor._execute_computer_action self w (VDict args) st = (Return false, st) /\
  ActionExecutor.execute_computer_use_action self w json_loads
    (VDict [("name", VStr "computer"); ("arguments", VDict args)]) st =
  (Return false, st).
Proof.
  intro Haction.
  assert (Hdispatch :
            ActionExecutor._execute_computer_action self w (VDict args) st =
            (Return false, st)).
  { unfold ActionExecutor._execute_computer_action.
    run_with ltac:(apply lift_ok; rewrite py_get_dict, Haction; reflexivity).
    reflexivity. }
  split; [exact Hdispatch |].
  unfold ActionExecutor.execute_computer_use_action, try_except_Exception.
  run_with ltac:(reflexivity). run_with ltac:(reflexivity).
  run_with ltac:(reflexivity).
  assert (Htruthy : truthy (VDict args) = true)
    by (destruct args; [discriminate Haction | reflexivity]).
  unfold ActionExecutor.py_or. rewrite Htruthy.
  run_with ltac:(reflexivity). run_with ltac:(reflexivity).
  simpl. rewrite Hdispatch. reflexivity.
Qed.

Lemma wait_is_not_dispatched_witness :
  ActionExecutor._execute_computer_action Scenario.screen Scenario.calm_world
    (VDict [("action", VStr "wait"); ("time", VInt 2)]) SeeThinkActAgent.reset =
  (Return false, SeeThinkActAgent.reset) /\
  ActionExecutor.execute_computer_use_action Scenario.screen Scenario.calm_world
    Scenario.no_json
    (VDict [("name", VStr "computer");
            ("arguments", VDict [("action", VStr "wait"); ("time", VInt 2)])])
    SeeThinkActAgent.reset =
  (Return false, SeeThinkActAgent.reset).
Proof.
  apply (wait_is_not_dispatched Scenario.screen Scenario.calm_world Scenario.no_json
           [("action", VStr "wait"); ("time", VInt 2)] SeeThinkActAgent.reset).
  reflexivity.
Defined.

(** The method the dispatch never reaches does sleep and return [True]. *)
Lemma wait_method_sleeps w seconds st :
  react w (EvSleep seconds) = None ->
  ActionExecutor.wait w seconds st =
  (Return true, record (EvSleep seconds) None st).
Proof.
  intro Hquiet. unfold ActionExecutor.wait, bind, perform. rewrite Hquiet. reflexivity.
Qed.

(** The run whose loop reaches [st] and whose next iteration raises. *)
Lemma run_raises self json_loads task env st st' e :
  SeeThinkActAgent.reaches self json_loads task env st ->
  SeeThinkActAgent.loop_condition self st = true ->
  SeeThinkActAgent.iteration self json_loads task env st = (Raise e, st') ->
  SeeThinkActAgent.run self json_loads task env =
  Some (SeeThinkActAgent.result_of self (Raise e) st', st') /\
  iteration_count st' = iteration_count st + 1.
Proof.
  intros Hreach Hcond Hstep.
  destruct (reaches_loop self json_loads task env st Hreach) as [Hpos Hloop].
  destruct (loop_condition_lt self st Hcond) as [Hlt _].
  pose proof (iteration_counts self json_loads task env st) as Hcount.
  rewrite Hstep in Hcount. simpl in Hcount.
  split; [| exact Hcount].
  unfold SeeThinkActAgent.run. rewrite Hloop.
  replace (Z.to_nat (SeeThinkActAgent.max_iterations self - iteration_count st))
    with (S (Z.to_nat (SeeThinkActAgent.max_iterations self - iteration_count st - 1)))
    by lia.
  simpl. rewrite Hcond, Hstep. reflexivity.
Qed.

(** The iteration up to the reply of the model, in a world whose capture and
    save return. *)
Lemma iteration_until_reply self json_loads task env st :
  let w := env (iteration_count st + 1) in
  react w EvCapture = None ->
  (forall n, react w (EvSave n) = None) ->
  0 <= iteration_count st ->
  exists st1,
    SeeThinkActAgent.iteration self json_loads task env st =
    (response <- (perform w (EvChat (SeeThinkActAgent.next_prompt task)) ;;;
                  ret (chat_reply w)) ;;
     SeeThinkActAgent.remember response ;;;
     _ <- SeeThinkActAgent._execute_action self json_loads w response ;;
     perform w (EvSleep (VFloat Float64.half))) st1 /\
    same_agent (snd (SeeThinkActAgent.incr_iteration st)) st1 /\
    count_calls os_event (log st1) = count_calls os_event (log st).
Proof.
  intros w Hcapture Hsave Hpos.
  rewrite iteration_unfold. fold w. unfold after_increment.
  unfold SeeThinkActAgent._capture_current_state.
  assert (Hperform : forall ev st0, react w ev = None ->
            perform w ev st0 = (Return tt, record ev None st0))
    by (intros ev st0 Hev; unfold perform; rewrite Hev; reflexivity).
  assert (Hprompt : forall st0 : state,
            iteration_count st0 = iteration_count st + 1 ->
            (if Z.eqb (iteration_count st0) 0
             then SeeThinkActAgent.first_prompt task
             else SeeThinkActAgent.next_prompt task) =
            SeeThinkActAgent.next_prompt task).
  { intros st0 Hcount. destruct (Z.eqb_spec (iteration_count st0) 0); [lia | reflexivity]. }
  destruct (SeeThinkActAgent.save_screenshots self).
  - eexists. split; [| split].
    + run_with ltac:(run_with ltac:(apply Hperform; exact Hcapture);
                     run_with ltac:(reflexivity);
                     apply Hperform; apply Hsave).
      unfold SeeThinkActAgent._think_and_decide.
      unfold bind at 1. unfold bind at 1. unfold SeeThinkActAgent.get_state at 1.
      cbv beta iota. rewrite Hprompt by reflexivity. reflexivity.
    + repeat split.
    + reflexivity.
  - eexists. split; [| split].
    + run_with ltac:(run_with ltac:(apply Hperform; exact Hcapture); reflexivity).
      unfold SeeThinkActAgent._think_and_decide.
      unfold bind at 1. unfold bind at 1. unfold SeeThinkActAgent.get_state at 1.
      cbv beta iota. rewrite Hprompt by reflexivity. reflexivity.
    + repeat split.
    + reflexivity.
Qed.

(** ** Replies without action, and the settle pause *)

Section Replies.

Variable self : SeeThinkActAgent.t.
Variable json_loads : string -> result value.
Variable task : string.

Lemma message_content_plain response content :
  plain_reply response content ->
  OllamaVisionClient.message_content response = Ok (Some (VStr content)).
Proof.
  intros (d & m & -> & Hmessage & Hcontent & _).
  unfold OllamaVisionClient.message_content. simpl.
  rewrite Hmessage. simpl. rewrite Hcontent. simpl. reflexivity.
Qed.

Lemma extract_tool_calls_plain response content :
  plain_reply response content ->
  exists calls, OllamaVisionClient.extract_tool_calls response = Ok calls /\
                truthy calls = false.
Proof.
  intros (d & m & -> & Hmessage & _ & Hcalls).
  unfold OllamaVisionClient.extract_tool_calls. simpl.
  rewrite Hmessage. simpl.
  destruct (lookup "tool_calls" m) as [calls |]; simpl.
  - exists calls. split; [reflexivity | exact Hcalls].
  - exists (VList []). split; reflexivity.
Qed.

Lemma decode_payload_swallows content :
  (forall json_str,
     OllamaVisionClient.delimited_payload (VStr content) = Ok json_str ->
     exists msg, json_loads json_str = Err JSONDecodeError msg) ->
  OllamaVisionClient.decode_payload json_loads (VStr content) = Ok VNone.
Proof.
  intro Hbad. unfold OllamaVisionClient.decode_payload.
  destruct (OllamaVisionClient.delimited_payload (VStr content))
    as [json_str | c msg] eqn:Hpayload.
  - simpl. destruct (Hbad json_str eq_refl) as (msg & Hmsg). rewrite Hmsg. reflexivity.
  - unfold OllamaVisionClient.delimited_payload in Hpayload.
    destruct (nth_error (split "<tool_call>" content) 1) as [after |];
      [destruct (nth_error (split "</tool_call>" after) 0) |];
      try discriminate; injection Hpayload as <- <-; reflexivity.
Qed.

Lemma parse_plain response content :
  plain_reply response content ->
  no_decodable_payload json_loads content ->
  OllamaVisionClient.parse_computer_use_action json_loads response = Ok VNone.
Proof.
  intros Hplain Hnone.
  destruct (extract_tool_calls_plain response content Hplain) as (calls & Hcalls & Hfalsy).
  unfold OllamaVisionClient.parse_computer_use_action.
  rewrite Hcalls. simpl. rewrite Hfalsy.
  rewrite (message_content_plain response content Hplain). simpl.
  unfold no_decodable_payload in Hnone.
  destruct (contains "<tool_call>" content); simpl; [| reflexivity].
  destruct (contains "</tool_call>" content); simpl; [| reflexivity].
  apply decode_payload_swallows. apply Hnone. reflexivity.
Qed.

(** An exception of [json.loads] that the parser does not catch leaves it. *)
Lemma parse_raises response content json_str c msg :
  plain_reply response content ->
  (contains "<tool_call>" content && contains "</tool_call>" content) = true ->
  OllamaVisionClient.delimited_payload (VStr content) = Ok json_str ->
  json_loads json_str = Err c msg ->
  c <> JSONDecodeError -> c <> IndexError ->
  OllamaVisionClient.parse_computer_use_action json_loads response = Err c msg.
Proof.
  intros Hplain Hguard Hpayload Hraise Hjson Hindex.
  destruct (extract_tool_calls_plain response content Hplain) as (calls & Hcalls & Hfalsy).
  unfold OllamaVisionClient.parse_computer_use_action.
  rewrite Hcalls. simpl. rewrite Hfalsy.
  rewrite (message_content_plain response content Hplain). simpl.
  apply andb_prop in Hguard. destruct Hguard as [Hopen Hclose].
  rewrite Hopen, Hclose. simpl.
  unfold OllamaVisionClient.decode_payload. rewrite Hpayload. simpl. rewrite Hraise.
  destruct c; try reflexivity; [contradiction Hindex | contradiction Hjson]; reflexivity.
Qed.

Lemma _execute_action_plain w response content st :
  plain_reply response content ->
  no_decodable_payload json_loads content ->
  SeeThinkActAgent._execute_action self json_loads w response st =
  if mentions_completion content
  then (Return true, snd (SeeThinkActAgent.set_completed (VStr "success") st))
  else (Return false, st).
Proof.
  intros Hplain Hnone. unfold SeeThinkActAgent._execute_action.
  run_with ltac:(apply lift_ok; apply (parse_plain response content); assumption).
  cbn [truthy negb].
  run_with ltac:(apply lift_ok; apply (message_content_plain response content);
                 assumption).
  run_with ltac:(reflexivity).
  fold (mentions_completion content).
  destruct (mentions_completion content); reflexivity.
Qed.

(** A reply without a [message] has neither tool call nor text. *)
Lemma _execute_action_without_message w d st :
  lookup "message" d = None ->
  SeeThinkActAgent._execute_action self json_loads w (VDict d) st = (Return false, st).
Proof.
  intro Hmissing. unfold SeeThinkActAgent._execute_action.
  assert (Hparse : OllamaVisionClient.parse_computer_use_action json_loads (VDict d)
                   = Ok VNone).
  { unfold OllamaVisionClient.parse_computer_use_action,
      OllamaVisionClient.extract_tool_calls, OllamaVisionClient.message_content.
    simpl. rewrite Hmissing. reflexivity. }
  run_with ltac:(apply lift_ok; exact Hparse).
  cbn [truthy negb].
  unfold OllamaVisionClient.message_content. simpl. rewrite Hmissing. reflexivity.
Qed.

Variable env : Z -> step_env.

Lemma iteration_plain st content :
  let w := env (iteration_count st + 1) in
  quiet w ->
  plain_reply (chat_reply w) content ->
  no_decodable_payload json_loads content ->
  mentions_completion content = false ->
  exists st',
    SeeThinkActAgent.iteration self json_loads task env st = (Return tt, st') /\
    task_completed st' = task_completed st /\
    iteration_count st' = iteration_count st + 1.
Proof.
  intros w Hquiet Hplain Hnone Hsilent.
  rewrite iteration_unfold. fold w. unfold after_increment.
  destruct (_capture_current_state_quiet self w
              (snd (SeeThinkActAgent.incr_iteration st)) Hquiet)
    as (st1 & H1 & Hc1 & Hd1 & _).
  run_with ltac:(exact H1).
  destruct (_think_and_decide_quiet task w st1 Hquiet) as (st2 & H2 & Hc2 & Hd2 & _).
  run_with ltac:(exact H2).
  run_with ltac:(reflexivity).
  run_with ltac:(rewrite (_execute_action_plain w _ content) by assumption;
                 rewrite Hsilent; reflexivity).
  rewrite perform_quiet by exact Hquiet.
  eexists. split; [reflexivity |]. simpl in *. split; congruence.
Qed.

End Replies.

(** C6, as the code has it.  Take a reply of the endpoint's shape with no
    structured tool call.  When its text holds no delimited payload, or one
    that [json.loads] rejects with a [JSONDecodeError], the parsing step does
    not raise: the parser returns [None], the malformed JSON being swallowed.
    If the text mentions neither ['terminate'] nor ['complete'],
    [_execute_action] reports an unsuccessful action and changes nothing, and
    in a world that raises nothing the iteration returns without completing
    the task, so that the loop goes on; if the text mentions one of them, the
    task is marked completed with status ["success"].  When [json.loads]
    raises anything else on the payload (a [ValueError] for an integer
    literal that is too long, a [RecursionError]), the parser's [except
    (json.JSONDecodeError, IndexError)] does not catch it: the exception
    leaves the parsing step and the run ends with status ["error"]. *)
Theorem unparseable_reply_is_no_action
  (self : SeeThinkActAgent.t) (json_loads : string -> result value) (task : string)
  (env : Z -> step_env) (st : state) (content : string) :
  let w := env (iteration_count st + 1) in
  plain_reply (chat_reply w) content ->
  (no_decodable_payload json_loads content ->
   OllamaVisionClient.parse_computer_use_action json_loads (chat_reply w) = Ok VNone /\
   (mentions_completion content = false ->
    (forall s,
       SeeThinkActAgent._execute_action self json_loads w (chat_reply w) s =
       (Return false, s)) /\
    (quiet w ->
     exists st',
       SeeThinkActAgent.iteration self json_loads task env st = (Return tt, st') /\
       task_completed st' = task_completed st /\
       iteration_count st' = iteration_count st + 1)) /\
   (mentions_completion content = true ->
    forall s,
      SeeThinkActAgent._execute_action self json_loads w (chat_reply w) s =
      (Return true, snd (SeeThinkActAgent.set_completed (VStr "success") s)))) /\
  (forall json_str c msg,
     (contains "<tool_call>" content && contains "</tool_call>" content) = true ->
     OllamaVisionClient.delimited_payload (VStr content) = Ok json_str ->
     json_loads json_str = Err c msg ->
     c <> JSONDecodeError -> c <> IndexError ->
     OllamaVisionClient.parse_computer_use_action json_loads (chat_reply w) = Err c msg /\
     (SeeThinkActAgent.reaches self json_loads task env st ->
      SeeThinkActAgent.loop_condition self st = true ->
      quiet w ->
      exists st',
        SeeThinkActAgent.run self json_loads task env =
        Some ({| SeeThinkActAgent.success := false;
                 SeeThinkActAgent.status := VStr "error";
                 SeeThinkActAgent.message := "Error: " ++ msg;
                 SeeThinkActAgent.iterations := iteration_count st + 1 |}, st'))).
Proof.
  intros w Hplain. split.
  - intro Hnone. split; [| split].
    + apply (parse_plain json_loads _ content); assumption.
    + intro Hsilent. split.
      * intro s.
        rewrite (_execute_action_plain self json_loads w _ content) by assumption.
        rewrite Hsilent. reflexivity.
      * intro Hquiet. apply (iteration_plain self json_loads task env st content);
          assumption.
    + intros Hkeyword s.
      rewrite (_execute_action_plain self json_loads w _ content) by assumption.
      rewrite Hkeyword. reflexivity.
  - intros json_str c msg Hguard Hpayload Hraise Hjson Hindex.
    pose proof (parse_raises json_loads _ content json_str c msg Hplain Hguard Hpayload
                  Hraise Hjson Hindex) as Hparse.
    split; [exact Hparse |].
    intros Hreach Hcond Hquiet.
    destruct (reaches_loop self json_loads task env st Hreach) as [Hpos _].
    destruct (iteration_until_reply self json_loads task env st (Hquiet _)
                (fun n => Hquiet _) Hpos)
      as (st1 & Hstep & _ & _).
    fold w in Hstep.
    assert (Hstops : exists st3,
              SeeThinkActAgent.iteration self json_loads task env st =
              (Raise (Exc c msg), st3)).
    { rewrite Hstep.
      run_with ltac:(run_with ltac:(apply perform_quiet; exact Hquiet); reflexivity).
      run_with ltac:(reflexivity).
      unfold SeeThinkActAgent._execute_action.
      unfold bind at 1. unfold bind at 1. unfold lift at 1. rewrite Hparse.
      eexists. reflexivity. }
    destruct Hstops as (st3 & Hstops).
    destruct (run_raises self json_loads task env st _ _ Hreach Hcond Hstops)
      as [Hrun Hcount].
    exists st3. rewrite Hrun. simpl. rewrite Hcount. reflexivity.
Qed.

Lemma plain_reply_with_text content :
  plain_reply (Scenario.reply_with_text content) content.
Proof.
  eexists. eexists. split; [reflexivity |].
  split; [reflexivity |]. split; [reflexivity | exact I].
Qed.

Lemma unparseable_reply_is_no_action_witness :
  let reply := Scenario.reply_with_text "Let me look. <tool_call>{oops</tool_call>" in
  let long := ("<tool_call>" ++ Mishap.nines 5000 ++ "</tool_call>")%string in
  (OllamaVisionClient.parse_computer_use_action Scenario.no_json reply = Ok VNone /\
   exists st',
     SeeThinkActAgent.iteration (Scenario.agent 3) Scenario.no_json Scenario.task
       (Scenario.always reply) SeeThinkActAgent.reset = (Return tt, st') /\
     task_completed st' = false /\ iteration_count st' = 1) /\
  (OllamaVisionClient.parse_computer_use_action Mishap.json
     (Scenario.reply_with_text long) =
   Err ValueError "Exceeds the limit (4300 digits) for integer string conversion" /\
   exists st',
     SeeThinkActAgent.run (Scenario.agent 3) Mishap.json Scenario.task
       (Scenario.always (Scenario.reply_with_text long)) =
     Some ({| SeeThinkActAgent.success := false;
              SeeThinkActAgent.status := VStr "error";
              SeeThinkActAgent.message :=
                "Error: "
                ++ "Exceeds the limit (4300 digits) for integer string conversion";
              SeeThinkActAgent.iterations := iteration_count SeeThinkActAgent.reset + 1 |},
           st')).
Proof.
  intros reply long. split.
  - destruct (unparseable_reply_is_no_action (Scenario.agent 3) Scenario.no_json
                Scenario.task (Scenario.always reply) SeeThinkActAgent.reset
                "Let me look. <tool_call>{oops</tool_call>")
      as (Hswallowed & _).
    + apply plain_reply_with_text.
    + destruct Hswallowed as (Hparse & Hsilent & _).
      * intros _ json_str _. eexists. reflexivity.
      * split; [exact Hparse |].
        destruct Hsilent as [_ Hgoes]; [vm_compute; reflexivity |].
        apply Hgoes. intro ev. reflexivity.
  - destruct (unparseable_reply_is_no_action (Scenario.agent 3) Mishap.json
                Scenario.task (Scenario.always (Scenario.reply_with_text long))
                SeeThinkActAgent.reset long)
      as (_ & Hraises).
    + apply plain_reply_with_text.
    + destruct (Hraises (Mishap.nines 5000) ValueError
                  "Exceeds the limit (4300 digits) for integer string conversion")
        as (Hparse & Hrun).
      * vm_compute. reflexivity.
      * vm_compute. reflexivity.
      * vm_compute. reflexivity.
      * discriminate.
      * discriminate.
      * split; [exact Hparse |].
        apply Hrun.
        -- apply SeeThinkActAgent.reaches_reset.
        -- reflexivity.
        -- intro ev. reflexivity.
Defined.

(** The claim C6 as the specification words it fails: a reply without tool
    call and without payload that says the task is complete is not an
    unsuccessful action after which the loop continues; the action is
    reported successful and the run ends there, at iteration 1 of 3. *)
Lemma unparseable_reply_can_end_run :
  let reply := Scenario.reply_with_text "The task is complete." in
  plain_reply reply "The task is complete." /\
  no_decodable_payload Scenario.no_json "The task is complete." /\
  (forall w st,
     SeeThinkActAgent._execute_action (Scenario.agent 3) Scenario.no_json w reply st =
     (Return true, snd (SeeThinkActAgent.set_completed (VStr "success") st))) /\
  exists r st,
    SeeThinkActAgent.run (Scenario.agent 3) Scenario.no_json Scenario.task
      (Scenario.always reply) = Some (r, st) /\
    SeeThinkActAgent.iterations r = 1 /\
    SeeThinkActAgent.status r = VStr "success".
Proof.
  intro reply. split; [apply plain_reply_with_text |].
  split; [intros _ json_str _; eexists; reflexivity |]. split.
  - intros w st.
    rewrite (_execute_action_plain _ _ w reply "The task is complete.").
    + reflexivity.
    + apply plain_reply_with_text.
    + intros _ json_str _. eexists. reflexivity.
  - eexists. eexists. split; [vm_compute; reflexivity |]. split; reflexivity.
Qed.

(** C8, as the code has it.  [_execute_action] hands to the executor every
    action that is neither [terminate] nor [answer].  When the executor
    reports success (and the action is not [wait]), the very next call is the
    settle pause [time.sleep(1)], before the iteration ends and the next
    screenshot is captured; when the executor reports failure there is no
    settle pause. *)
Theorem settle_pause_follows_success
  (self : SeeThinkActAgent.t) (json_loads : string -> result value) (w : step_env)
  (response action action_name arguments kind : value) (ok : bool) (st st1 : state) :
  OllamaVisionClient.parse_computer_use_action json_loads response = Ok action ->
  truthy action = true ->
  SeeThinkActAgent.action_details json_loads action = Ok (action_name, arguments) ->
  py_get arguments "action" VNone = Ok kind ->
  eq_str kind "terminate" = false ->
  eq_str kind "answer" = false ->
  eq_str kind "wait" = false ->
  ActionExecutor.execute_computer_use_action (SeeThinkActAgent.action_executor self)
    w json_loads (VDict [("name", action_name); ("arguments", arguments)]) st =
  (Return ok, st1) ->
  SeeThinkActAgent._execute_action self json_loads w response st =
  if ok
  then (perform w (EvSleep (VInt 1)) ;;; ret true) st1
  else (Return false, st1).
Proof.
  intros Hparse Htruthy Hdetails Hkind Hterm Hanswer Hwait Hexec.
  unfold SeeThinkActAgent._execute_action.
  run_with ltac:(apply lift_ok; exact Hparse).
  rewrite Htruthy. cbn [negb].
  run_with ltac:(apply lift_ok; exact Hdetails).
  run_with ltac:(apply lift_ok; exact Hkind).
  rewrite Hterm.
  run_with ltac:(apply lift_ok; exact Hkind).
  rewrite Hanswer.
  run_with ltac:(exact Hexec).
  destruct ok.
  - run_with ltac:(apply lift_ok; exact Hkind).
    rewrite Hwait. reflexivity.
  - run_with ltac:(reflexivity). reflexivity.
Qed.

Lemma settle_pause_follows_success_witness :
  SeeThinkActAgent._execute_action (Scenario.agent 3) Scenario.no_json
    Scenario.calm_world
    (Scenario.reply_with_call (Scenario.left_click_at 500 500)) SeeThinkActAgent.reset =
  (Return true,
   record (EvSleep (VInt 1)) None
     (record (EvClick 960 540 "left" 1) None SeeThinkActAgent.reset)).
Proof.
  apply (settle_pause_follows_success (Scenario.agent 3) Scenario.no_json
           Scenario.calm_world
           (Scenario.reply_with_call (Scenario.left_click_at 500 500))
           (Scenario.tool_call (Scenario.left_click_at 500 500))
           (VStr "computer") (Scenario.left_click_at 500 500) (VStr "left_click")
           true SeeThinkActAgent.reset
           (record (EvClick 960 540 "left" 1) None SeeThinkActAgent.reset));
    reflexivity.
Defined.

(** An [answer] is intercepted before the executor: no call, no pause. *)
Lemma answer_is_not_followed_by_pause
  (self : SeeThinkActAgent.t) (json_loads : string -> result value) (w : step_env)
  (response action action_name : value) (arguments : list (string * value)) (st : state) :
  OllamaVisionClient.parse_computer_use_action json_loads response = Ok action ->
  truthy action = true ->
  SeeThinkActAgent.action_details json_loads action = Ok (action_name, VDict arguments) ->
  lookup "action" arguments = Some (VStr "answer") ->
  SeeThinkActAgent._execute_action self json_loads w response st = (Return true, st).
Proof.
  intros Hparse Htruthy Hdetails Haction.
  unfold SeeThinkActAgent._execute_action.
  run_with ltac:(apply lift_ok; exact Hparse).
  rewrite Htruthy. cbn [negb].
  run_with ltac:(apply lift_ok; exact Hdetails).
  run_with ltac:(apply lift_ok; rewrite py_get_dict, Haction; reflexivity).
  decide_kinds.
  run_with ltac:(apply lift_ok; rewrite py_get_dict, Haction; reflexivity).
  decide_kinds.
  run_with ltac:(apply lift_ok; apply py_get_dict).
  reflexivity.
Qed.

(** The claim C8 as the specification words it fails, in two runs of two
    iterations.  In the first the model gives an [answer]: [_execute_action]
    reports the action as executed, its type is neither [terminate] nor
    [wait], and no settle pause precedes the next capture.  In the second the
    model asks for a [left_click] and pyautogui raises: the executor has
    executed the action and reports failure, and again only the half second
    between iterations precedes the next capture. *)
Lemma settle_pause_can_be_skipped :
  (exists r st,
     SeeThinkActAgent.run (Scenario.agent 2) Scenario.no_json Scenario.task
       (Scenario.always (Scenario.reply_with_call (Scenario.answer_with "A dialog is open.")))
     = Some (r, st) /\
     (forall w s,
        SeeThinkActAgent._execute_action (Scenario.agent 2) Scenario.no_json w
          (Scenario.reply_with_call (Scenario.answer_with "A dialog is open.")) s =
        (Return true, s)) /\
     trace st =
       [(EvCapture, None); (EvSave 1, None);
        (EvChat (SeeThinkActAgent.next_prompt Scenario.task), None);
        (EvSleep (VFloat Float64.half), None);
        (EvCapture, None); (EvSave 2, None);
        (EvChat (SeeThinkActAgent.next_prompt Scenario.task), None);
        (EvSleep (VFloat Float64.half), None)]) /\
  (exists r st,
     SeeThinkActAgent.run (Scenario.agent 2) Scenario.no_json Scenario.task
       (fun _ => {| react := Scenario.clicks_fail;
                    chat_reply :=
                      Scenario.reply_with_call (Scenario.left_click_at 500 500) |})
     = Some (r, st) /\
     trace st =
       [(EvCapture, None); (EvSave 1, None);
        (EvChat (SeeThinkActAgent.next_prompt Scenario.task), None);
        (EvClick 960 540 "left" 1, Some (Exc OtherError "PyAutoGUI fail-safe triggered"));
        (EvSleep (VFloat Float64.half), None);
        (EvCapture, None); (EvSave 2, None);
        (EvChat (SeeThinkActAgent.next_prompt Scenario.task), None);
        (EvClick 960 540 "left" 1, Some (Exc OtherError "PyAutoGUI fail-safe triggered"));
        (EvSleep (VFloat Float64.half), None)] /\
     ~ In (EvSleep (VInt 1), None) (trace st)).
Proof.
  split.
  - eexists. eexists. split; [vm_compute; reflexivity |]. split.
    + intros w s.
      apply (answer_is_not_followed_by_pause _ _ w _
               (Scenario.tool_call (Scenario.answer_with "A dialog is open."))
               (VStr "computer")
               [("action", VStr "answer"); ("text", VStr "A dialog is open.")]);
        reflexivity.
    + vm_compute. reflexivity.
  - eexists. eexists. split; [vm_compute; reflexivity |].
    split; [vm_compute; reflexivity |].
    vm_compute. intuition discriminate.
Qed.

(** * Further properties *)

(** ** binary64: the corners of the normalized space, and ratios *)

Lemma scaled_ge_shift (m e E N q : Z) :
  0 <= N -> e < E -> E <= 0 ->
  scaled_ge m e N -> m / 2 ^ (E - e) <= q -> scaled_ge q E N.
Proof.
  unfold scaled_ge. intros HN He HE Hge Hq.
  rewrite Z.max_l, Z.max_r in * by lia. rewrite Z.pow_0_r, Z.mul_1_r in *.
  assert (Hk : 0 < 2 ^ (E - e)) by (apply Z.pow_pos_nonneg; lia).
  assert (HT : N * 2 ^ (- e) = 2 ^ (E - e) * (N * 2 ^ (- E))).
  { replace (- e) with ((E - e) + (- E)) by lia.
    rewrite Z.pow_add_r by lia. ring. }
  rewrite HT in Hge.
  apply Z.le_trans with (m / 2 ^ (E - e)); [| exact Hq].
  apply Z.div_le_lower_bound; assumption.
Qed.

(** Rounding does not cross an integer: a product between the integers [N]
    and [B] rounds to a float between them. *)
Lemma round_aux_above (m : positive) (e N B : Z) :
  0 <= N -> 0 <= B < 2 ^ 53 ->
  scaled_le (Z.pos m) e B ->
  scaled_ge (Z.pos m) e N ->
  above N (binary_round_aux 53 1024 false (Z.pos m) e loc_Exact).
Proof.
  intros HN HB Hle Hge.
  pose proof (digits2_pos_lower m) as Hdig.
  assert (Hde : Z.pos (digits2_pos m) + e <= 53)
    by (eapply scaled_le_digits; eauto; lia).
  unfold binary_round_aux.
  destruct (shr_fexp_exact (Z.pos m) e) as [[HE H1] | [HE (mrs & Hsh & H1)]];
    [lia | | ]; rewrite H1.
  - cbn [shr_m loc_of_shr_record round_nearest_even]. rewrite H1.
    cbn [shr_m].
    assert (He : (e <=? 1024 - 53)%Z = true) by (apply Z.leb_le; lia).
    rewrite He. exact Hge.
  - simpl Zdigits2 in *.
    set (E := fexp 53 1024 (Z.pos (digits2_pos m) + e)) in *.
    assert (HE0 : E <= 0) by (apply fexp_le_0; assumption).
    destruct (round_nearest_even_shifted _ _ _ Hsh) as [[Hr0 Hr1] Hr2].
    set (r := round_nearest_even (shr_m mrs) (loc_of_shr_record mrs)) in *.
    assert (Hk : 0 < 2 ^ (E - e)) by (apply Z.pow_pos_nonneg; lia).
    assert (Hrpos : 0 <= r).
    { assert (0 <= Z.pos m / 2 ^ (E - e)) by (apply Z.div_pos; lia). lia. }
    assert (HrB : scaled_le r E B)
      by (apply (scaled_le_shift (Z.pos m) e); auto; lia).
    assert (HrN : scaled_ge r E N)
      by (apply (scaled_ge_shift (Z.pos m) e); auto; lia).
    destruct (shr_fexp_exact r E Hrpos) as [[HE2 H2] | [HE2 (mrs2 & Hsh2 & H2)]];
      rewrite H2.
    + cbn [shr_m]. destruct r as [| pr | pr]; [| | lia].
      * unfold scaled_ge in HrN. rewrite Z.max_l, Z.max_r in HrN by lia.
        simpl. assert (0 < 2 ^ (- E)) by (apply Z.pow_pos_nonneg; lia). nia.
      * assert (He : (E <=? 1024 - 53)%Z = true) by (apply Z.leb_le; lia).
        rewrite He. exact HrN.
    + set (E2 := fexp 53 1024 (Zdigits2 r + E)) in *.
      destruct r as [| pr | pr]; [| | lia].
      * exfalso. subst E2. simpl Zdigits2 in HE2.
        pose proof (fexp_ge_emin (Z.pos (digits2_pos m) + e)) as Hmin.
        unfold fexp, emin in HE2. fold E in Hmin. lia.
      * assert (HE20 : E2 <= 0).
        { apply fexp_le_0. simpl Zdigits2.
          pose proof (digits2_pos_lower pr).
          eapply scaled_le_digits; eauto; lia. }
        destruct Hsh2 as [Hq2 _]. rewrite Hq2.
        pose proof (scaled_ge_shift (Z.pos pr) E E2 N (Z.pos pr / 2 ^ (E2 - E))
                      HN HE2 HE20 HrN (Z.le_refl _)) as Hfin.
        assert (0 <= Z.pos pr / 2 ^ (E2 - E)).
        { apply Z.div_pos; [lia | apply Z.pow_pos_nonneg; lia]. }
        destruct (Z.pos pr / 2 ^ (E2 - E)) as [| pq | pq]; [| | lia].
        -- unfold scaled_ge in Hfin. rewrite Z.max_l, Z.max_r in Hfin by lia.
           simpl. assert (0 < 2 ^ (- E2)) by (apply Z.pow_pos_nonneg; lia). nia.
        -- assert (He : (E2 <=? 1024 - 53)%Z = true) by (apply Z.leb_le; lia).
           rewrite He. exact Hfin.
Qed.

(** A Python int below 2^53 is a double: [float(W)] is [W]. *)
Lemma of_int_exact (W : Z) :
  0 <= W < 2 ^ 53 ->
  exists f, Float64.of_int W = Ok f /\ below W f /\ above W f.
Proof.
  intros HW. unfold Float64.of_int, binary_normalize.
  destruct W as [| m | m];
    [eexists; split; [reflexivity | split; [exact I | simpl; lia]] | | lia].
  assert (Hb : below (Z.pos m) (binary_round Float64.prec Float64.emax false m 0) /\
               above (Z.pos m) (binary_round Float64.prec Float64.emax false m 0)).
  { unfold binary_round, shl_align.
    destruct (fexp Float64.prec Float64.emax (Z.pos (digits2_pos m) + 0) - 0)
      as [| q | q] eqn:Hq.
    - split; [apply round_aux_below | apply round_aux_above with (B := Z.pos m)];
        try lia; unfold scaled_le, scaled_ge; simpl; lia.
    - split; [apply round_aux_below | apply round_aux_above with (B := Z.pos m)];
        try lia; unfold scaled_le, scaled_ge; simpl; lia.
    - replace (fexp Float64.prec Float64.emax (Z.pos (digits2_pos m) + 0))
        with (Z.neg q) by lia.
      assert (Hle : scaled_le (Z.pos (Pos.iter xO m q)) (Z.neg q) (Z.pos m)).
      { unfold scaled_le. rewrite iter_xO. rewrite Z.max_r, Z.max_l by lia.
        change (- Z.neg q) with (Z.pos q). lia. }
      assert (Hge : scaled_ge (Z.pos (Pos.iter xO m q)) (Z.neg q) (Z.pos m)).
      { unfold scaled_ge. rewrite iter_xO. rewrite Z.max_l, Z.max_r by lia.
        change (- Z.neg q) with (Z.pos q). lia. }
      split; [apply round_aux_below | apply round_aux_above with (B := Z.pos m)];
        solve [lia | assumption]. }
  destruct Hb as [Hb Ha].
  destruct (binary_round Float64.prec Float64.emax false m 0) as [s | s | | s mf ef];
    simpl in Hb; try contradiction; try (exfalso; simpl in Ha; lia).
  eexists; split; [reflexivity | split; [exact Hb | exact Ha]].
Qed.

Lemma to_int_above (f : spec_float) (N B : Z) :
  0 <= B -> below B f -> above N f ->
  exists p, Float64.to_int f = Ok p /\ N <= p <= B.
Proof.
  intros HB Hb Ha.
  destruct (to_int_below f B HB Hb) as (p & Hp & Hrange).
  exists p. split; [exact Hp |]. split; [| lia].
  destruct f as [s | s | | s m e]; simpl in Ha, Hb; try contradiction.
  - simpl in Hp. injection Hp as <-. exact Ha.
  - destruct s; [contradiction |]. unfold scaled_ge in Ha.
    unfold Float64.to_int in Hp. injection Hp as <-.
    destruct e as [| pe | pe].
    + simpl in Ha. rewrite Z.pow_0_r. lia.
    + rewrite Z.max_r, Z.max_l in Ha by lia. rewrite Z.pow_0_r, Z.mul_1_r in Ha.
      exact Ha.
    + rewrite Z.max_l, Z.max_r in Ha by lia. rewrite Z.pow_0_r, Z.mul_1_r in Ha.
      change (- Z.neg pe) with (Z.pos pe) in Ha.
      change (Z.pow_pos 2 pe) with (2 ^ Z.pos pe).
      apply Z.div_le_lower_bound; [apply Z.pow_pos_nonneg; lia | lia].
Qed.

(** Multiplying by [1.0] changes nothing. *)
Lemma mul_unit_above (mq : positive) (eq : Z) (fw : spec_float) (W : Z) :
  Z.pos mq = 2 ^ 52 -> eq = -52 ->
  0 <= W < 2 ^ 53 -> below W fw -> above W fw ->
  above W (Float64.mul (S754_finite false mq eq) fw).
Proof.
  intros Hmq Heq HW Hb Ha. unfold Float64.mul.
  destruct fw as [sw | sw | | sw mw ew]; simpl in Hb, Ha; try contradiction.
  - simpl. exact Ha.
  - destruct sw; [contradiction |].
    simpl SFmul. subst eq. apply round_aux_above with (B := W); try lia.
    + unfold scaled_le in *. rewrite Pos2Z.inj_mul, Hmq.
      destruct (Z_le_gt_dec 0 ew) as [Hew | Hew].
      * rewrite (Z.max_l ew), (Z.max_r (- ew)) in Hb by lia.
        rewrite Z.pow_0_r, Z.mul_1_r in Hb.
        destruct (Z_le_gt_dec 0 (-52 + ew)) as [Hs | Hs].
        -- rewrite Z.max_l, Z.max_r by lia. rewrite Z.pow_0_r, Z.mul_1_r.
           assert (Hsplit : 2 ^ ew = 2 ^ 52 * 2 ^ (-52 + ew))
             by (rewrite <- Z.pow_add_r by lia; f_equal; lia).
           rewrite Hsplit in Hb. lia.
        -- rewrite Z.max_r, Z.max_l by lia. rewrite Z.pow_0_r, Z.mul_1_r.
           assert (Hsplit : 2 ^ 52 = 2 ^ (- (-52 + ew)) * 2 ^ ew)
             by (rewrite <- Z.pow_add_r by lia; f_equal; lia).
           assert (0 < 2 ^ (- (-52 + ew))) by (apply Z.pow_pos_nonneg; lia).
           rewrite Hsplit. nia.
      * rewrite (Z.max_r ew), (Z.max_l (- ew)) in Hb by lia.
        rewrite Z.pow_0_r, Z.mul_1_r in Hb.
        rewrite Z.max_r, Z.max_l by lia. rewrite Z.pow_0_r, Z.mul_1_r.
        replace (- (-52 + ew)) with (52 + - ew) by lia.
        rewrite Z.pow_add_r by lia. nia.
    + unfold scaled_ge in *. rewrite Pos2Z.inj_mul, Hmq.
      destruct (Z_le_gt_dec 0 ew) as [Hew | Hew].
      * rewrite (Z.max_r (- ew)), (Z.max_l ew) in Ha by lia.
        rewrite Z.pow_0_r, Z.mul_1_r in Ha.
        destruct (Z_le_gt_dec 0 (-52 + ew)) as [Hs | Hs].
        -- rewrite Z.max_r, Z.max_l by lia. rewrite Z.pow_0_r, Z.mul_1_r.
           assert (Hsplit : 2 ^ ew = 2 ^ 52 * 2 ^ (-52 + ew))
             by (rewrite <- Z.pow_add_r by lia; f_equal; lia).
           rewrite Hsplit in Ha. lia.
        -- rewrite Z.max_l, Z.max_r by lia. rewrite Z.pow_0_r, Z.mul_1_r.
           assert (Hsplit : 2 ^ 52 = 2 ^ (- (-52 + ew)) * 2 ^ ew)
             by (rewrite <- Z.pow_add_r by lia; f_equal; lia).
           assert (0 < 2 ^ (- (-52 + ew))) by (apply Z.pow_pos_nonneg; lia).
           rewrite Hsplit. nia.
      * rewrite (Z.max_l (- ew)), (Z.max_r ew) in Ha by lia.
        rewrite Z.pow_0_r, Z.mul_1_r in Ha.
        rewrite Z.max_l, Z.max_r by lia. rewrite Z.pow_0_r, Z.mul_1_r.
        replace (- (-52 + ew)) with (52 + - ew) by lia.
        rewrite Z.pow_add_r by lia. nia.
Qed.

(** X7.  The corners of the normalized space are exact: on a screen of
    width (or height) [W] below 2^53, the normalized coordinate 0 is pixel 0
    and the normalized coordinate 1000 is pixel [W] itself, one past the last
    column (or row) of the screen. *)
Theorem rescale_corners (W : Z) :
  0 <= W < 2 ^ 53 ->
  rescale (VInt 0) W = Ok 0 /\ rescale (VInt 1000) W = Ok W.
Proof.
  intro HW. unfold rescale, as_float.
  destruct (of_int_exact W HW) as (fw & Hfw & Hb & Ha). rewrite Hfw.
  split.
  - assert (H0 : Float64.of_int 0 = Ok (S754_zero false)) by reflexivity.
    rewrite H0.
    assert (Hq : Float64.div (S754_zero false) Float64.f1000 = S754_zero false)
      by (vm_compute; reflexivity).
    rewrite Hq.
    destruct fw as [sw | sw | | sw mw ew]; simpl in Hb; try contradiction.
    + destruct sw; reflexivity.
    + destruct sw; [contradiction | reflexivity].
  - assert (Hf : Float64.of_int 1000 = Ok Float64.f1000) by (vm_compute; reflexivity).
    assert (Hq : Float64.div Float64.f1000 Float64.f1000 = float_one)
      by (vm_compute; reflexivity).
    rewrite Hf, Hq.
    assert (Hbelow : below W (Float64.mul float_one fw))
      by (apply mul_below; [assumption | reflexivity | assumption]).
    assert (Habove : above W (Float64.mul float_one fw))
      by (apply mul_unit_above; [reflexivity | reflexivity | assumption ..]).
    destruct (to_int_above _ W W ltac:(lia) Hbelow Habove) as (p & Hp & Hrange).
    rewrite Hp. f_equal. lia.
Qed.

Lemma rescale_corners_witness :
  rescale (VInt 0) 1920 = Ok 0 /\ rescale (VInt 1000) 1920 = Ok 1920.
Proof. apply (rescale_corners 1920). lia. Defined.

(** X8.  [click_relative] with ratios in [0, 1] (doubles, as the method
    annotates them) on a screen with dimensions below 2^53 computes a pixel
    within [0,W] x [0,H] and makes exactly the one guarded click there. *)
Theorem click_relative_within_screen
  (self : ActionExecutor.t) (w : step_env) (x_ratio y_ratio : spec_float)
  (button : string) (clicks : Z) (st : state) :
  unit_fraction x_ratio = true -> unit_fraction y_ratio = true ->
  0 <= ActionExecutor.screen_width self < 2 ^ 53 ->
  0 <= ActionExecutor.screen_height self < 2 ^ 53 ->
  exists x y,
    0 <= x <= ActionExecutor.screen_width self /\
    0 <= y <= ActionExecutor.screen_height self /\
    ActionExecutor.click_relative self w x_ratio y_ratio button clicks st =
    guarded_call w (EvClick x y button clicks) st.
Proof.
  intros Hx Hy HW HH.
  assert (Hscale : forall ratio dim,
            unit_fraction ratio = true -> 0 <= dim < 2 ^ 53 ->
            exists p, ActionExecutor.scale_ratio ratio dim = Ok p /\ 0 <= p <= dim).
  { intros ratio dim Hr Hd. unfold ActionExecutor.scale_ratio, bind_result.
    destruct (of_int_below dim Hd) as (fd & Hfd & Hb). rewrite Hfd.
    apply to_int_below; [lia |]. apply mul_below; assumption. }
  destruct (Hscale x_ratio _ Hx HW) as (x & Hsx & Hbx).
  destruct (Hscale y_ratio _ Hy HH) as (y & Hsy & Hby).
  exists x, y. split; [exact Hbx |]. split; [exact Hby |].
  unfold ActionExecutor.click_relative.
  run_with ltac:(apply lift_ok; exact Hsx).
  run_with ltac:(apply lift_ok; exact Hsy).
  apply guarded_perform.
Qed.

Lemma click_relative_within_screen_witness :
  exists x y,
    0 <= x <= 1920 /\ 0 <= y <= 1080 /\
    ActionExecutor.click_relative Scenario.screen Scenario.calm_world
      Float64.half Float64.half "left" 1 SeeThinkActAgent.reset =
    guarded_call Scenario.calm_world (EvClick x y "left" 1) SeeThinkActAgent.reset.
Proof.
  apply (click_relative_within_screen Scenario.screen Scenario.calm_world
           Float64.half Float64.half "left" 1 SeeThinkActAgent.reset).
  - reflexivity.
  - reflexivity.
  - simpl. lia.
  - simpl. lia.
Defined.

(** With the ratio one half the click goes to the middle of the screen. *)
Example click_relative_center :
  ActionExecutor.click_relative Scenario.screen Scenario.calm_world
    Float64.half Float64.half "left" 1 SeeThinkActAgent.reset =
  (Return true, record (EvClick 960 540 "left" 1) None SeeThinkActAgent.reset).
Proof. vm_compute. reflexivity. Qed.

(** ** The executor: what it does with any action *)

Section Swallowed.

Variable w : step_env.

Lemma swallowed_ret b : swallowed w (ret b).
Proof. intro st. left. exists b. reflexivity. Qed.

Lemma swallowed_raise c msg : swallowed w (raise c msg).
Proof. intro st. left. exists false. reflexivity. Qed.

Lemma swallowed_bind_lift {A} (r : result A) (k : A -> M bool) :
  (forall a, swallowed w (k a)) -> swallowed w (bind (lift r) k).
Proof.
  intros Hk st. destruct r as [a | c msg].
  - apply (Hk a st).
  - left. exists false. reflexivity.
Qed.

Lemma swallowed_perform ev :
  os_event ev = true -> swallowed w (perform w ev ;;; ret true).
Proof.
  intros Hev st. right. exists ev. split; [exact Hev |].
  apply guarded_perform.
Qed.

(** The result of a guarded call passes an enclosing [try] unchanged. *)
Lemma swallowed_try (m : M bool) :
  swallowed w m -> swallowed w (try_except_Exception m (fun _ => ret false)).
Proof.
  intros Hm st. specialize (Hm st).
  set (inner := try_except_Exception m (fun _ => ret false)) in *.
  assert (Hsame : try_except_Exception inner (fun _ => ret false) st = inner st).
  { unfold try_except_Exception at 1.
    destruct Hm as [(b & Hb) | (ev & _ & Hcall)].
    - rewrite Hb. reflexivity.
    - rewrite Hcall. unfold guarded_call.
      destruct (react w ev) as [[| c msg] |]; reflexivity. }
  rewrite Hsame. exact Hm.
Qed.

End Swallowed.

Ltac swallow_step :=
  first
    [ apply swallowed_ret
    | apply swallowed_raise
    | apply swallowed_perform; reflexivity
    | apply swallowed_try
    | apply swallowed_bind_lift; intro
    | match goal with
      | |- swallowed _ (if ?b then _ else _) => destruct b
      | |- swallowed _ (match ?x with _ => _ end) => destruct x
      end ].

Lemma _execute_computer_action_swallowed self w args :
  swallowed w (ActionExecutor._execute_computer_action self w args).
Proof.
  unfold ActionExecutor._execute_computer_action, ActionExecutor.click_normalized,
    ActionExecutor.click, ActionExecutor.drag, ActionExecutor.move_mouse,
    ActionExecutor.type_text, ActionExecutor.press_key, ActionExecutor.scroll.
  apply swallowed_bind_lift. intro action_type.
  repeat match goal with
         | |- swallowed _ (if ?b then _ else _) => destruct b
         end;
    repeat swallow_step.
Qed.

Lemma execute_computer_use_action_swallowed self w json_loads action st :
  at_most_one_call w st
    (ActionExecutor.execute_computer_use_action self w json_loads action st).
Proof.
  unfold ActionExecutor.execute_computer_use_action.
  repeat (apply swallowed_bind_lift; intro).
  destruct (eq_str _ "computer" || eq_str _ "computer_use").
  - apply _execute_computer_action_swallowed.
  - apply swallowed_ret.
Qed.

(** X1.  Whatever the action and whatever the world does, the executor makes
    no call at all and returns a boolean in the state it started in, or it
    makes exactly one pyautogui call and answers as a guarded call does: an
    [Exception] of the call becomes [False].  So no [Exception] ever leaves
    the executor, only [KeyboardInterrupt] can. *)
Theorem executor_makes_at_most_one_call
  (self : ActionExecutor.t) (w : step_env) (json_loads : string -> result value)
  (action : value) (st : state) :
  let r := ActionExecutor.execute_computer_use_action self w json_loads action st in
  ((exists b, r = (Return b, st)) \/
   (exists ev, os_event ev = true /\ r = guarded_call w ev st)) /\
  (forall c msg, fst r <> Raise (Exc c msg)).
Proof.
  intro r.
  pose proof (execute_computer_use_action_swallowed self w json_loads action st)
    as Hshape.
  fold r in Hshape. split; [exact Hshape |].
  intros c msg Hraise.
  destruct Hshape as [(b & Hb) | (ev & _ & Hcall)].
  - rewrite Hb in Hraise. discriminate Hraise.
  - rewrite Hcall in Hraise. unfold guarded_call in Hraise.
    destruct (react w ev) as [[| c' msg'] |]; discriminate Hraise.
Qed.

(** ** The executor: names, tags, coordinates and defaults *)

Lemma execute_handed self w json_loads name arguments st :
  ActionExecutor.execute_computer_use_action self w json_loads (handed name arguments) st =
  try_except_Exception
    (arguments' <- lift (let a := if truthy arguments then arguments else VDict [] in
                         if is_str a then ActionExecutor.loads json_loads a else Ok a) ;;
     if eq_str (if truthy name then name else VNone) "computer"
        || eq_str (if truthy name then name else VNone) "computer_use"
     then ActionExecutor._execute_computer_action self w arguments'
     else ret false)
    (fun _ => ret false) st.
Proof.
  unfold ActionExecutor.execute_computer_use_action, handed, try_except_Exception.
  run_with ltac:(reflexivity).
  unfold ActionExecutor.py_or.
  destruct (truthy name) eqn:Hname; run_with ltac:(reflexivity);
    run_with ltac:(reflexivity);
    destruct (truthy arguments) eqn:Hargs; run_with ltac:(reflexivity);
    reflexivity.
Qed.

Lemma unknown_tool_refused self w json_loads name arguments st :
  (eq_str name "computer" || eq_str name "computer_use") = false ->
  ActionExecutor.execute_computer_use_action self w json_loads (handed name arguments) st =
  (Return false, st).
Proof.
  intro Hname. rewrite execute_handed.
  assert (Hno : (eq_str (if truthy name then name else VNone) "computer"
                 || eq_str (if truthy name then name else VNone) "computer_use") = false)
    by (destruct (truthy name); [exact Hname | reflexivity]).
  rewrite Hno. unfold try_except_Exception, bind, lift.
  destruct (if is_str (if truthy arguments then arguments else VDict [])
            then ActionExecutor.loads json_loads (if truthy arguments then arguments else VDict [])
            else Ok (if truthy arguments then arguments else VDict []));
    reflexivity.
Qed.

(** X2.  An action whose name is neither ['computer'] nor ['computer_use']
    (a missing or empty name among them) is refused whatever its arguments:
    the executor makes no call and returns [False]. *)
Theorem unknown_tool_is_refused
  (self : ActionExecutor.t) (w : step_env) (json_loads : string -> result value)
  (name arguments : value) (st : state) :
  (eq_str name "computer" || eq_str name "computer_use") = false ->
  ActionExecutor.execute_computer_use_action self w json_loads (handed name arguments) st =
  (Return false, st).
Proof.
  intro Hname. rewrite execute_handed.
  destruct (truthy name) eqn:Hsaid.
  - rewrite Hname. unfold try_except_Exception, bind, lift.
    destruct (if is_str (if truthy arguments then arguments else VDict [])
              then ActionExecutor.loads json_loads
                     (if truthy arguments then arguments else VDict [])
              else Ok (if truthy arguments then arguments else VDict []));
      reflexivity.
  - cbn [eq_str orb]. unfold try_except_Exception, bind, lift.
    destruct (if is_str (if truthy arguments then arguments else VDict [])
              then ActionExecutor.loads json_loads
                     (if truthy arguments then arguments else VDict [])
              else Ok (if truthy arguments then arguments else VDict []));
      reflexivity.
Qed.

Lemma unknown_tool_is_refused_witness :
  ActionExecutor.execute_computer_use_action Scenario.screen Scenario.calm_world
    Scenario.no_json
    (handed (VStr "browser") (Scenario.left_click_at 500 500)) SeeThinkActAgent.reset =
  (Return false, SeeThinkActAgent.reset).
Proof.
  apply (unknown_tool_is_refused Scenario.screen Scenario.calm_world Scenario.no_json
           (VStr "browser") (Scenario.left_click_at 500 500) SeeThinkActAgent.reset).
  reflexivity.
Defined.

(** The executor on a computer action whose arguments are a dict. *)
Lemma execute_computer self w json_loads name args st :
  (eq_str name "computer" || eq_str name "computer_use") = true ->
  ActionExecutor.execute_computer_use_action self w json_loads
    (handed name (VDict args)) st =
  try_except_Exception (ActionExecutor._execute_computer_action self w (VDict args))
    (fun _ => ret false) st.
Proof.
  intro Hname. rewrite execute_handed.
  assert (Htruthy : truthy name = true).
  { destruct name; try discriminate Hname. simpl in *.
    destruct (s =? "")%string eqn:E; [| reflexivity].
    apply String.eqb_eq in E. subst. discriminate Hname. }
  rewrite Htruthy, Hname.
  assert (Hargs : (if truthy (VDict args) then VDict args else VDict []) = VDict args)
    by (destruct args; reflexivity).
  rewrite Hargs. reflexivity.
Qed.

(** X3.  The executor reports success only for a tool named ['computer'] or
    ['computer_use'] and an action type that the dispatch has a branch for;
    every other descriptor (['wait'], ['terminate'], a missing or non-string
    type among them) gets [False]. *)
Theorem success_needs_known_action
  (self : ActionExecutor.t) (w : step_env) (json_loads : string -> result value)
  (name : value) (args : list (string * value)) (st st' : state) :
  ActionExecutor.execute_computer_use_action self w json_loads
    (handed name (VDict args)) st = (Return true, st') ->
  (eq_str name "computer" || eq_str name "computer_use") = true /\
  exists action_type,
    lookup "action" args = Some (VStr action_type) /\ In action_type known_actions.
Proof.
  intro Hrun.
  destruct (eq_str name "computer" || eq_str name "computer_use") eqn:Hname.
  - split; [reflexivity |].
    rewrite execute_computer in Hrun by exact Hname.
    unfold ActionExecutor._execute_computer_action, try_except_Exception in Hrun.
    rewrite (bind_returns _ _ st _ st (lift_ok _ _ st (py_get_dict args "action" VNone)))
      in Hrun.
    cbv beta in Hrun.
    assert (Hknown : forall t,
              eq_str (match lookup "action" args with Some v => v | None => VNone end) t
              = true ->
              lookup "action" args = Some (VStr t)).
    { intros t Ht. apply eq_str_true in Ht.
      destruct (lookup "action" args); [congruence | discriminate Ht]. }
    unfold known_actions.
    repeat match type of Hrun with
           | context [if eq_str ?v ?t then _ else _] =>
               let E := fresh "E" in
               destruct (eq_str v t) eqn:E;
               [exists t; split; [exact (Hknown t E) | simpl; tauto] | clear E]
           end.
    discriminate Hrun.
  - rewrite unknown_tool_refused in Hrun by exact Hname. discriminate Hrun.
Qed.

Lemma success_needs_known_action_witness :
  (eq_str (VStr "computer_use") "computer" || eq_str (VStr "computer_use") "computer_use")
  = true /\
  exists action_type,
    lookup "action" [("action", VStr "screenshot")] = Some (VStr action_type) /\
    In action_type known_actions.
Proof.
  apply (success_needs_known_action Scenario.screen Scenario.calm_world Scenario.no_json
           (VStr "computer_use") [("action", VStr "screenshot")]
           SeeThinkActAgent.reset SeeThinkActAgent.reset).
  vm_compute. reflexivity.
Defined.

(** X4.  A pointer action whose coordinate does not denote a pixel (fewer
    than two entries, not a sequence, an entry that is not a number) never
    reaches pyautogui: the executor makes no call and returns [False]. *)
Theorem malformed_coordinate_is_refused
  (self : ActionExecutor.t) (w : step_env) (json_loads : string -> result value)
  (args : list (string * value)) (action_type : string)
  (c : exn_class) (msg : string) (st : state) :
  lookup "action" args = Some (VStr action_type) ->
  In action_type pointer_actions ->
  pixel self (match lookup "coordinate" args with
              | Some coordinate => coordinate
              | None => ActionExecutor.center
              end) = Err c msg ->
  ActionExecutor.execute_computer_use_action self w json_loads
    (handed (VStr "computer") (VDict args)) st = (Return false, st).
Proof.
  intros Haction Hpointer Hpixel.
  rewrite execute_computer by reflexivity.
  unfold ActionExecutor._execute_computer_action, try_except_Exception.
  run_with ltac:(apply lift_ok; rewrite py_get_dict, Haction; reflexivity).
  set (coordinate := match lookup "coordinate" args with
                     | Some coordinate => coordinate
                     | None => ActionExecutor.center
                     end) in *.
  unfold pixel, bind_result in Hpixel.
  unfold pointer_actions in Hpointer. simpl in Hpointer.
  destruct Hpointer as [<- | [<- | [<- | [<- | [<- | [<- | []]]]]]]; decide_kinds;
    run_with ltac:(apply lift_ok; rewrite py_get_dict; reflexivity);
    fold coordinate;
    unfold ActionExecutor.click_normalized, bind, lift;
    destruct (py_index coordinate 0) as [c0 | ? ?]; try reflexivity;
    destruct (py_index coordinate 1) as [c1 | ? ?];
    destruct (rescale c0 (ActionExecutor.screen_width self)) as [x | ? ?];
    try reflexivity;
    destruct (rescale c1 (ActionExecutor.screen_height self)) as [y | ? ?];
    try reflexivity; discriminate Hpixel.
Qed.

Lemma malformed_coordinate_is_refused_witness :
  ActionExecutor.execute_computer_use_action Scenario.screen Scenario.calm_world
    Scenario.no_json
    (handed (VStr "computer")
       (VDict [("action", VStr "left_click"); ("coordinate", VList [VInt 500])]))
    SeeThinkActAgent.reset = (Return false, SeeThinkActAgent.reset).
Proof.
  apply (malformed_coordinate_is_refused Scenario.screen Scenario.calm_world
           Scenario.no_json
           [("action", VStr "left_click"); ("coordinate", VList [VInt 500])]
           "left_click" IndexError "list index out of range" SeeThinkActAgent.reset).
  - reflexivity.
  - simpl. auto.
  - reflexivity.
Defined.

(** X5.  The keyboard and wheel actions have defaults: [key] without [text]
    presses ['enter'], [type] without [text] writes the empty string, and
    [scroll] without [scroll_amount] scrolls by 0; each is still one guarded
    pyautogui call. *)
Theorem keyboard_actions_have_defaults
  (self : ActionExecutor.t) (w : step_env) (args : list (string * value)) (st : state) :
  (lookup "action" args = Some (VStr "key") -> lookup "text" args = None ->
   ActionExecutor._execute_computer_action self w (VDict args) st =
   guarded_call w (EvPress (VStr "enter")) st) /\
  (lookup "action" args = Some (VStr "type") -> lookup "text" args = None ->
   ActionExecutor._execute_computer_action self w (VDict args) st =
   guarded_call w (EvWrite (VStr "")) st) /\
  (lookup "action" args = Some (VStr "scroll") -> lookup "scroll_amount" args = None ->
   ActionExecutor._execute_computer_action self w (VDict args) st =
   guarded_call w (EvScroll (VInt 0)) st).
Proof.
  repeat split; intros Haction Hmissing;
    unfold ActionExecutor._execute_computer_action;
    run_with ltac:(apply lift_ok; rewrite py_get_dict, Haction; reflexivity);
    decide_kinds;
    run_with ltac:(apply lift_ok; rewrite py_get_dict, Hmissing; reflexivity);
    apply guarded_perform.
Qed.

Lemma keyboard_actions_have_defaults_witness :
  ActionExecutor._execute_computer_action Scenario.screen Scenario.calm_world
    (VDict [("action", VStr "key")]) SeeThinkActAgent.reset =
  (Return true, record (EvPress (VStr "enter")) None SeeThinkActAgent.reset) /\
  ActionExecutor._execute_computer_action Scenario.screen Scenario.calm_world
    (VDict [("action", VStr "type")]) SeeThinkActAgent.reset =
  (Return true, record (EvWrite (VStr "")) None SeeThinkActAgent.reset) /\
  ActionExecutor._execute_computer_action Scenario.screen Scenario.calm_world
    (VDict [("action", VStr "scroll")]) SeeThinkActAgent.reset =
  (Return true, record (EvScroll (VInt 0)) None SeeThinkActAgent.reset).
Proof.
  split; [| split].
  - apply (keyboard_actions_have_defaults Scenario.screen Scenario.calm_world
             [("action", VStr "key")] SeeThinkActAgent.reset); reflexivity.
  - apply (keyboard_actions_have_defaults Scenario.screen Scenario.calm_world
             [("action", VStr "type")] SeeThinkActAgent.reset); reflexivity.
  - apply (keyboard_actions_have_defaults Scenario.screen Scenario.calm_world
             [("action", VStr "scroll")] SeeThinkActAgent.reset); reflexivity.
Defined.

(** X6.  [type_text] logs [text[:50]] before it types: a [type] action whose
    text cannot be sliced (a number, a boolean, [None], a dict) is never
    handed to pyautogui, and the executor returns [False]. *)
Theorem unsliceable_text_is_not_typed
  (self : ActionExecutor.t) (w : step_env) (args : list (string * value))
  (text : value) (st : state) :
  lookup "action" args = Some (VStr "type") ->
  lookup "text" args = Some text ->
  sliceable text = false ->
  ActionExecutor._execute_computer_action self w (VDict args) st = (Return false, st).
Proof.
  intros Haction Htext Hkind.
  unfold ActionExecutor._execute_computer_action.
  run_with ltac:(apply lift_ok; rewrite py_get_dict, Haction; reflexivity).
  decide_kinds.
  run_with ltac:(apply lift_ok; rewrite py_get_dict, Htext; reflexivity).
  destruct text; try discriminate Hkind; reflexivity.
Qed.

Lemma unsliceable_text_is_not_typed_witness :
  ActionExecutor._execute_computer_action Scenario.screen Scenario.calm_world
    (VDict [("action", VStr "type"); ("text", VInt 42)]) SeeThinkActAgent.reset =
  (Return false, SeeThinkActAgent.reset).
Proof.
  apply (unsliceable_text_is_not_typed Scenario.screen Scenario.calm_world
           [("action", VStr "type"); ("text", VInt 42)] (VInt 42) SeeThinkActAgent.reset).
  - reflexivity.
  - reflexivity.
  - reflexivity.
Defined.

(** X21.  The executor accepts both shapes of an action: a raw tool call
    [{function: {name, arguments}}] is executed exactly as the flat
    [{name, arguments}] that [_execute_action] builds, for a name and
    arguments that are not empty. *)
Theorem executor_accepts_both_shapes
  (self : ActionExecutor.t) (w : step_env) (json_loads : string -> result value)
  (name arguments : value) (st : state) :
  truthy name = true -> truthy arguments = true ->
  ActionExecutor.execute_computer_use_action self w json_loads
    (VDict [("function", VDict [("name", name); ("arguments", arguments)])]) st =
  ActionExecutor.execute_computer_use_action self w json_loads (handed name arguments) st.
Proof.
  intros Hname Harguments. rewrite execute_handed. rewrite Hname, Harguments.
  unfold ActionExecutor.execute_computer_use_action, try_except_Exception.
  run_with ltac:(reflexivity). run_with ltac:(reflexivity).
  run_with ltac:(reflexivity). run_with ltac:(reflexivity).
  reflexivity.
Qed.

Lemma executor_accepts_both_shapes_witness :
  ActionExecutor.execute_computer_use_action Scenario.screen Scenario.calm_world
    Scenario.no_json (Scenario.tool_call (Scenario.left_click_at 500 500))
    SeeThinkActAgent.reset =
  ActionExecutor.execute_computer_use_action Scenario.screen Scenario.calm_world
    Scenario.no_json (handed (VStr "computer") (Scenario.left_click_at 500 500))
    SeeThinkActAgent.reset.
Proof.
  apply (executor_accepts_both_shapes Scenario.screen Scenario.calm_world Scenario.no_json
           (VStr "computer") (Scenario.left_click_at 500 500) SeeThinkActAgent.reset).
  - reflexivity.
  - reflexivity.
Defined.

(** X22.  A structured call without a [name] is never executed: unlike a
    flat action, whose missing name defaults to ['computer'], its name is
    [None], which the executor refuses; [_execute_action] makes no call, does
    not pause, and returns [False]. *)
Theorem nameless_call_is_not_executed
  (self : SeeThinkActAgent.t) (json_loads : string -> result value) (w : step_env)
  (response : value) (a f args : list (string * value)) (action_type : string)
  (st : state) :
  OllamaVisionClient.parse_computer_use_action json_loads response = Ok (VDict a) ->
  lookup "function" a = Some (VDict f) ->
  lookup "name" f = None ->
  lookup "arguments" f = Some (VDict args) ->
  lookup "action" args = Some (VStr action_type) ->
  action_type <> "terminate" -> action_type <> "answer" ->
  SeeThinkActAgent._execute_action self json_loads w response st = (Return false, st).
Proof.
  intros Hparse Hfunction Hname Harguments Haction Hterminate Hanswer.
  assert (Htruthy : truthy (VDict a) = true)
    by (destruct a; [discriminate Hfunction | reflexivity]).
  assert (Hdetails : SeeThinkActAgent.action_details json_loads (VDict a) =
                     Ok (VNone, VDict args)).
  { unfold SeeThinkActAgent.action_details. simpl. rewrite Hfunction. simpl.
    rewrite Hname, Harguments. reflexivity. }
  assert (Hkind : py_get (VDict args) "action" VNone = Ok (VStr action_type))
    by (rewrite py_get_dict, Haction; reflexivity).
  unfold SeeThinkActAgent._execute_action.
  run_with ltac:(apply lift_ok; exact Hparse).
  rewrite Htruthy. cbn [negb].
  run_with ltac:(apply lift_ok; exact Hdetails).
  run_with ltac:(apply lift_ok; exact Hkind).
  assert (Hnot1 : eq_str (VStr action_type) "terminate" = false)
    by (apply String.eqb_neq; exact Hterminate).
  assert (Hnot2 : eq_str (VStr action_type) "answer" = false)
    by (apply String.eqb_neq; exact Hanswer).
  rewrite Hnot1.
  run_with ltac:(apply lift_ok; exact Hkind).
  rewrite Hnot2.
  run_with ltac:(apply (unknown_tool_refused (SeeThinkActAgent.action_executor self) w
                          json_loads VNone (VDict args) st); reflexivity).
  reflexivity.
Qed.

Lemma nameless_call_is_not_executed_witness :
  SeeThinkActAgent._execute_action (Scenario.agent 3) Scenario.no_json Scenario.calm_world
    (Mishap.reply_with
       (VDict [("function", VDict [("arguments", Scenario.left_click_at 500 500)])]))
    SeeThinkActAgent.reset = (Return false, SeeThinkActAgent.reset).
Proof.
  apply (nameless_call_is_not_executed (Scenario.agent 3) Scenario.no_json
           Scenario.calm_world
           (Mishap.reply_with
              (VDict [("function", VDict [("arguments", Scenario.left_click_at 500 500)])]))
           [("function", VDict [("arguments", Scenario.left_click_at 500 500)])]
           [("arguments", Scenario.left_click_at 500 500)]
           [("action", VStr "left_click"); ("coordinate", VList [VInt 500; VInt 500])]
           "left_click" SeeThinkActAgent.reset).
  - reflexivity.
  - reflexivity.
  - reflexivity.
  - reflexivity.
  - reflexivity.
  - discriminate.
  - discriminate.
Defined.

(** ** The parser: precedence, the delimited payload, and what cannot fail *)

Lemma append_assoc' (a b c : string) : ((a ++ b) ++ c = a ++ (b ++ c))%string.
Proof. induction a as [| ch a IH]; simpl; [reflexivity | rewrite IH; reflexivity]. Qed.

Lemma length_append' (a b : string) :
  String.length (a ++ b) = (String.length a + String.length b)%nat.
Proof. induction a as [| ch a IH]; simpl; [reflexivity | rewrite IH; reflexivity]. Qed.

Lemma prefix_empty (s : string) : prefix "" s = true.
Proof. destruct s; reflexivity. Qed.

Lemma prefix_self_append (sep rest : string) : prefix sep (sep ++ rest) = true.
Proof.
  induction sep as [| ch sep IH]; simpl; [destruct rest; reflexivity |].
  destruct (ascii_dec ch ch) as [_ | Hne]; [exact IH | contradiction Hne; reflexivity].
Qed.

(** Whether [sep] starts a string only depends on its first [length sep]
    characters. *)
Lemma prefix_append_long (sep a z : string) :
  (String.length sep <= String.length a)%nat ->
  prefix sep (a ++ z) = prefix sep a.
Proof.
  revert a. induction sep as [| ch sep IH]; intros a Hlen.
  - rewrite !prefix_empty. reflexivity.
  - destruct a as [| b a]; simpl in Hlen; [lia |]. simpl.
    destruct (ascii_dec ch b); [apply IH; lia | reflexivity].
Qed.

Lemma contains_unfold (sep s : string) :
  contains sep s =
  prefix sep s || match s with
                  | EmptyString => false
                  | String _ s' => contains sep s'
                  end.
Proof. destruct s; reflexivity. Qed.

Lemma contains_occurrence (sep pre post : string) :
  contains sep (pre ++ sep ++ post) = true.
Proof.
  induction pre as [| ch pre IH].
  - simpl append. rewrite contains_unfold, prefix_self_append. reflexivity.
  - simpl append. rewrite contains_unfold, IH. apply orb_true_r.
Qed.

(** Without an occurrence of the separator, [split] returns the string as
    its only piece. *)
Lemma split_from_absent (sep s : string) :
  contains sep s = false -> split_from sep 0 s = (s, []).
Proof.
  induction s as [| ch s IH]; intro Hno; [reflexivity |].
  rewrite contains_unfold in Hno.
  apply orb_false_elim in Hno. destruct Hno as [Hprefix Hrest].
  cbn [split_from]. rewrite Hprefix, (IH Hrest). reflexivity.
Qed.

(** The characters of a matched separator are passed over. *)
Lemma split_from_skip (sep x rest : string) :
  split_from sep (String.length x) (x ++ rest) = split_from sep 0 rest.
Proof.
  induction x as [| ch x IH]; simpl; [reflexivity | exact IH].
Qed.

(** The first occurrence of the separator ends the first piece. *)
Lemma split_from_first (sep init : string) (last : ascii) (pre rest : string) :
  sep = (init ++ String last EmptyString)%string ->
  contains sep (pre ++ init) = false ->
  split_from sep 0 (pre ++ sep ++ rest) =
  (pre, let (p, ps) := split_from sep 0 rest in p :: ps).
Proof.
  intros Hsep Hno. induction pre as [| ch pre IH].
  - simpl append.
    destruct sep as [| a sep'] eqn:Esep.
    + destruct init; discriminate Hsep.
    + rewrite <- Esep. cbn [split_from].
      assert (Hshape : (sep ++ rest)%string = String a (sep' ++ rest))
        by (rewrite Esep; reflexivity).
      rewrite Hshape. cbn [split_from]. rewrite <- Hshape.
      rewrite prefix_self_append. rewrite Esep at 2. simpl String.length.
      cbn [Nat.pred]. rewrite split_from_skip. reflexivity.
  - simpl append in *. rewrite contains_unfold in Hno.
    apply orb_false_elim in Hno. destruct Hno as [Hprefix Hrest].
    cbn [split_from].
    assert (Hfar : prefix sep (String ch (pre ++ sep ++ rest)) = false).
    { rewrite Hsep at 2. rewrite append_assoc'.
      rewrite <- (append_assoc' pre init).
      change (String ch ((pre ++ init) ++ String last EmptyString ++ rest))
        with (String ch (pre ++ init) ++ (String last EmptyString ++ rest))%string.
      rewrite prefix_append_long; [exact Hprefix |].
      rewrite Hsep. simpl. rewrite !length_append'. simpl. lia. }
    rewrite Hfar, (IH Hrest). reflexivity.
Qed.

Lemma split_first (sep init : string) (last : ascii) (pre rest : string) :
  sep = (init ++ String last EmptyString)%string ->
  contains sep (pre ++ init) = false ->
  split sep (pre ++ sep ++ rest) = pre :: split sep rest.
Proof.
  intros Hsep Hno. unfold split.
  rewrite (split_from_first sep init last pre rest Hsep Hno).
  destruct (split_from sep 0 rest). reflexivity.
Qed.

Lemma split_absent (sep s : string) :
  contains sep s = false -> split sep s = [s].
Proof. intro Hno. unfold split. rewrite split_from_absent by exact Hno. reflexivity. Qed.

Lemma split_from_present (sep s : string) :
  sep <> EmptyString -> contains sep s = true ->
  exists p q ps, split_from sep 0 s = (p, q :: ps).
Proof.
  intros Hsep. induction s as [| ch s IH]; intro Hin.
  - rewrite contains_unfold in Hin. destruct sep; [contradiction Hsep; reflexivity |].
    discriminate Hin.
  - rewrite contains_unfold in Hin. cbn [split_from].
    destruct (prefix sep (String ch s)) eqn:Hprefix.
    + destruct (split_from sep (Nat.pred (String.length sep)) s) as [p ps].
      eexists; eexists; eexists; reflexivity.
    + simpl in Hin. destruct (IH Hin) as (p & q & ps & Hsplit).
      rewrite Hsplit. eexists; eexists; eexists; reflexivity.
Qed.

(** X9.  A structured tool call takes precedence: when the message of the
    reply has a non-empty [tool_calls] list, the parser returns its first
    entry, whatever the text of the reply holds. *)
Theorem structured_call_takes_precedence
  (json_loads : string -> result value) (d m : list (string * value))
  (call : value) (more : list value) :
  lookup "message" d = Some (VDict m) ->
  lookup "tool_calls" m = Some (VList (call :: more)) ->
  OllamaVisionClient.parse_computer_use_action json_loads (VDict d) = Ok call.
Proof.
  intros Hmessage Hcalls.
  unfold OllamaVisionClient.parse_computer_use_action,
    OllamaVisionClient.extract_tool_calls.
  simpl. rewrite Hmessage. simpl. rewrite Hcalls. reflexivity.
Qed.

Lemma structured_call_takes_precedence_witness :
  OllamaVisionClient.parse_computer_use_action Scenario.no_json
    (VDict [("message",
             VDict [("content", VStr "<tool_call>{}</tool_call>");
                    ("tool_calls",
                     VList [Scenario.tool_call Scenario.terminate_bare])])]) =
  Ok (Scenario.tool_call Scenario.terminate_bare).
Proof.
  apply (structured_call_takes_precedence Scenario.no_json
           [("message",
             VDict [("content", VStr "<tool_call>{}</tool_call>");
                    ("tool_calls",
                     VList [Scenario.tool_call Scenario.terminate_bare])])]
           [("content", VStr "<tool_call>{}</tool_call>");
            ("tool_calls", VList [Scenario.tool_call Scenario.terminate_bare])]
           (Scenario.tool_call Scenario.terminate_bare) []).
  - reflexivity.
  - reflexivity.
Defined.

(** X10.  The textual fallback.  In a reply without structured call whose
    text is [pre <tool_call> body </tool_call> post], with the markers at
    their first occurrences and no second opening marker, the payload handed
    to [json.loads] is the body stripped of the white space around it, and
    the parser returns what [json.loads] returns for it, no action when
    [json.loads] raises a [JSONDecodeError], and lets every other exception
    of [json.loads] through. *)
Theorem delimited_payload_is_parsed
  (json_loads : string -> result value) (response : value) (pre body post : string) :
  plain_reply response (pre ++ "<tool_call>" ++ body ++ "</tool_call>" ++ post) ->
  contains "<tool_call>" (pre ++ "<tool_call") = false ->
  contains "<tool_call>" (body ++ "</tool_call>" ++ post) = false ->
  contains "</tool_call>" (body ++ "</tool_call") = false ->
  OllamaVisionClient.delimited_payload
    (VStr (pre ++ "<tool_call>" ++ body ++ "</tool_call>" ++ post)) = Ok (strip body) /\
  OllamaVisionClient.parse_computer_use_action json_loads response =
  match json_loads (strip body) with
  | Ok action => Ok action
  | Err JSONDecodeError _ => Ok VNone
  | Err IndexError _ => Ok VNone
  | Err c msg => Err c msg
  end.
Proof.
  intros Hplain Hopen Hsingle Hclose.
  set (content := (pre ++ "<tool_call>" ++ body ++ "</tool_call>" ++ post)%string) in *.
  assert (Hpayload : OllamaVisionClient.delimited_payload (VStr content) = Ok (strip body)).
  { unfold OllamaVisionClient.delimited_payload, content.
    rewrite (split_first "<tool_call>" "<tool_call" ">"%char pre _ eq_refl Hopen).
    rewrite (split_absent _ _ Hsingle). cbn [nth_error].
    rewrite (split_first "</tool_call>" "</tool_call" ">"%char body _ eq_refl Hclose).
    reflexivity. }
  split; [exact Hpayload |].
  destruct (extract_tool_calls_plain response content Hplain) as (calls & Hcalls & Hfalsy).
  unfold OllamaVisionClient.parse_computer_use_action.
  rewrite Hcalls. cbn [bind_result]. rewrite Hfalsy.
  rewrite (message_content_plain response content Hplain). cbn [bind_result py_in].
  assert (Hhas_open : contains "<tool_call>" content = true)
    by apply contains_occurrence.
  assert (Hhas_close : contains "</tool_call>" content = true).
  { unfold content.
    rewrite <- (append_assoc' pre "<tool_call>" _).
    rewrite <- (append_assoc' (pre ++ "<tool_call>") body _).
    apply contains_occurrence. }
  rewrite Hhas_open, Hhas_close.
  unfold OllamaVisionClient.decode_payload. rewrite Hpayload. cbn [bind_result].
  destruct (json_loads (strip body)) as [action | c msg]; [reflexivity |].
  destruct c; reflexivity.
Qed.

Lemma delimited_payload_is_parsed_witness :
  OllamaVisionClient.delimited_payload
    (VStr ("I will stop. " ++ "<tool_call>" ++ Mishap.padded_object ++ "</tool_call>" ++ ""))
  = Ok "{}" /\
  OllamaVisionClient.parse_computer_use_action Mishap.json
    (Scenario.reply_with_text
       ("I will stop. " ++ "<tool_call>" ++ Mishap.padded_object ++ "</tool_call>" ++ ""))
  = Ok (VDict []).
Proof.
  destruct (delimited_payload_is_parsed Mishap.json
              (Scenario.reply_with_text
                 ("I will stop. " ++ "<tool_call>" ++ Mishap.padded_object
                  ++ "</tool_call>" ++ ""))
              "I will stop. " Mishap.padded_object "")
    as [Hpayload Hparse].
  - apply plain_reply_with_text.
  - reflexivity.
  - reflexivity.
  - reflexivity.
  - split.
    + rewrite Hpayload. vm_compute. reflexivity.
    + rewrite Hparse. vm_compute. reflexivity.
Defined.

(** Indexing a string gives characters, not bytes. *)
Example index_of_characters :
  py_index (VStr (Mishap.no_break_space ++ "5")) 1 = Ok (VStr "5") /\
  py_index (VStr Mishap.no_break_space) 1 = Err IndexError "string index out of range".
Proof. split; vm_compute; reflexivity. Qed.

(** The white space that [strip] removes is that of Unicode, and the bytes
    [85] and [A0] inside another character are not taken for it. *)
Example strip_unicode :
  strip (Mishap.ideographic_space ++ "{}" ++ Mishap.no_break_space) = "{}" /\
  strip (String (ascii_of_nat 197) (String (ascii_of_nat 133) EmptyString)) =
  String (ascii_of_nat 197) (String (ascii_of_nat 133) EmptyString).
Proof. split; vm_compute; reflexivity. Qed.

(** X11.  Under the guard of the fallback the payload lookup cannot fail:
    when the text holds the opening marker, [split('<tool_call>')[1]] and
    [split('</tool_call>')[0]] both exist, so the [IndexError] that the
    parser is prepared to catch never arises. *)
Theorem payload_lookup_cannot_fail (content : string) :
  contains "<tool_call>" content = true ->
  exists json_str,
    OllamaVisionClient.delimited_payload (VStr content) = Ok json_str.
Proof.
  intro Hopen. unfold OllamaVisionClient.delimited_payload, split.
  destruct (split_from_present "<tool_call>" content ltac:(discriminate) Hopen)
    as (p & q & ps & Hsplit).
  rewrite Hsplit. cbn [nth_error].
  destruct (split_from "</tool_call>" 0 q) as [inner rest].
  cbn [nth_error]. eexists. reflexivity.
Qed.

Lemma payload_lookup_cannot_fail_witness :
  exists json_str,
    OllamaVisionClient.delimited_payload (VStr "<tool_call>") = Ok json_str.
Proof. apply (payload_lookup_cannot_fail "<tool_call>"). reflexivity. Defined.

(** ** The run: how it ends when an iteration raises, and when it never starts *)

(** X12.  An [Exception] that leaves an iteration ends the run: the result is
    [{success: false, status: 'error', message: 'Error: ' + str(e)}], it
    counts the iteration that failed, and the state is the one the raise
    left, so nothing runs after it. *)
Theorem escaping_exception_ends_run
  (self : SeeThinkActAgent.t) (json_loads : string -> result value) (task : string)
  (env : Z -> step_env) (st st' : state) (c : exn_class) (msg : string) :
  SeeThinkActAgent.reaches self json_loads task env st ->
  SeeThinkActAgent.loop_condition self st = true ->
  SeeThinkActAgent.iteration self json_loads task env st = (Raise (Exc c msg), st') ->
  SeeThinkActAgent.run self json_loads task env =
  Some ({| SeeThinkActAgent.success := false;
           SeeThinkActAgent.status := VStr "error";
           SeeThinkActAgent.message := "Error: " ++ msg;
           SeeThinkActAgent.iterations := iteration_count st + 1 |}, st').
Proof.
  intros Hreach Hcond Hstep.
  destruct (run_raises self json_loads task env st st' (Exc c msg) Hreach Hcond Hstep)
    as [Hrun Hcount].
  rewrite Hrun. simpl. rewrite Hcount. reflexivity.
Qed.

Lemma escaping_exception_ends_run_witness :
  SeeThinkActAgent.run (Scenario.agent 3) Scenario.no_json Scenario.task Mishap.blind =
  Some ({| SeeThinkActAgent.success := false;
           SeeThinkActAgent.status := VStr "error";
           SeeThinkActAgent.message := "Error: " ++ "XGetImage() failed";
           SeeThinkActAgent.iterations := iteration_count SeeThinkActAgent.reset + 1 |},
        record EvCapture (Some (Exc OtherError "XGetImage() failed"))
          (snd (SeeThinkActAgent.incr_iteration SeeThinkActAgent.reset))).
Proof.
  apply (escaping_exception_ends_run (Scenario.agent 3) Scenario.no_json Scenario.task
           Mishap.blind SeeThinkActAgent.reset
           (record EvCapture (Some (Exc OtherError "XGetImage() failed"))
              (snd (SeeThinkActAgent.incr_iteration SeeThinkActAgent.reset)))
           OtherError "XGetImage() failed").
  - apply SeeThinkActAgent.reaches_reset.
  - reflexivity.
  - reflexivity.
Defined.

(** X13.  When the round trip to the model raises an [Exception] (the
    endpoint is down, say), the agent does not retry: the run ends with
    status ['error'] and the message of the exception, the round trip is the
    last call it made, no action is executed and no reply is recorded. *)
Theorem model_failure_aborts_run
  (self : SeeThinkActAgent.t) (json_loads : string -> result value) (task : string)
  (env : Z -> step_env) (st : state) (c : exn_class) (msg : string) :
  let w := env (iteration_count st + 1) in
  SeeThinkActAgent.reaches self json_loads task env st ->
  SeeThinkActAgent.loop_condition self st = true ->
  react w EvCapture = None ->
  (forall n, react w (EvSave n) = None) ->
  react w (EvChat (SeeThinkActAgent.next_prompt task)) = Some (Exc c msg) ->
  exists st',
    SeeThinkActAgent.run self json_loads task env =
    Some ({| SeeThinkActAgent.success := false;
             SeeThinkActAgent.status := VStr "error";
             SeeThinkActAgent.message := "Error: " ++ msg;
             SeeThinkActAgent.iterations := iteration_count st + 1 |}, st') /\
    hd_error (log st') =
      Some (EvChat (SeeThinkActAgent.next_prompt task), Some (Exc c msg)) /\
    count_calls os_event (log st') = count_calls os_event (log st) /\
    conversation_history st' = conversation_history st.
Proof.
  intros w Hreach Hcond Hcapture Hsave Hchat.
  destruct (reaches_loop self json_loads task env st Hreach) as [Hpos _].
  destruct (iteration_until_reply self json_loads task env st Hcapture Hsave Hpos)
    as (st1 & Hstep & Hagent & Hcalls).
  fold w in Hstep.
  assert (Hraise : SeeThinkActAgent.iteration self json_loads task env st =
                   (Raise (Exc c msg),
                    record (EvChat (SeeThinkActAgent.next_prompt task))
                      (Some (Exc c msg)) st1)).
  { rewrite Hstep. unfold bind, perform. rewrite Hchat. reflexivity. }
  destruct (run_raises self json_loads task env st _ _ Hreach Hcond Hraise)
    as [Hrun Hcount].
  simpl in Hcount.
  eexists. split; [rewrite Hrun; simpl; rewrite Hcount; reflexivity |].
  split; [reflexivity |]. split.
  - exact Hcalls.
  - simpl. destruct Hagent as (_ & _ & _ & Hhistory). exact Hhistory.
Qed.

Lemma model_failure_aborts_run_witness :
  exists st',
    SeeThinkActAgent.run (Scenario.agent 3) Scenario.no_json Scenario.task Mishap.mute =
    Some ({| SeeThinkActAgent.success := false;
             SeeThinkActAgent.status := VStr "error";
             SeeThinkActAgent.message := "Error: " ++ "Failed to connect to Ollama";
             SeeThinkActAgent.iterations := iteration_count SeeThinkActAgent.reset + 1 |},
          st') /\
    hd_error (log st') =
      Some (EvChat (SeeThinkActAgent.next_prompt Scenario.task),
            Some (Exc OtherError "Failed to connect to Ollama")) /\
    count_calls os_event (log st') = count_calls os_event (log SeeThinkActAgent.reset) /\
    conversation_history st' = conversation_history SeeThinkActAgent.reset.
Proof.
  apply (model_failure_aborts_run (Scenario.agent 3) Scenario.no_json Scenario.task
           Mishap.mute SeeThinkActAgent.reset OtherError "Failed to connect to Ollama").
  - apply SeeThinkActAgent.reaches_reset.
  - reflexivity.
  - reflexivity.
  - intro n. reflexivity.
  - reflexivity.
Defined.

(** X14.  A structured call whose [arguments] are a string on which
    [json.loads] raises (a [JSONDecodeError] or any other exception) is not
    treated as "no action": the decoding sits outside every [try], so the run
    ends with status ['error'] at that iteration, after the reply was
    recorded and without any action being executed. *)
Theorem undecodable_arguments_abort_run
  (self : SeeThinkActAgent.t) (json_loads : string -> result value) (task : string)
  (env : Z -> step_env) (st : state) (a f : list (string * value)) (text : string)
  (c : exn_class) (msg : string) :
  let w := env (iteration_count st + 1) in
  SeeThinkActAgent.reaches self json_loads task env st ->
  SeeThinkActAgent.loop_condition self st = true ->
  quiet w ->
  OllamaVisionClient.parse_computer_use_action json_loads (chat_reply w) = Ok (VDict a) ->
  lookup "function" a = Some (VDict f) ->
  lookup "arguments" f = Some (VStr text) ->
  json_loads text = Err c msg ->
  exists r st',
    SeeThinkActAgent.run self json_loads task env = Some (r, st') /\
    SeeThinkActAgent.success r = false /\
    SeeThinkActAgent.status r = VStr "error" /\
    SeeThinkActAgent.iterations r = iteration_count st + 1 /\
    count_calls os_event (log st') = count_calls os_event (log st) /\
    conversation_history st' =
      (conversation_history st ++ [(iteration_count st + 1, chat_reply w)])%list.
Proof.
  intros w Hreach Hcond Hquiet Hparse Hfunction Harguments Hbad.
  destruct (reaches_loop self json_loads task env st Hreach) as [Hpos _].
  destruct (iteration_until_reply self json_loads task env st (Hquiet _)
              (fun n => Hquiet _) Hpos)
    as (st1 & Hstep & Hagent & Hcalls).
  fold w in Hstep.
  assert (Hdetails : SeeThinkActAgent.action_details json_loads (VDict a) = Err c msg).
  { unfold SeeThinkActAgent.action_details. simpl. rewrite Hfunction. simpl.
    destruct (lookup "name" f); simpl; rewrite Harguments; simpl; rewrite Hbad;
      reflexivity. }
  assert (Htruthy : truthy (VDict a) = true)
    by (destruct a; [discriminate Hfunction | reflexivity]).
  assert (Hraise : exists st3,
            SeeThinkActAgent.iteration self json_loads task env st =
            (Raise (Exc c msg), st3) /\
            log st3 = (EvChat (SeeThinkActAgent.next_prompt task), None) :: log st1 /\
            conversation_history st3 =
            (conversation_history st1 ++ [(iteration_count st1, chat_reply w)])%list).
  { rewrite Hstep.
    run_with ltac:(run_with ltac:(apply perform_quiet; exact Hquiet); reflexivity).
    run_with ltac:(reflexivity).
    unfold SeeThinkActAgent._execute_action.
    unfold bind at 1. unfold bind at 1.
    rewrite (lift_ok _ _ _ Hparse). rewrite Htruthy. cbn [negb].
    unfold bind at 1. unfold lift at 1. rewrite Hdetails.
    eexists. split; [reflexivity |]. split; reflexivity. }
  destruct Hraise as (st3 & Hraise & Hlog & Hhistory).
  destruct (run_raises self json_loads task env st _ _ Hreach Hcond Hraise)
    as [Hrun Hcount].
  destruct Hagent as (Hcount1 & _ & _ & Hhistory1).
  eexists; exists st3. split; [exact Hrun |].
  simpl. repeat split.
  - exact Hcount.
  - rewrite Hlog. rewrite <- Hcalls. reflexivity.
  - rewrite Hhistory, Hhistory1, Hcount1. reflexivity.
Qed.

Lemma undecodable_arguments_abort_run_witness :
  exists r st',
    SeeThinkActAgent.run (Scenario.agent 3) Scenario.no_json Scenario.task
      (Scenario.always (Mishap.reply_with (Mishap.call_with_text "{'action': 'key'}"))) =
    Some (r, st') /\
    SeeThinkActAgent.success r = false /\
    SeeThinkActAgent.status r = VStr "error" /\
    SeeThinkActAgent.iterations r = iteration_count SeeThinkActAgent.reset + 1 /\
    count_calls os_event (log st') = count_calls os_event (log SeeThinkActAgent.reset) /\
    conversation_history st' =
      (conversation_history SeeThinkActAgent.reset ++
       [(iteration_count SeeThinkActAgent.reset + 1,
         Mishap.reply_with (Mishap.call_with_text "{'action': 'key'}"))])%list.
Proof.
  apply (undecodable_arguments_abort_run (Scenario.agent 3) Scenario.no_json Scenario.task
           (Scenario.always (Mishap.reply_with (Mishap.call_with_text "{'action': 'key'}")))
           SeeThinkActAgent.reset
           [("function",
             VDict [("name", VStr "computer"); ("arguments", VStr "{'action': 'key'}")])]
           [("name", VStr "computer"); ("arguments", VStr "{'action': 'key'}")]
           "{'action': 'key'}" JSONDecodeError "Expecting value").
  - apply SeeThinkActAgent.reaches_reset.
  - reflexivity.
  - intro ev. reflexivity.
  - reflexivity.
  - reflexivity.
  - reflexivity.
  - reflexivity.
Defined.

(** X17.  With a ceiling of zero or less the loop body never runs: the run
    makes no call at all and reports a timeout after 0 iterations. *)
Theorem nonpositive_ceiling_runs_nothing
  (self : SeeThinkActAgent.t) (json_loads : string -> result value) (task : string)
  (env : Z -> step_env) :
  SeeThinkActAgent.max_iterations self <= 0 ->
  SeeThinkActAgent.run self json_loads task env =
  Some ({| SeeThinkActAgent.success := false;
           SeeThinkActAgent.status := VStr "timeout";
           SeeThinkActAgent.message :=
             "Task did not complete within "
             ++ SeeThinkActAgent.str_int (SeeThinkActAgent.max_iterations self)
             ++ " iterations";
           SeeThinkActAgent.iterations := 0 |}, SeeThinkActAgent.reset).
Proof.
  intro Hmax. unfold SeeThinkActAgent.run.
  replace (Z.to_nat (SeeThinkActAgent.max_iterations self)) with 0%nat by lia.
  assert (Hcond : SeeThinkActAgent.loop_condition self SeeThinkActAgent.reset = false).
  { unfold SeeThinkActAgent.loop_condition. simpl iteration_count.
    destruct (Z.ltb_spec 0 (SeeThinkActAgent.max_iterations self)); [lia | reflexivity]. }
  simpl SeeThinkActAgent.while_loop. rewrite Hcond. reflexivity.
Qed.

Lemma nonpositive_ceiling_runs_nothing_witness :
  SeeThinkActAgent.run (Scenario.agent 0) Scenario.no_json Scenario.task
    (Scenario.always (Scenario.reply_with_call Scenario.terminate_bare)) =
  Some ({| SeeThinkActAgent.success := false;
           SeeThinkActAgent.status := VStr "timeout";
           SeeThinkActAgent.message :=
             "Task did not complete within "
             ++ SeeThinkActAgent.str_int (SeeThinkActAgent.max_iterations (Scenario.agent 0))
             ++ " iterations";
           SeeThinkActAgent.iterations := 0 |}, SeeThinkActAgent.reset).
Proof.
  apply (nonpositive_ceiling_runs_nothing (Scenario.agent 0) Scenario.no_json Scenario.task
           (Scenario.always (Scenario.reply_with_call Scenario.terminate_bare))).
  simpl. lia.
Defined.

(** X18.  The status of a terminate descriptor is not validated: whatever
    value the model puts there becomes the [status] of the result as it is,
    and [success] is true only for the exact string ['success']. *)
Theorem terminate_status_is_passed_through
  (self : SeeThinkActAgent.t) (json_loads : string -> result value) (task : string)
  (env : Z -> step_env) (st : state) (action action_name : value)
  (arguments : list (string * value)) (v : value) :
  let w := env (iteration_count st + 1) in
  SeeThinkActAgent.reaches self json_loads task env st ->
  SeeThinkActAgent.loop_condition self st = true ->
  quiet w ->
  OllamaVisionClient.parse_computer_use_action json_loads (chat_reply w) = Ok action ->
  truthy action = true ->
  SeeThinkActAgent.action_details json_loads action = Ok (action_name, VDict arguments) ->
  lookup "action" arguments = Some (VStr "terminate") ->
  lookup "status" arguments = Some v ->
  exists st',
    SeeThinkActAgent.run self json_loads task env =
    Some ({| SeeThinkActAgent.success := eq_str v "success";
             SeeThinkActAgent.status := v;
             SeeThinkActAgent.message :=
               "Task completed in " ++ SeeThinkActAgent.str_int (iteration_count st + 1)
               ++ " iterations";
             SeeThinkActAgent.iterations := iteration_count st + 1 |}, st').
Proof.
  intros w Hreach Hcond Hquiet Hparse Htruthy Hdetails Haction Hstatus.
  destruct (iteration_terminates self json_loads task env st action action_name
              (VDict arguments) (VStr "terminate") v)
    as (st' & Hstep & Hdone & Hs); try assumption.
  - rewrite py_get_dict, Haction. reflexivity.
  - reflexivity.
  - rewrite py_get_dict, Hstatus. reflexivity.
  - exists st'.
    pose proof (run_completes self json_loads task env st st' Hreach Hcond Hstep Hdone)
      as Hrun.
    rewrite Hs in Hrun. exact Hrun.
Qed.

Lemma terminate_status_is_passed_through_witness :
  exists st',
    SeeThinkActAgent.run (Scenario.agent 3) Scenario.no_json Scenario.task
      (Scenario.always (Scenario.reply_with_call (Scenario.terminate_with "Success"))) =
    Some ({| SeeThinkActAgent.success := eq_str (VStr "Success") "success";
             SeeThinkActAgent.status := VStr "Success";
             SeeThinkActAgent.message :=
               "Task completed in "
               ++ SeeThinkActAgent.str_int (iteration_count SeeThinkActAgent.reset + 1)
               ++ " iterations";
             SeeThinkActAgent.iterations := iteration_count SeeThinkActAgent.reset + 1 |},
          st').
Proof.
  apply (terminate_status_is_passed_through (Scenario.agent 3) Scenario.no_json
           Scenario.task
           (Scenario.always (Scenario.reply_with_call (Scenario.terminate_with "Success")))
           SeeThinkActAgent.reset
           (Scenario.tool_call (Scenario.terminate_with "Success"))
           (VStr "computer")
           [("action", VStr "terminate"); ("status", VStr "Success")] (VStr "Success")).
  - apply SeeThinkActAgent.reaches_reset.
  - reflexivity.
  - intro ev. reflexivity.
  - reflexivity.
  - reflexivity.
  - reflexivity.
  - reflexivity.
  - reflexivity.
Defined.

(** ** The run: how many calls it makes *)

Lemma count_calls_app kind (a b : list (event * option exn)) :
  count_calls kind (a ++ b) = (count_calls kind a + count_calls kind b)%nat.
Proof.
  unfold count_calls. induction a as [| x a IH]; simpl; [reflexivity |].
  destruct (kind (fst x)); simpl; rewrite IH; reflexivity.
Qed.

Section Logs.

Context {A B : Type}.

Lemma logs_bind (P Q S : list (event * option exn) -> Prop) (m : M A) (k : A -> M B) :
  logs P m -> (forall a, logs Q (k a)) ->
  (forall d1, P d1 -> S d1) ->
  (forall d1 d2, P d1 -> Q d2 -> S (d2 ++ d1)%list) ->
  logs S (bind m k).
Proof.
  intros Hm Hk Hraise Hboth st. unfold bind.
  destruct (Hm st) as (d1 & Hlog1 & HP).
  destruct (m st) as [[a | e] st1]; simpl in Hlog1.
  - destruct (Hk a st1) as (d2 & Hlog2 & HQ).
    exists (d2 ++ d1)%list. split; [| apply Hboth; assumption].
    rewrite Hlog2, Hlog1. apply app_assoc.
  - exists d1. split; [exact Hlog1 | apply Hraise; exact HP].
Qed.

(** A statement that leaves the log alone. *)
Lemma logs_silent (P : list (event * option exn) -> Prop) (m : M A) :
  (forall st, log (snd (m st)) = log st) -> P [] -> logs P m.
Proof. intros Hm HP st. exists []. split; [apply Hm | exact HP]. Qed.

End Logs.

Lemma logs_perform (P : list (event * option exn) -> Prop) w ev :
  (forall o, P [(ev, o)]) -> logs P (perform w ev).
Proof.
  intros HP st. unfold perform.
  destruct (react w ev) as [e |]; eexists [_]; (split; [reflexivity | apply HP]).
Qed.

Lemma acts_nil bound : acts bound [].
Proof. repeat split. apply Nat.le_0_l. Qed.

Lemma acts_app b1 b2 d1 d2 : acts b1 d1 -> acts b2 d2 -> acts (b2 + b1) (d2 ++ d1)%list.
Proof.
  intros (Hc1 & Hh1 & Hs1 & Ho1) (Hc2 & Hh2 & Hs2 & Ho2). unfold acts.
  rewrite !count_calls_app. repeat split; lia.
Qed.

Lemma acts_le b1 b2 d : (b1 <= b2)%nat -> acts b1 d -> acts b2 d.
Proof. intros Hle (Hc & Hh & Hs & Ho). repeat split; try assumption. lia. Qed.

(** Pure statements and pauses add no capture, no round trip and no
    pyautogui call. *)
Lemma acts_bind {A B} b (m : M A) (k : A -> M B) :
  logs (acts 0) m -> (forall a, logs (acts b) (k a)) -> logs (acts b) (bind m k).
Proof.
  intros Hm Hk. apply (logs_bind (acts 0) (acts b)); try assumption.
  - intros d Hd. apply (acts_le 0); [lia | exact Hd].
  - intros d1 d2 H1 H2. replace b with (b + 0)%nat by lia. apply acts_app; assumption.
Qed.

Lemma acts_lift {A} b (r : result A) : logs (acts b) (lift r).
Proof. apply logs_silent; [intro st; destruct r; reflexivity | apply acts_nil]. Qed.

Lemma acts_ret {A} b (a : A) : logs (acts b) (ret a).
Proof. apply logs_silent; [reflexivity | apply acts_nil]. Qed.

Lemma acts_set_completed b s : logs (acts b) (SeeThinkActAgent.set_completed s).
Proof. apply logs_silent; [reflexivity | apply acts_nil]. Qed.

Lemma acts_sleep b w seconds : logs (acts b) (perform w (EvSleep seconds)).
Proof. apply logs_perform. intro o. repeat split. apply Nat.le_0_l. Qed.

(** The executor adds at most one pyautogui call and nothing else. *)
Lemma acts_executor self w json_loads action :
  logs (acts 1) (ActionExecutor.execute_computer_use_action self w json_loads action).
Proof.
  intro st.
  destruct (execute_computer_use_action_swallowed self w json_loads action st)
    as [(b & Hb) | (ev & Hev & Hcall)].
  - rewrite Hb. exists []. split; [reflexivity | apply acts_nil].
  - rewrite Hcall. unfold guarded_call.
    assert (Hone : forall o, acts 1 [(ev, o)]).
    { intro o. unfold acts, count_calls. simpl. rewrite Hev.
      destruct ev; try discriminate Hev; simpl; repeat split; lia. }
    destruct (react w ev) as [[| c msg] |]; eexists [_];
      (split; [reflexivity | apply Hone]).
Qed.

Ltac acts_step :=
  first
    [ apply acts_ret
    | apply acts_lift
    | apply acts_set_completed
    | apply acts_sleep
    | apply acts_bind; [| intro]
    | match goal with
      | |- logs _ (if ?b then _ else _) => destruct b
      | |- logs _ (match ?x with _ => _ end) => destruct x
      end ].

Lemma acts__execute_action self json_loads w response :
  logs (acts 1) (SeeThinkActAgent._execute_action self json_loads w response).
Proof.
  unfold SeeThinkActAgent._execute_action.
  apply acts_bind; [apply acts_lift | intro action].
  destruct (negb (truthy action)); [repeat acts_step |].
  apply acts_bind; [apply acts_lift | intros [action_name arguments]].
  apply acts_bind; [apply acts_lift | intro kind].
  destruct (eq_str kind "terminate"); [repeat acts_step |].
  apply acts_bind; [apply acts_lift | intro kind'].
  destruct (eq_str kind' "answer"); [repeat acts_step |].
  apply (logs_bind (acts 1) (acts 0)).
  - apply acts_executor.
  - intro ok. repeat acts_step.
  - auto.
  - intros d1 d2 H1 H2. apply (acts_app 1 0); assumption.
Qed.

(** After a statement that returns without a call, the calls are those of
    what follows. *)
Lemma logs_after_silent {A B} (P : list (event * option exn) -> Prop)
  (m : M A) (k : A -> M B) :
  (forall st, exists a st', m st = (Return a, st') /\ log st' = log st) ->
  (forall a, logs P (k a)) -> logs P (bind m k).
Proof.
  intros Hm Hk st. unfold bind.
  destruct (Hm st) as (a & st' & Hrun & Hlog). rewrite Hrun.
  destruct (Hk a st') as (d & Hd & HP). exists d. rewrite Hd, Hlog. split; auto.
Qed.

(** The calls of [_capture_current_state]: the capture, and the save when
    the capture returned. *)
Lemma _capture_current_state_logs self w :
  logs (fun d => count_calls is_capture d = 1%nat /\ count_calls is_chat d = 0%nat /\
                 count_calls os_event d = 0%nat)
    (SeeThinkActAgent._capture_current_state self w).
Proof.
  intro st. unfold SeeThinkActAgent._capture_current_state, bind, perform,
    SeeThinkActAgent.get_state, ret.
  destruct (react w EvCapture) as [e |].
  - eexists [_]. split; [reflexivity | repeat split].
  - destruct (SeeThinkActAgent.save_screenshots self).
    + simpl. destruct (react w (EvSave _)) as [e |];
        eexists [_; _]; (split; [reflexivity | repeat split]).
    + eexists [_]. split; [reflexivity | repeat split].
Qed.

(** The calls of [_think_and_decide]: the round trip. *)
Lemma _think_and_decide_logs task w :
  logs (fun d => count_calls is_capture d = 0%nat /\ count_calls is_chat d = 1%nat /\
                 count_calls os_event d = 0%nat)
    (SeeThinkActAgent._think_and_decide task w).
Proof.
  intro st. unfold SeeThinkActAgent._think_and_decide, bind, perform,
    SeeThinkActAgent.get_state, ret.
  match goal with |- context [react w ?ev] => destruct (react w ev) as [e |] end;
    eexists [_]; (split; [reflexivity | repeat split]).
Qed.

(** The calls of one iteration, however it ends. *)
Lemma iteration_one_round self json_loads task env :
  logs one_round (SeeThinkActAgent.iteration self json_loads task env).
Proof.
  unfold SeeThinkActAgent.iteration.
  apply logs_after_silent;
    [intro st; eexists; eexists; split; reflexivity | intros _].
  apply logs_after_silent;
    [intro st; eexists; eexists; split; reflexivity | intro st0].
  cbv zeta.
  eapply logs_bind with
    (Q := fun d => count_calls is_capture d = 0%nat /\
                   (count_calls is_chat d <= 1)%nat /\
                   (count_calls os_event d <= count_calls is_chat d)%nat).
  - apply _capture_current_state_logs.
  - intros _.
    eapply logs_bind with (Q := acts 1).
    + apply _think_and_decide_logs.
    + intro response.
      apply logs_after_silent;
        [intro st; eexists; eexists; split; reflexivity | intros _].
      eapply logs_bind with (Q := acts 0).
      * apply acts__execute_action.
      * intros _. apply acts_sleep.
      * auto.
      * intros d1 d2 H1 H2. apply (acts_app 1 0); assumption.
    + intros d (Hc & Hh & Ho). repeat split; lia.
    + intros d1 d2 (Hc1 & Hh1 & Ho1) (Hc2 & Hh2 & Hs2 & Ho2).
      rewrite !count_calls_app. repeat split; lia.
  - intros d (Hc & Hh & Ho). unfold one_round. repeat split; lia.
  - intros d1 d2 (Hc1 & Hh1 & Ho1) (Hc2 & Hh2 & Ho2). unfold one_round.
    rewrite !count_calls_app. repeat split; lia.
Qed.

Lemma iteration_tallied self json_loads task env st :
  SeeThinkActAgent.loop_condition self st = true ->
  tallied self st ->
  tallied self (snd (SeeThinkActAgent.iteration self json_loads task env st)).
Proof.
  intros Hcond (Hos & Hchat & Hcap & Hmax).
  destruct (loop_condition_lt self st Hcond) as [Hlt _].
  pose proof (iteration_counts self json_loads task env st) as Hcount.
  destruct (iteration_one_round self json_loads task env st)
    as (delta & Hlog & Hc & Hh & Ho).
  unfold tallied. rewrite Hlog, Hcount, !count_calls_app.
  repeat split; lia.
Qed.

Lemma while_loop_tallied self json_loads task env (fuel : nat) (st : state) r st' :
  SeeThinkActAgent.while_loop self json_loads task env fuel st = Some (r, st') ->
  tallied self st -> tallied self st'.
Proof.
  revert st. induction fuel as [| fuel IH]; intros st Hloop Hst;
    simpl in Hloop;
    destruct (SeeThinkActAgent.loop_condition self st) eqn:Hcond;
    try discriminate;
    try (injection Hloop as <- <-; exact Hst).
  pose proof (iteration_tallied self json_loads task env st Hcond Hst) as Hnext.
  destruct (SeeThinkActAgent.iteration self json_loads task env st)
    as [[[] | e] st1]; simpl in Hnext.
  - apply (IH st1 Hloop Hnext).
  - injection Hloop as <- <-. exact Hnext.
Qed.

(** X15.  Every run, however it ends: it makes exactly one screen capture
    per iteration it counts, at most one round trip to the model per capture
    and at most one pyautogui call per round trip, and it counts no more
    iterations than [max_iterations].  So the agent never acts without a
    fresh decision of the model, and never more than [max_iterations]
    times. *)
Theorem calls_are_bounded_by_iterations
  (self : SeeThinkActAgent.t) (json_loads : string -> result value) (task : string)
  (env : Z -> step_env) :
  exists r st,
    SeeThinkActAgent.run self json_loads task env = Some (r, st) /\
    (count_calls os_event (log st) <= count_calls is_chat (log st))%nat /\
    (count_calls is_chat (log st) <= count_calls is_capture (log st))%nat /\
    Z.of_nat (count_calls is_capture (log st)) = SeeThinkActAgent.iterations r /\
    0 <= SeeThinkActAgent.iterations r <= Z.max 0 (SeeThinkActAgent.max_iterations self).
Proof.
  destruct (run_total self json_loads task env) as (r & st & Hrun).
  exists r, st. split; [exact Hrun |].
  unfold SeeThinkActAgent.run in Hrun.
  destruct (SeeThinkActAgent.while_loop self json_loads task env _ _)
    as [[o st0] |] eqn:Hloop; [| discriminate].
  injection Hrun as <- <-.
  assert (Hreset : tallied self SeeThinkActAgent.reset).
  { unfold tallied, count_calls. split; [simpl; lia |]. split; [simpl; lia |].
    split; [reflexivity | apply Z.le_max_l]. }
  destruct (while_loop_tallied _ _ _ _ _ _ _ _ Hloop Hreset) as (Hos & Hchat & Hcap & Hmax).
  assert (Hiter : SeeThinkActAgent.iterations (SeeThinkActAgent.result_of self o st0)
                  = iteration_count st0).
  { destruct o as [[] | [| c msg]]; simpl; [destruct (task_completed st0) | |];
      reflexivity. }
  rewrite Hiter. repeat split; try assumption; lia.
Qed.

(** ** The run: what the conversation history holds *)

Lemma same_history_refl st : same_history st st.
Proof. split; reflexivity. Qed.

Lemma same_history_trans st1 st2 st3 :
  same_history st1 st2 -> same_history st2 st3 -> same_history st1 st3.
Proof. unfold same_history. intros [? ?] [? ?]. split; congruence. Qed.

Lemma bind_unfold {A B} (m : M A) (k : A -> M B) st :
  bind m k st =
  match m st with
  | (Return a, st') => k a st'
  | (Raise e, st') => (Raise e, st')
  end.
Proof. reflexivity. Qed.

Lemma _think_and_decide_outcome task w st :
  exists q,
    SeeThinkActAgent._think_and_decide task w st =
    match react w (EvChat q) with
    | None => (Return (chat_reply w), record (EvChat q) None st)
    | Some e => (Raise e, record (EvChat q) (Some e) st)
    end.
Proof.
  unfold SeeThinkActAgent._think_and_decide, bind, SeeThinkActAgent.get_state,
    perform, ret.
  exists (if Z.eqb (iteration_count st) 0
          then SeeThinkActAgent.first_prompt task
          else SeeThinkActAgent.next_prompt task).
  destruct (react w _); reflexivity.
Qed.

(** What an iteration does to the history: it appends the reply of the model
    under the number of the iteration, once the round trip has returned. *)
Lemma iteration_history self json_loads task env st o st' :
  let entry := (iteration_count st + 1, chat_reply (env (iteration_count st + 1))) in
  SeeThinkActAgent.iteration self json_loads task env st = (o, st') ->
  match o with
  | Return _ => conversation_history st' = (conversation_history st ++ [entry])%list
  | Raise _ =>
      conversation_history st' = conversation_history st \/
      conversation_history st' = (conversation_history st ++ [entry])%list
  end.
Proof.
  intros entry Hrun. rewrite iteration_unfold in Hrun.
  set (w := env (iteration_count st + 1)) in *.
  set (st0 := snd (SeeThinkActAgent.incr_iteration st)) in *.
  assert (Hrecord : forall ev r s, same_history s (record ev r s))
    by (intros; split; reflexivity).
  unfold after_increment in Hrun.
  pose proof (_capture_current_state_respects same_history same_history_refl
                same_history_trans (fun ev r s _ => Hrecord ev r s) self w st0) as Hcap.
  rewrite bind_unfold in Hrun.
  destruct (SeeThinkActAgent._capture_current_state self w st0) as [[[] | e] st1];
    simpl in Hcap; destruct Hcap as [Hh1 Hc1];
    [| injection Hrun as <- <-; left; exact Hh1].
  rewrite bind_unfold in Hrun.
  destruct (_think_and_decide_outcome task w st1) as (q & Hthink).
  rewrite Hthink in Hrun.
  destruct (react w (EvChat q)) as [e |];
    [injection Hrun as <- <-; left; exact Hh1 |].
  rewrite bind_unfold in Hrun.
  unfold SeeThinkActAgent.remember at 1 in Hrun.
  match type of Hrun with
  | context [bind (SeeThinkActAgent._execute_action self json_loads w _) _ ?s] =>
      set (st3 := s) in Hrun
  end.
  pose proof (_execute_action_respects_always same_history same_history_refl
                same_history_trans (fun ev r s _ => Hrecord ev r s) self json_loads w
                (fun s0 s1 => conj eq_refl eq_refl) (chat_reply w) st3) as Hact.
  assert (Hh3 : conversation_history st3 = (conversation_history st ++ [entry])%list).
  { subst st3. simpl. rewrite Hh1, Hc1. reflexivity. }
  rewrite bind_unfold in Hrun.
  destruct (SeeThinkActAgent._execute_action self json_loads w (chat_reply w) st3)
    as [[ok | e] st4]; simpl in Hact; destruct Hact as [Hh4 _];
    [| injection Hrun as <- <-; right; rewrite Hh4; exact Hh3].
  unfold perform in Hrun.
  destruct (react w (EvSleep (VFloat Float64.half))) as [e |];
    injection Hrun as <- <-; simpl; [right |]; rewrite Hh4; exact Hh3.
Qed.

Lemma replies_next env (n : nat) :
  replies env (S n) =
  (replies env n ++ [(Z.of_nat (S n), chat_reply (env (Z.of_nat (S n))))])%list.
Proof. unfold replies. rewrite seq_S, map_app. reflexivity. Qed.

Lemma while_loop_recorded self json_loads task env (fuel : nat) (st : state) o st' :
  SeeThinkActAgent.while_loop self json_loads task env fuel st = Some (o, st') ->
  recorded env st ->
  match o with
  | Return _ => recorded env st'
  | Raise _ =>
      exists n, conversation_history st' = replies env n /\
                (Z.of_nat n = iteration_count st' \/ Z.of_nat n + 1 = iteration_count st')
  end.
Proof.
  revert st. induction fuel as [| fuel IH]; intros st Hloop Hst;
    simpl in Hloop;
    destruct (SeeThinkActAgent.loop_condition self st) eqn:Hcond;
    try discriminate;
    try (injection Hloop as <- <-; exact Hst).
  destruct Hst as [Hpos Hhist].
  pose proof (iteration_counts self json_loads task env st) as Hcount.
  pose proof (iteration_history self json_loads task env st) as Hstep.
  cbv zeta in Hstep.
  assert (Hnext : Z.to_nat (iteration_count st + 1) = S (Z.to_nat (iteration_count st)))
    by lia.
  assert (Hentry : (conversation_history st ++
                    [(iteration_count st + 1, chat_reply (env (iteration_count st + 1)))])%list
                   = replies env (S (Z.to_nat (iteration_count st)))).
  { rewrite replies_next, Hhist.
    replace (Z.of_nat (S (Z.to_nat (iteration_count st)))) with (iteration_count st + 1)
      by lia.
    reflexivity. }
  destruct (SeeThinkActAgent.iteration self json_loads task env st)
    as [[[] | e] st1]; simpl in Hcount; specialize (Hstep _ _ eq_refl);
    simpl in Hstep.
  - apply (IH st1 Hloop). split; [lia |]. rewrite Hcount, Hnext, Hstep. exact Hentry.
  - injection Hloop as <- <-.
    destruct Hstep as [Hsame | Hmore].
    + exists (Z.to_nat (iteration_count st)). split; [congruence | right; lia].
    + exists (S (Z.to_nat (iteration_count st))). split; [congruence | left; lia].
Qed.

(** X16.  Every run, however it ends, leaves in [conversation_history] the
    replies of the model in order, numbered from 1: one entry per iteration,
    or one less when the last iteration was cut short by an error or an
    interrupt before the reply came. *)
Theorem history_records_each_reply
  (self : SeeThinkActAgent.t) (json_loads : string -> result value) (task : string)
  (env : Z -> step_env) :
  exists r st (n : nat),
    SeeThinkActAgent.run self json_loads task env = Some (r, st) /\
    conversation_history st = replies env n /\
    (Z.of_nat n = SeeThinkActAgent.iterations r \/
     Z.of_nat n + 1 = SeeThinkActAgent.iterations r /\
     (SeeThinkActAgent.status r = VStr "error" \/
      SeeThinkActAgent.status r = VStr "interrupted")).
Proof.
  destruct (run_total self json_loads task env) as (r & st & Hrun).
  exists r, st.
  unfold SeeThinkActAgent.run in Hrun |- *.
  destruct (SeeThinkActAgent.while_loop self json_loads task env _ _)
    as [[o st0] |] eqn:Hloop; [| discriminate].
  injection Hrun as <- <-.
  assert (Hreset : recorded env SeeThinkActAgent.reset) by (split; [simpl; lia | reflexivity]).
  pose proof (while_loop_recorded _ _ _ _ _ _ _ _ Hloop Hreset) as Hend.
  destruct o as [[] | e].
  - destruct Hend as [Hpos Hhist].
    exists (Z.to_nat (iteration_count st0)). split; [reflexivity |].
    split; [exact Hhist |]. left.
    simpl. destruct (task_completed st0); simpl; lia.
  - destruct Hend as (n & Hhist & Hn).
    exists n. split; [reflexivity |]. split; [exact Hhist |].
    destruct e as [| c msg]; simpl; destruct Hn as [Hn | Hn]; auto.
Qed.

(** ** [test_connection]: when a model counts as available *)

Lemma prefix_refl (s : string) : prefix s s = true.
Proof.
  induction s as [| ch s IH]; simpl; [reflexivity |].
  destruct (ascii_dec ch ch) as [_ | Hne]; [exact IH | contradiction Hne; reflexivity].
Qed.

Lemma contains_refl (s : string) : contains s s = true.
Proof. rewrite contains_unfold, prefix_refl. reflexivity. Qed.

Lemma any_contains_strings model (names : list string) :
  OllamaVisionClient.any_contains model (map VStr names) =
  Ok (existsb (contains model) names).
Proof.
  induction names as [| name names IH]; simpl; [reflexivity |].
  destruct (contains model name); simpl; [reflexivity | exact IH].
Qed.

Lemma exact_match_contains model (names : list string) :
  existsb (fun name => eq_str name model) (map VStr names) = true ->
  existsb (contains model) names = true.
Proof.
  induction names as [| name names IH]; simpl; [discriminate |].
  intro H. apply orb_true_iff in H. apply orb_true_iff.
  destruct H as [H | H]; [left | right; exact (IH H)].
  apply String.eqb_eq in H. subst. apply contains_refl.
Qed.

(** X19.  For a listing whose entries all carry a string [name], the model
    counts as available exactly when its name occurs as a substring of a
    listed name: the test for an exact match adds nothing, and a shorter name
    (or the empty one) matches every listed model that contains it. *)
Theorem available_means_substring_match
  (model : string) (d : list (string * value)) (ms : list value) (names : list string) :
  lookup "models" d = Some (VList ms) ->
  OllamaVisionClient.names_of ms = Ok (map VStr names) ->
  OllamaVisionClient.test_connection model (Return (VDict d)) =
  Return (existsb (contains model) names).
Proof.
  intros Hmodels Hnames. unfold OllamaVisionClient.test_connection.
  rewrite py_get_dict, Hmodels. cbn [bind_result OllamaVisionClient.iterate].
  rewrite Hnames. cbn [bind_result].
  destruct (existsb (fun name => eq_str name model) (map VStr names)) eqn:Hexact.
  - rewrite (exact_match_contains model names Hexact). reflexivity.
  - rewrite any_contains_strings. reflexivity.
Qed.

Lemma available_means_substring_match_witness :
  OllamaVisionClient.test_connection "qwen3-vl"
    (Return (VDict [("models",
                     VList [VDict [("name", VStr "llama3:8b")];
                            VDict [("name", VStr "qwen3-vl:235b-cloud")]])])) =
  Return (existsb (contains "qwen3-vl") ["llama3:8b"; "qwen3-vl:235b-cloud"]).
Proof.
  apply (available_means_substring_match "qwen3-vl"
           [("models",
             VList [VDict [("name", VStr "llama3:8b")];
                    VDict [("name", VStr "qwen3-vl:235b-cloud")]])]
           [VDict [("name", VStr "llama3:8b")];
            VDict [("name", VStr "qwen3-vl:235b-cloud")]]
           ["llama3:8b"; "qwen3-vl:235b-cloud"]).
  - reflexivity.
  - reflexivity.
Defined.

Lemma names_of_fails (ms : list value) (m : value) c msg :
  In m ms -> py_item m "name" = Err c msg ->
  exists c' msg', OllamaVisionClient.names_of ms = Err c' msg'.
Proof.
  induction ms as [| m0 ms IH]; intros Hin Hbad; [contradiction |].
  simpl. destruct (py_item m0 "name") as [name |c0 msg0] eqn:Hhead; simpl.
  - destruct Hin as [-> | Hin]; [congruence |].
    destruct (IH Hin Hbad) as (c' & msg' & Hrest). rewrite Hrest. simpl.
    eexists; eexists; reflexivity.
  - eexists; eexists; reflexivity.
Qed.

(** X20.  One entry of the listing without a [name] key is enough for
    [test_connection] to answer [False], whatever the other entries are:
    the [KeyError] of the comprehension is caught as a connection error,
    even when the model is listed. *)
Theorem entry_without_name_hides_models
  (model : string) (d : list (string * value)) (ms : list value)
  (entry : list (string * value)) :
  lookup "models" d = Some (VList ms) ->
  In (VDict entry) ms ->
  lookup "name" entry = None ->
  OllamaVisionClient.test_connection model (Return (VDict d)) = Return false.
Proof.
  intros Hmodels Hin Hmissing. unfold OllamaVisionClient.test_connection.
  rewrite py_get_dict, Hmodels. cbn [bind_result OllamaVisionClient.iterate].
  destruct (names_of_fails ms (VDict entry) KeyError "name" Hin) as (c & msg & Hnames).
  - simpl. rewrite Hmissing. reflexivity.
  - rewrite Hnames. reflexivity.
Qed.

Lemma entry_without_name_hides_models_witness :
  OllamaVisionClient.test_connection "qwen3-vl:235b-cloud"
    (Return (VDict [("models",
                     VList [VDict [("name", VStr "qwen3-vl:235b-cloud")];
                            VDict [("model", VStr "llama3:8b")]])])) =
  Return false.
Proof.
  apply (entry_without_name_hides_models "qwen3-vl:235b-cloud"
           [("models",
             VList [VDict [("name", VStr "qwen3-vl:235b-cloud")];
                    VDict [("model", VStr "llama3:8b")]])]
           [VDict [("name", VStr "qwen3-vl:235b-cloud")];
            VDict [("model", VStr "llama3:8b")]]
           [("model", VStr "llama3:8b")]).
  - reflexivity.
  - simpl. auto.
  - reflexivity.
Defined.

(** ** The run: how the saved screenshots are numbered *)

Lemma saved_app (d l : list (event * option exn)) :
  saved (d ++ l) = (saved l ++ saved d)%list.
Proof. unfold saved. rewrite rev_app_distr, flat_map_app. reflexivity. Qed.

Lemma saved_cons ev o (l : list (event * option exn)) :
  saved ((ev, o) :: l) =
  (saved l ++ match ev, o with EvSave n, None => [n] | _, _ => [] end)%list.
Proof.
  change ((ev, o) :: l) with ([(ev, o)] ++ l)%list. rewrite saved_app.
  unfold saved at 2. simpl. rewrite app_nil_r. reflexivity.
Qed.

Lemma saved_none (d : list (event * option exn)) :
  count_calls is_save d = 0%nat -> saved d = [].
Proof.
  induction d as [| x d IH]; intro Hnone; [reflexivity |].
  change (x :: d) with ([x] ++ d)%list. rewrite saved_app.
  unfold count_calls in Hnone. simpl in Hnone.
  destruct x as [ev o]. simpl in Hnone.
  destruct ev; simpl in Hnone; try discriminate Hnone;
    rewrite (IH Hnone); reflexivity.
Qed.

Lemma logs_weaken {A} (P Q : list (event * option exn) -> Prop) (m : M A) :
  logs P m -> (forall d, P d -> Q d) -> logs Q m.
Proof.
  intros Hm Himp st. destruct (Hm st) as (d & Hlog & HP).
  exists d. split; [exact Hlog | apply Himp; exact HP].
Qed.

(** What follows the capture in an iteration saves nothing. *)
Lemma after_capture_saves_nothing self json_loads task w :
  logs (fun d => count_calls is_save d = 0%nat)
    (response <- SeeThinkActAgent._think_and_decide task w ;;
     SeeThinkActAgent.remember response ;;;
     _ <- SeeThinkActAgent._execute_action self json_loads w response ;;
     perform w (EvSleep (VFloat Float64.half))).
Proof.
  set (none := fun d : list (event * option exn) => count_calls is_save d = 0%nat).
  assert (Happ : forall d1 d2, none d1 -> none d2 -> none (d2 ++ d1)%list).
  { unfold none. intros d1 d2 H1 H2. rewrite count_calls_app. lia. }
  apply (logs_bind none none); [| | auto | exact Happ].
  - intro st. unfold SeeThinkActAgent._think_and_decide, bind, perform,
      SeeThinkActAgent.get_state, ret.
    match goal with |- context [react w ?ev] => destruct (react w ev) as [e |] end;
      eexists [_]; (split; [reflexivity | reflexivity]).
  - intro response.
    apply logs_after_silent;
      [intro st; eexists; eexists; split; reflexivity | intros _].
    apply (logs_bind none none); [| | auto | exact Happ].
    + apply (logs_weaken (acts 1)); [apply acts__execute_action |].
      intros d (_ & _ & Hs & _). exact Hs.
    + intros _. apply logs_perform. intro o. reflexivity.
Qed.

(** The screenshots an iteration saves: the one numbered by the iteration,
    once the capture and the save have returned and when saving is on. *)
Lemma iteration_saves self json_loads task env st o st' :
  let mine := if SeeThinkActAgent.save_screenshots self
              then [iteration_count st + 1] else [] in
  SeeThinkActAgent.iteration self json_loads task env st = (o, st') ->
  match o with
  | Return _ => saved (log st') = (saved (log st) ++ mine)%list
  | Raise _ =>
      saved (log st') = saved (log st) \/
      saved (log st') = (saved (log st) ++ mine)%list
  end.
Proof.
  intros mine Hrun. rewrite iteration_unfold in Hrun.
  set (w := env (iteration_count st + 1)) in *.
  set (st0 := snd (SeeThinkActAgent.incr_iteration st)) in *.
  unfold after_increment in Hrun.
  rewrite bind_unfold in Hrun.
  assert (Hrest : forall st1 : state,
            saved (log st1) = (saved (log st) ++ mine)%list ->
            (response <- SeeThinkActAgent._think_and_decide task w ;;
             SeeThinkActAgent.remember response ;;;
             _ <- SeeThinkActAgent._execute_action self json_loads w response ;;
             perform w (EvSleep (VFloat Float64.half))) st1 = (o, st') ->
            saved (log st') = (saved (log st) ++ mine)%list).
  { intros st1 Hst1 Hend.
    destruct (after_capture_saves_nothing self json_loads task w st1)
      as (d & Hlog & Hnone).
    rewrite Hend in Hlog. simpl in Hlog.
    rewrite Hlog, saved_app, (saved_none d Hnone), app_nil_r. exact Hst1. }
  assert (Hfinal : saved (log st') = (saved (log st) ++ mine)%list ->
                   match o with
                   | Return _ => saved (log st') = (saved (log st) ++ mine)%list
                   | Raise _ =>
                       saved (log st') = saved (log st) \/
                       saved (log st') = (saved (log st) ++ mine)%list
                   end)
    by (intro H; destruct o; [exact H | right; exact H]).
  unfold SeeThinkActAgent._capture_current_state in Hrun.
  rewrite bind_unfold in Hrun. unfold perform at 1 in Hrun.
  destruct (react w EvCapture) as [e |].
  - injection Hrun as <- <-. left. simpl log. rewrite saved_cons, app_nil_r.
    reflexivity.
  - unfold mine in *. destruct (SeeThinkActAgent.save_screenshots self).
    + rewrite bind_unfold in Hrun. unfold SeeThinkActAgent.get_state at 1 in Hrun.
      unfold perform at 1 in Hrun.
      match type of Hrun with
      | context [react w (EvSave ?n)] => destruct (react w (EvSave n)) as [e |]
      end.
      * injection Hrun as <- <-. left. simpl log.
        rewrite !saved_cons, !app_nil_r. reflexivity.
      * apply Hfinal. eapply Hrest; [| exact Hrun]. simpl log.
        rewrite !saved_cons, app_nil_r. reflexivity.
    + apply Hfinal. eapply Hrest; [| exact Hrun]. simpl log.
      rewrite saved_cons. reflexivity.
Qed.

Lemma numbers_next (k : nat) : numbers (S k) = (numbers k ++ [Z.of_nat (S k)])%list.
Proof. unfold numbers. rewrite seq_S, map_app. reflexivity. Qed.

Lemma while_loop_numbered self json_loads task env (fuel : nat) (st : state) o st' :
  SeeThinkActAgent.while_loop self json_loads task env fuel st = Some (o, st') ->
  numbered self st ->
  exists k : nat,
    saved (log st') = numbers k /\
    Z.of_nat k <= iteration_count st' /\
    if SeeThinkActAgent.save_screenshots self
    then iteration_count st' <= Z.of_nat k + 1
    else k = 0%nat.
Proof.
  assert (Hdone : forall s, numbered self s ->
            exists k : nat,
              saved (log s) = numbers k /\
              Z.of_nat k <= iteration_count s /\
              if SeeThinkActAgent.save_screenshots self
              then iteration_count s <= Z.of_nat k + 1
              else k = 0%nat).
  { intros s [Hpos Hsaved].
    destruct (SeeThinkActAgent.save_screenshots self).
    - exists (Z.to_nat (iteration_count s)). split; [exact Hsaved | lia].
    - exists 0%nat. split; [exact Hsaved | split; [lia | reflexivity]]. }
  revert st. induction fuel as [| fuel IH]; intros st Hloop Hst;
    simpl in Hloop;
    destruct (SeeThinkActAgent.loop_condition self st) eqn:Hcond;
    try discriminate;
    try (injection Hloop as <- <-; apply Hdone; exact Hst).
  pose proof (iteration_counts self json_loads task env st) as Hcount.
  pose proof (iteration_saves self json_loads task env st) as Hstep.
  cbv zeta in Hstep.
  destruct Hst as [Hpos Hsaved].
  assert (Hnext : Z.to_nat (iteration_count st + 1) = S (Z.to_nat (iteration_count st)))
    by lia.
  destruct (SeeThinkActAgent.iteration self json_loads task env st)
    as [[[] | e] st1]; simpl in Hcount; specialize (Hstep _ _ eq_refl);
    simpl in Hstep.
  - apply (IH st1 Hloop). split; [lia |]. rewrite Hstep, Hsaved, Hcount, Hnext.
    destruct (SeeThinkActAgent.save_screenshots self); [| reflexivity].
    rewrite numbers_next. f_equal. f_equal. lia.
  - injection Hloop as <- <-. rewrite Hsaved in Hstep.
    destruct (SeeThinkActAgent.save_screenshots self).
    + destruct Hstep as [Hsame | Hmore].
      * exists (Z.to_nat (iteration_count st)). split; [exact Hsame | lia].
      * exists (S (Z.to_nat (iteration_count st))). split; [| lia].
        rewrite Hmore, numbers_next. f_equal. f_equal. lia.
    + exists 0%nat. split; [| split; [lia | reflexivity]].
      destruct Hstep as [H | H]; rewrite H; reflexivity.
Qed.

(** X23.  Every run, however it ends: the screenshots it saved (the calls
    of [image.save] that returned) are numbered 1, 2, ..., k in the order
    they were saved, the number being the count of the iteration (the first
    file is number 1, not 0); with saving on, k is the number of iterations,
    or one less when the last capture or the last save failed, and with
    saving off nothing is saved. *)
Theorem screenshots_are_numbered_by_iteration
  (self : SeeThinkActAgent.t) (json_loads : string -> result value) (task : string)
  (env : Z -> step_env) :
  exists r st (k : nat),
    SeeThinkActAgent.run self json_loads task env = Some (r, st) /\
    saved (log st) = numbers k /\
    Z.of_nat k <= SeeThinkActAgent.iterations r /\
    if SeeThinkActAgent.save_screenshots self
    then SeeThinkActAgent.iterations r <= Z.of_nat k + 1
    else k = 0%nat.
Proof.
  destruct (run_total self json_loads task env) as (r & st & Hrun).
  exists r, st.
  unfold SeeThinkActAgent.run in Hrun |- *.
  destruct (SeeThinkActAgent.while_loop self json_loads task env _ _)
    as [[o st0] |] eqn:Hloop; [| discriminate].
  injection Hrun as <- <-.
  assert (Hreset : numbered self SeeThinkActAgent.reset).
  { split; [simpl; lia |]. destruct (SeeThinkActAgent.save_screenshots self); reflexivity. }
  destruct (while_loop_numbered _ _ _ _ _ _ _ _ Hloop Hreset) as (k & Hsaved & Hle & Hk).
  assert (Hiter : SeeThinkActAgent.iterations (SeeThinkActAgent.result_of self o st0)
                  = iteration_count st0).
  { destruct o as [[] | [| c msg]]; simpl; [destruct (task_completed st0) | |];
      reflexivity. }
  exists k. rewrite Hiter. split; [reflexivity |]. split; [exact Hsaved |].
  split; [exact Hle | exact Hk].
Qed.

(** A save that fails has saved nothing: when [image.save] raises in the
    first iteration the run ends there with status ["error"], one iteration
    counted and no screenshot saved. *)
Example failed_save_saves_nothing :
  exists r st,
    SeeThinkActAgent.run (Scenario.agent 3) Scenario.no_json Scenario.task
      (fun _ => {| react := Mishap.disk_is_full; chat_reply := VNone |}) = Some (r, st) /\
    SeeThinkActAgent.status r = VStr "error" /\
    SeeThinkActAgent.iterations r = 1 /\
    saved (log st) = [].
Proof.
  eexists. eexists. split; [vm_compute; reflexivity |].
  split; [reflexivity |]. split; reflexivity.
Qed.
